(** * python-spreadsheet: cell addressing, cell store and alignment

    A shallow embedding of [src/spreadsheet/classes.py] and
    [src/spreadsheet/format.py].

    Conventions of the embedding:
    - Python [int] is [Z]; Python [str] is [string], read as a sequence of
      ASCII characters.
    - [str(n)] and [int(s)] are Python builtins; they are modelled below by
      [str_of_int] and [int_of_str] (decimal digits, optional sign, ASCII
      white space stripped).  The interpreter's configurable cap on the
      number of digits in such conversions is not modelled.
    - Objects with identity ([Cell], [Spreadsheet]) live in a [World]; a
      method is a function in the state-and-exception monad [M]. *)

From Stdlib Require Import ZArith String Ascii List Lia.
From stdpp Require Import base decidable option list gmap strings.
From Equations Require Import Equations.
Import ListNotations.

Local Open Scope string_scope.
Local Open Scope Z_scope.

(** ** Python builtins on characters and strings *)

Module Py.

(** [ord(c)] *)
Definition ord (c : ascii) : Z := Z.of_nat (nat_of_ascii c).
Arguments ord c%_char.

(** [len(s)] *)
Definition len (s : string) : Z := Z.of_nat (String.length s).

(** [string.ascii_uppercase] *)
Definition ascii_uppercase : string := "ABCDEFGHIJKLMNOPQRSTUVWXYZ".

(** [c in s] for a one-character string [c] *)
Fixpoint char_in (c : ascii) (s : string) : bool :=
  match s with
  | EmptyString => false
  | String d s' => if Ascii.eqb c d then true else char_in c s'
  end.

(** [c.upper()] for an ASCII character *)
Definition upper (c : ascii) : ascii :=
  if (ord "a" <=? ord c) && (ord c <=? ord "z")
  then ascii_of_nat (nat_of_ascii c - 32)
  else c.

(** [c.lower()] for an ASCII character *)
Definition lower (c : ascii) : ascii :=
  if (ord "A" <=? ord c) && (ord c <=? ord "Z")
  then ascii_of_nat (nat_of_ascii c + 32)
  else c.

(** [s.lower()] *)
Fixpoint lower_str (s : string) : string :=
  match s with
  | EmptyString => EmptyString
  | String c s' => String (lower c) (lower_str s')
  end.

(** [s[i]] for [0 <= i < len(s)]; outside that range Python raises
    [IndexError] (negative indices are not used by the program). *)
Definition index (s : string) (i : Z) : option ascii :=
  if i <? 0 then None else String.get (Z.to_nat i) s.

(** [" " * n] *)
Definition spaces (n : Z) : string :=
  fold_right (fun c s => String c s) EmptyString (replicate (Z.to_nat n) " "%char).

(** [s.split(sep)] for a one-character separator, as the first piece and the
    list of the pieces after it: the result of [split] is never empty. *)
Fixpoint split_pieces (sep : ascii) (s : string) : string * list string :=
  match s with
  | EmptyString => (EmptyString, [])
  | String c s' =>
      let '(piece, rest) := split_pieces sep s' in
      if Ascii.eqb c sep then (EmptyString, piece :: rest)
      else (String c piece, rest)
  end.

Definition split (sep : ascii) (s : string) : list string :=
  let '(piece, rest) := split_pieces sep s in piece :: rest.

(** Decimal digits. *)
Definition is_digit (c : ascii) : bool :=
  (ord "0" <=? ord c) && (ord c <=? ord "9").

Definition digit_char (d : Z) : ascii := ascii_of_nat (Z.to_nat (ord "0" + d)).

(** The digits of a positive number, most significant first, in front of
    [acc]. *)
Equations? digits_of (n : Z) (acc : string) : string by wf (Z.to_nat n) lt :=
  digits_of n acc with Z_lt_dec 0 n => {
    | left _ := digits_of (n / 10) (String (digit_char (n mod 10)) acc)
    | right _ := acc }.
Proof.
  assert (n / 10 < n) by (apply Z.div_lt; lia).
  assert (0 <= n / 10) by (apply Z.div_pos; lia).
  lia.
Qed.

(** [str(n)] for an [int] *)
Definition str_of_int (n : Z) : string :=
  if n =? 0 then "0"
  else if n <? 0 then String "-" (digits_of (- n) "")
  else digits_of n "".

(** ASCII white space, as skipped by [int()] *)
Definition is_space (c : ascii) : bool :=
  ((9 <=? ord c) && (ord c <=? 13)) || (ord c =? 32).

Fixpoint lstrip (s : string) : string :=
  match s with
  | String c s' => if is_space c then lstrip s' else s
  | EmptyString => EmptyString
  end.

Fixpoint rstrip (s : string) : string :=
  match s with
  | EmptyString => EmptyString
  | String c s' =>
      match rstrip s' with
      | EmptyString => if is_space c then EmptyString else String c EmptyString
      | r => String c r
      end
  end.

Definition strip (s : string) : string := rstrip (lstrip s).

(** The value of a run of decimal digits read after [acc]; [None] as soon as
    a character is not a digit. *)
Fixpoint digits_value (acc : Z) (s : string) : option Z :=
  match s with
  | EmptyString => Some acc
  | String c s' =>
      if is_digit c then digits_value (acc * 10 + (ord c - ord "0")) s'
      else None
  end.

Definition unsigned_of_str (s : string) : option Z :=
  match s with
  | EmptyString => None
  | _ => digits_value 0 s
  end.

(** [int(s)] for a string without underscores (the program only applies it to
    a piece of [split("_")]); [None] stands for [ValueError]. *)
Definition int_of_str (s : string) : option Z :=
  match strip s with
  | String c d =>
      if Ascii.eqb c "+" then unsigned_of_str d
      else if Ascii.eqb c "-" then Z.opp <$> unsigned_of_str d
      else unsigned_of_str (String c d)
  | EmptyString => None
  end.

(** [enumerate(l)] *)
Definition enumerate {A} (l : list A) : list (Z * A) :=
  imap (fun i x => (Z.of_nat i, x)) l.

(** [range(start, stop)] *)
Definition range (start stop : Z) : list Z :=
  map (fun i => start + Z.of_nat i) (seq 0 (Z.to_nat (stop - start))).

End Py.

(** ** Exceptions *)

(** Identity of a [Cell] object and of a [Spreadsheet] object. *)
Abbreviation loc := nat (only parsing).
Abbreviation sheet_ref := nat (only parsing).

(** What the program can raise.  The two [Exception_*] constructors are the
    [raise Exception(...)] statements of [classes.py]; the others are raised
    by builtins.  The text of "Unable to find cell" interpolates [str(cell)],
    which is kept symbolic as the cell's identity.  [NoSuchObject] has no
    Python counterpart: it marks a reference that is not in the [World]. *)
Inductive exn :=
| Exception_out_of_bounds (message : string)
| Exception_unable_to_find_cell (cell : loc)
| ValueError_int (literal : string)
| ValueError_max_empty
| IndexError
| KeyError (key : string)
| RecursionError
| NoSuchObject.

(** The exceptions that a [raise] statement of the program constructs. *)
Definition raised_by_program (e : exn) : bool :=
  match e with
  | Exception_out_of_bounds _ | Exception_unable_to_find_cell _ => true
  | _ => false
  end.

Inductive result (A : Type) :=
| Ok (a : A)
| Error (e : exn).
Arguments Ok {A} a.
Arguments Error {A} e.

Definition result_bind {A B} (r : result A) (k : A -> result B) : result B :=
  match r with
  | Ok a => k a
  | Error e => Error e
  end.

(** ** Cell addressing (module-level functions of [classes.py]) *)

(** The body of the [while id > 0] loop of [column_id_from_number], with the
    loop variables [id] and [string_id].  [divmod] by a positive number is
    [Z.div] and [Z.modulo]; the remainder always indexes the alphabet, so the
    [IndexError] branch only keeps the definition total. *)
Equations? column_id_loop (id : Z) (string_id : string) : string
  by wf (Z.to_nat id) lt :=
  column_id_loop id string_id with Z_lt_dec 0 id => {
    | left _ with Py.index Py.ascii_uppercase
                    ((id - 1) mod Py.len Py.ascii_uppercase) => {
        | Some letter :=
            column_id_loop ((id - 1) / Py.len Py.ascii_uppercase)
                           (String letter string_id)
        | None := string_id }
    | right _ := string_id }.
Proof.
  change (Py.len Py.ascii_uppercase) with 26.
  assert (0 <= (id - 1) / 26) by (apply Z.div_pos; lia).
  assert ((id - 1) / 26 <= id - 1) by (apply Z.div_le_upper_bound; lia).
  lia.
Qed.

Definition column_id_from_number (id : Z) : string :=
  column_id_loop id "".

(** The body of the [for c in column_id] loop of [number_from_column_id]. *)
Fixpoint number_loop (num : Z) (column_id : string) : Z :=
  match column_id with
  | EmptyString => num
  | String c rest =>
      number_loop
        (if Py.char_in c Py.ascii_uppercase
         then num * Py.len Py.ascii_uppercase + (Py.ord (Py.upper c) - Py.ord "A") + 1
         else num)
        rest
  end.

Definition number_from_column_id (column_id : string) : Z :=
  number_loop 0 column_id.

Definition row_number_from_cell_id (cell_id : string) : result Z :=
  match Py.split "_" cell_id !! 0%nat with
  | Some piece =>
      match Py.int_of_str piece with
      | Some n => Ok n
      | None => Error (ValueError_int piece)
      end
  | None => Error IndexError
  end.

Definition column_number_from_cell_id (cell_id : string) : result Z :=
  match Py.split "_" cell_id !! 1%nat with
  | Some piece => Ok (number_from_column_id piece)
  | None => Error IndexError
  end.

Definition position_from_cell_id (cell_id : string) : result (Z * Z) :=
  result_bind (row_number_from_cell_id cell_id) (fun row =>
  result_bind (column_number_from_cell_id cell_id) (fun column =>
  Ok (row, column))).

Definition format_cell_id (row_id : Z) (column_id : string) : string :=
  Py.str_of_int row_id +:+ "_" +:+ column_id.

Definition cell_id_from_position (position : Z * Z) : string :=
  format_cell_id (fst position) (column_id_from_number (snd position)).

(** The generator [column_ids_from_number], as the list of what it yields. *)
Definition column_ids_from_number (length : Z) : list string :=
  map column_id_from_number (Py.range 0 length).

(** ** Objects and the world *)

(** A deferred computation is named by an identifier; a table of
    computations gives the identifiers their meaning (section [Deferred]). *)
Abbreviation callable_id := nat (only parsing).

(** [T_cell_value] without [float]: the literal values and the callables. *)
Inductive cell_value :=
| VNone
| VStr (s : string)
| VInt (n : Z)
| VCallable (f : callable_id).

Inductive format_ref := format_noop | format_seconds | format_other (f : nat).
Inductive render_ref := render_noop | highlight | render_other (f : nat).

Module Alignment.
Definition LEFT : string := "left".
Definition CENTER : string := "center".
Definition RIGHT : string := "right".
End Alignment.

(** The attributes of a [Cell] object. *)
Record Cell := mkCell {
  _value : cell_value;
  spreadsheet : sheet_ref;
  format_fn : format_ref;
  render_fn : render_ref;
  alignment : string;
}.

(** A Python [dict] from cell key to [Cell] object: the entries in insertion
    order, keys unique. *)
Abbreviation dict := (list (string * loc)) (only parsing).

Fixpoint dict_get (d : dict) (key : string) : option loc :=
  match d with
  | [] => None
  | (k, v) :: d' => if String.eqb k key then Some v else dict_get d' key
  end.

(** [d[key] = v]: an existing key keeps its place. *)
Fixpoint dict_set (d : dict) (key : string) (v : loc) : dict :=
  match d with
  | [] => [(key, v)]
  | (k, v') :: d' =>
      if String.eqb k key then (k, v) :: d' else (k, v') :: dict_set d' key v
  end.

Fixpoint dict_del (d : dict) (key : string) : dict :=
  match d with
  | [] => []
  | (k, v) :: d' => if String.eqb k key then d' else (k, v) :: dict_del d' key
  end.

Definition dict_keys (d : dict) : list string := map fst d.

(** The heap: every [Cell] and every [Spreadsheet] (its [cells] attribute)
    ever constructed, indexed by identity. *)
Record World := mkWorld {
  cell_objs : list Cell;
  sheet_objs : list dict;
}.

Definition empty_world : World := mkWorld [] [].

(** ** The state-and-exception monad *)

Inductive outcome (A : Type) :=
| Returns (a : A) (w : World)
| Raises (e : exn) (w : World).
Arguments Returns {A} a w.
Arguments Raises {A} e w.

Definition M (A : Type) : Type := World -> outcome A.

Definition ret {A} (a : A) : M A := fun w => Returns a w.

Definition raise {A} (e : exn) : M A := fun w => Raises e w.

Definition bind {A B} (c : M A) (k : A -> M B) : M B :=
  fun w =>
    match c w with
    | Returns a w' => k a w'
    | Raises e w' => Raises e w'
    end.

Notation "'let!' x ':=' c 'in' k" := (bind c (fun x => k))
  (at level 10, x pattern, c at level 100, k at level 200).
Notation "c ';;' k" := (bind c (fun _ => k))
  (at level 100, k at level 200, right associativity).

Definition lift {A} (r : result A) : M A :=
  match r with
  | Ok a => ret a
  | Error e => raise e
  end.

(** [for x in l: body(x)] *)
Fixpoint for_each {A} (l : list A) (body : A -> M unit) : M unit :=
  match l with
  | [] => ret tt
  | x :: l' => body x ;; for_each l' body
  end.

(** [[f(x) for x in l]] *)
Fixpoint comprehension {A B} (l : list A) (f : A -> M B) : M (list B) :=
  match l with
  | [] => ret []
  | x :: l' =>
      let! y := f x in
      let! ys := comprehension l' f in
      ret (y :: ys)
  end.

(** [max(l)] on a list of integers *)
Definition py_max (l : list Z) : result Z :=
  match l with
  | [] => Error ValueError_max_empty
  | x :: l' => Ok (fold_left Z.max l' x)
  end.

(** Attribute access through a reference. *)
Definition cell_obj (c : loc) : M Cell :=
  fun w =>
    match cell_objs w !! c with
    | Some o => Returns o w
    | None => Raises NoSuchObject w
    end.

Definition sheet_cells (self : sheet_ref) : M dict :=
  fun w =>
    match sheet_objs w !! self with
    | Some d => Returns d w
    | None => Raises NoSuchObject w
    end.

Definition set_sheet_cells (self : sheet_ref) (d : dict) : M unit :=
  fun w =>
    match sheet_objs w !! self with
    | Some _ => Returns tt (mkWorld (cell_objs w) (<[self := d]> (sheet_objs w)))
    | None => Raises NoSuchObject w
    end.

(** [cell._value = v] *)
Definition set_cell_value (c : loc) (v : cell_value) : M unit :=
  fun w =>
    match cell_objs w !! c with
    | Some o =>
        Returns tt
          (mkWorld
             (<[c := mkCell v (spreadsheet o) (format_fn o) (render_fn o) (alignment o)]>
                (cell_objs w))
             (sheet_objs w))
    | None => Raises NoSuchObject w
    end.

(** ** class Cell: construction *)

(** [Cell.__init__]: the new object gets the next identity. *)
Definition Cell_init (value : cell_value) (spreadsheet : sheet_ref)
    (format_fn : option format_ref) (render_fn : option render_ref)
    (alignment : option string) : M loc :=
  fun w =>
    let format_fn := match format_fn with None => format_noop | Some f => f end in
    let render_fn := match render_fn with None => render_noop | Some f => f end in
    let alignment := match alignment with None => Alignment.LEFT | Some a => a end in
    Returns (length (cell_objs w))
      (mkWorld
         (cell_objs w ++ [mkCell value spreadsheet format_fn render_fn alignment])
         (sheet_objs w)).

(** ** class Selection *)

Definition T_position : Type := Z * Z.
Definition T_bounds : Type := T_position * T_position.

Record Selection := mkSelection { bounds : list T_bounds }.

(** [Selection.__init__]: a tuple of two numbers is truthy, an empty list is
    not. *)
Definition Selection_init (start stop : option T_position)
    (bounds : option (list T_bounds)) : Selection :=
  let self_bounds := [] in
  let self_bounds :=
    match start, stop with
    | Some start, Some stop => [(start, stop)]
    | _, _ => self_bounds
    end in
  let self_bounds :=
    match bounds with
    | Some (b :: bs) => b :: bs
    | _ => self_bounds
    end in
  mkSelection self_bounds.

(** [Selection.__add__] *)
Definition Selection_add (self other : Selection) : Selection :=
  Selection_init None None (Some ([] ++ bounds self ++ bounds other)%list).

(** ** class Spreadsheet *)

(** [Spreadsheet.__init__] *)
Definition Spreadsheet_init : M sheet_ref :=
  fun w =>
    Returns (length (sheet_objs w)) (mkWorld (cell_objs w) (sheet_objs w ++ [[]])).

(** [Spreadsheet.__setitem__] *)
Definition Spreadsheet_setitem (self : sheet_ref) (cell_id : string) (cell : loc)
    : M unit :=
  let! d := sheet_cells self in
  set_sheet_cells self (dict_set d cell_id cell).

(** [Spreadsheet.__getitem__]: [self.cells.get(cell_id, Cell(None, self))].
    The default is an argument of [get], so it is constructed on every call,
    whether the key is present or not. *)
Definition Spreadsheet_getitem (self : sheet_ref) (cell_id : string) : M loc :=
  let! d := sheet_cells self in
  let! placeholder := Cell_init VNone self None None None in
  ret (match dict_get d cell_id with
       | Some cell => cell
       | None => placeholder
       end).

(** [Spreadsheet.__delitem__] *)
Definition Spreadsheet_delitem (self : sheet_ref) (cell_id : string) : M unit :=
  let! d := sheet_cells self in
  match dict_get d cell_id with
  | Some _ => set_sheet_cells self (dict_del d cell_id)
  | None => raise (KeyError cell_id)
  end.

(** [Spreadsheet.__iter__], as the list of the keys iterated over. *)
Definition Spreadsheet_iter (self : sheet_ref) : M (list string) :=
  let! d := sheet_cells self in
  ret (dict_keys d).

(** [Spreadsheet.__len__] *)
Definition Spreadsheet_len (self : sheet_ref) : M Z :=
  let! d := sheet_cells self in
  ret (Z.of_nat (length d)).

(** [T_spreadsheet_value]: an element of the data given to [fill] is a
    [Cell] object or a plain value. *)
Inductive spreadsheet_value :=
| ACell (cell : loc)
| AValue (value : cell_value).

(** [Spreadsheet.fill] *)
Definition Spreadsheet_fill (self : sheet_ref) (data : list (list spreadsheet_value))
    : M unit :=
  for_each (Py.enumerate data) (fun '(row_id, row) =>
    for_each (zip (column_ids_from_number (Z.of_nat (length row))) row)
      (fun '(column_id, value) =>
         let cell_id := format_cell_id row_id column_id in
         let! cell :=
           match value with
           | ACell cell => ret cell
           | AValue value => Cell_init value self None None None
           end in
         let! d := sheet_cells self in
         set_sheet_cells self (dict_set d cell_id cell))).

(** [Spreadsheet.get_num_rows] *)
Definition Spreadsheet_get_num_rows (self : sheet_ref) : M Z :=
  let! d := sheet_cells self in
  let! rows := comprehension (dict_keys d) (fun x => lift (row_number_from_cell_id x)) in
  let! m := lift (py_max rows) in
  ret (m + 1).

(** [Spreadsheet.get_num_columns] *)
Definition Spreadsheet_get_num_columns (self : sheet_ref) : M Z :=
  let! d := sheet_cells self in
  let! columns :=
    comprehension (dict_keys d) (fun x => lift (column_number_from_cell_id x)) in
  let! m := lift (py_max columns) in
  ret (m + 1).

(** [Spreadsheet.get_shape] *)
Definition Spreadsheet_get_shape (self : sheet_ref) : M (Z * Z) :=
  let! rows := Spreadsheet_get_num_rows self in
  let! columns := Spreadsheet_get_num_columns self in
  ret (rows, columns).

(** [Spreadsheet.get_columns]: the outer iterable is evaluated once, the
    inner one once per column. *)
Definition Spreadsheet_get_columns (self : sheet_ref) : M (list (list loc)) :=
  let! columns := Spreadsheet_get_num_columns self in
  comprehension (Py.range 0 columns) (fun x =>
    let! rows := Spreadsheet_get_num_rows self in
    comprehension (Py.range 0 rows) (fun y =>
      Spreadsheet_getitem self (format_cell_id y (column_id_from_number x)))).

(** [Spreadsheet.get_rows] *)
Definition Spreadsheet_get_rows (self : sheet_ref) : M (list (list loc)) :=
  let! rows := Spreadsheet_get_num_rows self in
  comprehension (Py.range 0 rows) (fun y =>
    let! columns := Spreadsheet_get_num_columns self in
    comprehension (Py.range 0 columns) (fun x =>
      Spreadsheet_getitem self (format_cell_id y (column_id_from_number x)))).

(** The first key whose value [is] the given object. *)
Fixpoint dict_key_of (d : dict) (cell : loc) : option string :=
  match d with
  | [] => None
  | (cell_id, cell_instance) :: d' =>
      if Nat.eqb cell_instance cell then Some cell_id else dict_key_of d' cell
  end.

(** [Spreadsheet.get_cell_id] *)
Definition Spreadsheet_get_cell_id (self : sheet_ref) (cell : loc) : M string :=
  let! d := sheet_cells self in
  match dict_key_of d cell with
  | Some cell_id => ret cell_id
  | None => raise (Exception_unable_to_find_cell cell)
  end.

(** [Spreadsheet.get_cell_at_position]; [f"{x=}"] prints the name, [=] and
    the value. *)
Definition Spreadsheet_get_cell_at_position (self : sheet_ref) (position : Z * Z)
    : M loc :=
  let '(x, y) := position in
  if x <? 0 then
    raise (Exception_out_of_bounds ("Out of bounds for x=" +:+ Py.str_of_int x))
  else if y <? 0 then
    raise (Exception_out_of_bounds ("Out of bounds for y=" +:+ Py.str_of_int y))
  else Spreadsheet_getitem self (cell_id_from_position (x, y)).

(** A [for] loop that updates a local variable. *)
Fixpoint for_fold {A S} (l : list A) (s : S) (body : A -> S -> M S) : M S :=
  match l with
  | [] => ret s
  | x :: l' => let! s' := body x s in for_fold l' s' body
  end.

(** [Spreadsheet.get_cells].  [Cell] defines neither [__eq__] nor [__hash__],
    so a [set[Cell]] is a set of object identities. *)
Definition Spreadsheet_get_cells (self : sheet_ref) (selection : Selection)
    : M (gset loc) :=
  for_fold (bounds selection) (∅ : gset loc)
    (fun '((start_row, start_column), (stop_row, stop_column)) cells =>
       for_fold (Py.range start_row stop_row) cells (fun row cells =>
         for_fold (Py.range start_column stop_column) cells (fun column cells =>
           let! cell := Spreadsheet_get_cell_at_position self (row, column) in
           ret (cells ∪ {[cell]})))).

(** ** class Cell: methods *)

(** [Cell.get_cell_id] *)
Definition Cell_get_cell_id (self : loc) : M string :=
  let! o := cell_obj self in
  Spreadsheet_get_cell_id (spreadsheet o) self.

(** [Cell.get_position] *)
Definition Cell_get_position (self : loc) : M (Z * Z) :=
  let! cell_id := Cell_get_cell_id self in
  lift (position_from_cell_id cell_id).

(** [Cell.get_relative_neighbour] *)
Definition Cell_get_relative_neighbour (self : loc) (offset : Z * Z) : M loc :=
  let! (x, y) := Cell_get_position self in
  let x := x + fst offset in
  let y := y + snd offset in
  let! o := cell_obj self in
  Spreadsheet_get_cell_at_position (spreadsheet o) (x, y).

(** A deferred computation receives the cell it is stored in.  Its first
    argument stands for the [value] property of the cells it reads. *)
Definition callable : Type := (loc -> M cell_value) -> loc -> M cell_value.

Section Deferred.

Variable callables : callable_id -> callable.

(** The property [Cell.value].  [depth] bounds the nesting of deferred
    computations, as Python's recursion limit does. *)
Fixpoint Cell_value (depth : nat) (self : loc) : M cell_value :=
  let! o := cell_obj self in
  match _value o with
  | VStr _ | VInt _ => ret (_value o)
  | VCallable f =>
      match depth with
      | O => raise RecursionError
      | S depth' => callables f (Cell_value depth') self
      end
  | VNone => ret (_value o)
  end.

End Deferred.

(** [sum_row] of [classes.py], without its [print]. *)
Definition sum_row : callable := fun _ cell =>
  let! position := Cell_get_position cell in
  let start := (fst position, 1) in
  let stop := (fst position, snd position) in
  let! o := cell_obj cell in
  let! cells :=
    Spreadsheet_get_cells (spreadsheet o) (Selection_init (Some start) (Some stop) None) in
  ret (VInt 0).

(** ** format.py *)

(** [format_align].  [int(math.floor(n / 2.0))] is [n // 2] for the length
    of a string. *)
Definition format_align (string : string) (width : Z) (alignment : String.string)
    : String.string :=
  let alignment_padding := Py.spaces (Z.max (width - Py.len string) 0) in
  if String.eqb alignment "left" then string +:+ alignment_padding
  else if String.eqb alignment "right" then alignment_padding +:+ string
  else if String.eqb alignment "center" then
    let center_alignment_padding := Py.spaces (Py.len alignment_padding / 2) in
    center_alignment_padding +:+ string +:+ center_alignment_padding
      +:+ Py.spaces (Z.max (Py.len alignment_padding
                            - Py.len center_alignment_padding * 2) 0)
  else string.

(** * Definitions used by the statements *)

(** Every character of [s] satisfies [P]. *)
Fixpoint str_forall (P : ascii -> bool) (s : string) : bool :=
  match s with
  | EmptyString => true
  | String c s' => P c && str_forall P s'
  end.

(** Classes of characters: the test [c in string.ascii_uppercase] of the
    decoder, the separator of a key, and what [int()] strips. *)
Definition is_upper (c : ascii) : bool := Py.char_in c Py.ascii_uppercase.
Definition no_underscore (c : ascii) : bool := negb (Ascii.eqb c "_").
Definition no_space (c : ascii) : bool := negb (Py.is_space c).

(** Everything the loops need to know about the 26 letters and the 10
    digits, checked by evaluation. *)
Definition letter_ok (r : Z) : bool :=
  match Py.index Py.ascii_uppercase r with
  | Some c => is_upper c && (Py.ord (Py.upper c) - Py.ord "A" =? r) && no_underscore c
  | None => false
  end.

Definition digit_ok (d : Z) : bool :=
  let c := Py.digit_char d in
  Py.is_digit c && (Py.ord c - Py.ord "0" =? d) && no_underscore c && no_space c
  && negb (Ascii.eqb c "+") && negb (Ascii.eqb c "-").

(** What [str] prints for a positive number. *)
Definition digits (n : Z) : string := Py.digits_of n "".

(** A digit, which is neither the separator nor white space. *)
Definition plain (c : ascii) : bool :=
  Py.is_digit c && no_underscore c && no_space c.

(** The empty cell that [__getitem__] constructs: [Cell(None, self)]. *)
Definition placeholder (self : sheet_ref) : Cell :=
  mkCell VNone self format_noop render_noop Alignment.LEFT.

(** The world after the cells [cs] were constructed in [w]. *)
Definition alloc (w : World) (cs : list Cell) : World :=
  mkWorld (cell_objs w ++ cs) (sheet_objs w).

(** The positions that the loops of [get_cells] visit, in order. *)
Definition bound_positions (b : T_bounds) : list (Z * Z) :=
  let '((start_row, start_column), (stop_row, stop_column)) := b in
  flat_map (fun row => map (fun column => (row, column))
                         (Py.range start_column stop_column))
           (Py.range start_row stop_row).

(** The positions visited for a whole selection, bound after bound. *)
Definition selection_positions (selection : Selection) : list (Z * Z) :=
  flat_map bound_positions (bounds selection).

(** The innermost statement of [get_cells]. *)
Definition add_cell_at (self : sheet_ref) (position : Z * Z) (cells : gset nat)
    : M (gset nat) :=
  let! cell := Spreadsheet_get_cell_at_position self position in
  ret (cells ∪ {[cell]}).

(** A position on which [get_cell_at_position] does not raise. *)
Definition non_negative (position : Z * Z) : Prop :=
  0 <= fst position /\ 0 <= snd position.

(** What the [i]-th lookup of a run returns when the heap had [n] cells at
    the start: every lookup allocates one placeholder. *)
Definition found (d : list (string * nat)) (n i : nat) (position : Z * Z) : nat :=
  default (n + i)%nat (dict_get d (cell_id_from_position position)).

(** A stored value that [Cell.value] returns as it is. *)
Definition is_literal (v : cell_value) : bool :=
  match v with
  | VCallable _ => false
  | _ => true
  end.

(** The deferred computation [lambda cell: cell.get_relative_neighbour(offset).value]. *)
Definition read_neighbour (offset : Z * Z) : callable := fun value cell =>
  let! neighbour := Cell_get_relative_neighbour cell offset in
  value neighbour.

(** The cell that [Cell(v, self)] constructs, with the default formatter,
    renderer and alignment. *)
Definition literal_cell (self : nat) (v : cell_value) : Cell :=
  mkCell v self format_noop render_noop Alignment.LEFT.

(** The grid [[["a","b"],["c","d"]]]. *)
Definition grid_abcd : list (list spreadsheet_value) :=
  [[AValue (VStr "a"); AValue (VStr "b")]; [AValue (VStr "c"); AValue (VStr "d")]].

(** What [fill] stores for it when the heap had [n] cells: keys in insertion
    order, column offset 0 having the empty letter part. *)
Definition grid_dict (n : nat) : list (string * nat) :=
  [("0_", n); ("0_A", n + 1); ("1_", n + 2); ("1_A", n + 3)]%nat.

(** The world after a sheet was constructed in [w] and filled with the
    grid. *)
Definition grid_world (w : World) : World :=
  mkWorld
    (cell_objs w ++ map (literal_cell (length (sheet_objs w)))
                        [VStr "a"; VStr "b"; VStr "c"; VStr "d"])
    (sheet_objs w ++ [grid_dict (length (cell_objs w))]).

(** [[f(x) for x in l]] for a function without effects. *)
Fixpoint result_all {A B} (f : A -> result B) (l : list A) : result (list B) :=
  match l with
  | [] => Ok []
  | x :: l' =>
      result_bind (f x) (fun y =>
      result_bind (result_all f l') (fun ys => Ok (y :: ys)))
  end.

(** One more than the largest number that [f] reads from a key. *)
Definition axis_size (f : string -> result Z) (d : list (string * nat)) : result Z :=
  result_bind (result_all f (dict_keys d)) (fun numbers =>
  result_bind (py_max numbers) (fun m => Ok (m + 1))).

(** The world in which only one sheet was constructed and filled with the
    grid. *)
Definition example_world : World := grid_world empty_world.

(** A sheet whose first row holds a deferred cell and the number 41. *)
Definition deferred_world : World :=
  mkWorld [literal_cell 0 (VCallable 0); literal_cell 0 (VInt 41)]
          [[("0_", 0%nat); ("0_A", 1%nat)]].

(** ** [format_seconds_timecode] of [classes.py] *)

(** ["{:02d}".format(n)]: at least two characters, padded with a zero; a
    negative number already has two. *)
Definition pad2 (n : Z) : string :=
  if (0 <=? n) && (n <? 10) then String "0" (Py.str_of_int n) else Py.str_of_int n.

(** [format_seconds_timecode] for an [int]: [divmod] by a positive number is
    [Z.div] and [Z.modulo], and [int(h)] is [h]. *)
Definition format_seconds_timecode (seconds : Z) (precision : string) : string :=
  let m := seconds / 60 in
  let s := seconds mod 60 in
  let h := m / 60 in
  let m := m mod 60 in
  if String.eqb precision "minutes" then pad2 h +:+ ":" +:+ pad2 m
  else if String.eqb precision "hours" then pad2 h
  else pad2 h +:+ ":" +:+ pad2 m +:+ ":" +:+ pad2 s.

(** * Definitions used by the further properties *)

(** The characters of [s] that satisfy [P], in order. *)
Fixpoint str_filter (P : ascii -> bool) (s : string) : string :=
  match s with
  | EmptyString => EmptyString
  | String c s' => if P c then String c (str_filter P s') else str_filter P s'
  end.

(** A bound of the selection contains the position (start inclusive, stop
    exclusive, as the two [range]s of [get_cells] have it). *)
Definition covers (selection : Selection) (position : Z * Z) : Prop :=
  exists b, In b (bounds selection) /\
            fst (fst b) <= fst position < fst (snd b) /\
            snd (fst b) <= snd position < snd (snd b).

(** The assignment that [fill] makes for one element: the statement
    [self.cells[cell_id] = value if isinstance(value, Cell) else Cell(value, self)]. *)
Definition store (self : sheet_ref) (entry : string * spreadsheet_value) : M unit :=
  let! cell :=
    match snd entry with
    | ACell cell => ret cell
    | AValue value => Cell_init value self None None None
    end in
  let! d := sheet_cells self in
  set_sheet_cells self (dict_set d (fst entry) cell).

(** The elements of one row with their keys, from column offset [c] on, and
    of the rows from row index [r] on: what the two loops of [fill] go
    through, in order. *)
Fixpoint row_entries (r c : nat) (row : list spreadsheet_value)
    : list (string * spreadsheet_value) :=
  match row with
  | [] => []
  | x :: row' =>
      (cell_id_from_position (Z.of_nat r, Z.of_nat c), x) :: row_entries r (S c) row'
  end.

Fixpoint grid_entries (r : nat) (data : list (list spreadsheet_value))
    : list (string * spreadsheet_value) :=
  match data with
  | [] => []
  | row :: data' => (row_entries r 0 row ++ grid_entries (S r) data')%list
  end.

(** What a lookup of [key] made after [n] cells existed, with at most [m]
    more constructed since, may return: the stored cell, or one of the new
    ones. *)
Definition resolved (d : list (string * nat)) (n m : nat) (key : string) (cell : nat)
    : Prop :=
  match dict_get d key with
  | Some stored => cell = stored
  | None => (n <= cell < n + m)%nat
  end.

(** The example world with one more cell, constructed for its sheet and not
    stored; and a world with two empty sheets and one cell constructed for the
    first. *)
Definition unstored_world : World := alloc example_world [literal_cell 0 (VInt 5)].


(** * Properties *)

(** ** Strings *)

#[local] Arguments String.append !s1 s2 : simpl nomatch.

Lemma str_app_assoc (s1 s2 s3 : string) :
  (s1 +:+ s2) +:+ s3 = s1 +:+ (s2 +:+ s3).
Proof. induction s1 as [|c s1 IH]; simpl; [reflexivity | now rewrite IH]. Qed.

Lemma str_app_nil_r (s : string) : s +:+ "" = s.
Proof. induction s as [|c s IH]; simpl; [reflexivity | now rewrite IH]. Qed.

Lemma str_forall_app P (s1 s2 : string) :
  str_forall P (s1 +:+ s2) = str_forall P s1 && str_forall P s2.
Proof.
  induction s1 as [|c s1 IH]; simpl; [reflexivity |].
  now rewrite IH, andb_assoc.
Qed.

Lemma str_forall_impl (P Q : ascii -> bool) (s : string) :
  (forall c, P c = true -> Q c = true) ->
  str_forall P s = true -> str_forall Q s = true.
Proof.
  intros HPQ. induction s as [|c s IH]; simpl; [reflexivity |].
  rewrite !andb_true_iff. intros [Hc Hs]. split; auto.
Qed.

(** ** The two digit loops *)

Lemma column_id_loop_step (id : Z) (string_id : string) :
  column_id_loop id string_id =
  if 0 <? id then
    match Py.index Py.ascii_uppercase ((id - 1) mod Py.len Py.ascii_uppercase) with
    | Some letter =>
        column_id_loop ((id - 1) / Py.len Py.ascii_uppercase) (String letter string_id)
    | None => string_id
    end
  else string_id.
Proof.
  simp column_id_loop.
  destruct (Z_lt_dec 0 id) as [Hpos | Hneg]; simpl.
  - replace (0 <? id) with true by (symmetry; apply Z.ltb_lt; lia).
    destruct (Py.index _ _); reflexivity.
  - replace (0 <? id) with false by (symmetry; apply Z.ltb_ge; lia).
    reflexivity.
Qed.

Lemma digits_of_step (n : Z) (acc : string) :
  Py.digits_of n acc =
  if 0 <? n then Py.digits_of (n / 10) (String (Py.digit_char (n mod 10)) acc)
  else acc.
Proof.
  simp digits_of.
  destruct (Z_lt_dec 0 n) as [Hpos | Hneg]; simpl.
  - replace (0 <? n) with true by (symmetry; apply Z.ltb_lt; lia).
    now simp digits_of.
  - replace (0 <? n) with false by (symmetry; apply Z.ltb_ge; lia). reflexivity.
Qed.

Lemma in_range (i start stop : Z) :
  In i (Py.range start stop) <-> start <= i < stop.
Proof.
  unfold Py.range. rewrite in_map_iff. split.
  - intros (k & <- & Hk). apply in_seq in Hk. lia.
  - intros Hi. exists (Z.to_nat (i - start)). split; [lia |].
    apply in_seq. lia.
Qed.

Lemma letters_table : forallb letter_ok (Py.range 0 26) = true.
Proof. vm_compute. reflexivity. Qed.

Lemma digits_table : forallb digit_ok (Py.range 0 10) = true.
Proof. vm_compute. reflexivity. Qed.

Lemma letter_spec (r : Z) :
  0 <= r < 26 ->
  exists c, Py.index Py.ascii_uppercase r = Some c /\ is_upper c = true
            /\ Py.ord (Py.upper c) - Py.ord "A" = r /\ no_underscore c = true.
Proof.
  intros Hr. pose proof letters_table as Ht.
  rewrite forallb_forall in Ht. specialize (Ht r (proj2 (in_range r 0 26) Hr)).
  unfold letter_ok in Ht. destruct (Py.index Py.ascii_uppercase r) as [c|]; [|discriminate].
  apply andb_true_iff in Ht as [Ht Hu]. apply andb_true_iff in Ht as [Hin Hord].
  exists c. repeat split; auto. now apply Z.eqb_eq.
Qed.

Lemma digit_spec (d : Z) :
  0 <= d < 10 -> digit_ok d = true.
Proof.
  intros Hd. pose proof digits_table as Ht.
  rewrite forallb_forall in Ht. apply Ht, in_range. exact Hd.
Qed.

(** The loop of [column_id_from_number] only prepends to what it was given. *)
Lemma column_id_loop_acc (id : Z) :
  forall acc, column_id_loop id acc = column_id_from_number id +:+ acc.
Proof.
  induction id as [id IH] using (well_founded_induction (Z.lt_wf 0)).
  intros acc. unfold column_id_from_number.
  rewrite (column_id_loop_step id acc), (column_id_loop_step id "").
  destruct (0 <? id) eqn:Hid; [|reflexivity].
  apply Z.ltb_lt in Hid. change (Py.len Py.ascii_uppercase) with 26.
  destruct (letter_spec ((id - 1) mod 26)) as (c & -> & _);
    [apply Z.mod_pos_bound; lia |].
  assert (Hlt : 0 <= (id - 1) / 26 < id).
  { split; [apply Z.div_pos; lia |].
    assert ((id - 1) / 26 <= id - 1) by (apply Z.div_le_upper_bound; lia). lia. }
  rewrite (IH _ Hlt (String c acc)), (IH _ Hlt (String c "")).
  now rewrite str_app_assoc.
Qed.

Lemma column_id_from_number_step (id : Z) :
  0 < id ->
  exists c,
    Py.index Py.ascii_uppercase ((id - 1) mod 26) = Some c /\
    column_id_from_number id = column_id_from_number ((id - 1) / 26) +:+ String c "".
Proof.
  intros Hid.
  destruct (letter_spec ((id - 1) mod 26)) as (c & Hc & _);
    [apply Z.mod_pos_bound; lia |].
  exists c. split; [exact Hc |].
  unfold column_id_from_number at 1. rewrite column_id_loop_step.
  replace (0 <? id) with true by (symmetry; apply Z.ltb_lt; lia).
  change (Py.len Py.ascii_uppercase) with 26. rewrite Hc.
  apply column_id_loop_acc.
Qed.

Lemma column_id_from_number_nonpos (id : Z) :
  id <= 0 -> column_id_from_number id = "".
Proof.
  intros Hid. unfold column_id_from_number. rewrite column_id_loop_step.
  replace (0 <? id) with false by (symmetry; apply Z.ltb_ge; lia). reflexivity.
Qed.

Lemma number_loop_app (s1 s2 : string) :
  forall num, number_loop num (s1 +:+ s2) = number_loop (number_loop num s1) s2.
Proof. induction s1 as [|c s1 IH]; intros num; simpl; [reflexivity | apply IH]. Qed.

Lemma number_loop_cons (num : Z) (c : ascii) (rest : string) :
  number_loop num (String c rest) =
  number_loop (if is_upper c
               then num * 26 + (Py.ord (Py.upper c) - Py.ord "A") + 1
               else num) rest.
Proof. reflexivity. Qed.

(** Decoding undoes encoding, and the encoding consists of capital letters. *)
Lemma column_roundtrip (id : Z) :
  0 <= id ->
  number_from_column_id (column_id_from_number id) = id /\
  str_forall is_upper (column_id_from_number id) = true.
Proof.
  induction id as [id IH] using (well_founded_induction (Z.lt_wf 0)).
  intros Hid. destruct (Z.eq_dec id 0) as [-> | Hne].
  { split; reflexivity. }
  destruct (column_id_from_number_step id) as (c & Hc & ->); [lia |].
  destruct (letter_spec ((id - 1) mod 26)) as (c' & Hc' & Hup & Hord & _);
    [apply Z.mod_pos_bound; lia |].
  rewrite Hc in Hc'. injection Hc' as <-.
  assert (Hlt : 0 <= (id - 1) / 26 < id).
  { split; [apply Z.div_pos; lia |].
    assert ((id - 1) / 26 <= id - 1) by (apply Z.div_le_upper_bound; lia). lia. }
  destruct (IH _ Hlt (proj1 Hlt)) as [IHn IHu].
  split.
  - unfold number_from_column_id in *.
    rewrite number_loop_app, IHn, number_loop_cons, Hup, Hord.
    change (number_loop ?n "") with n.
    pose proof (Z.div_mod (id - 1) 26). lia.
  - rewrite str_forall_app, IHu.
    change (str_forall is_upper (String c "")) with (is_upper c && true).
    now rewrite Hup.
Qed.

(** ** [str] and [int] *)

Lemma digits_of_acc (n : Z) :
  forall acc, Py.digits_of n acc = digits n +:+ acc.
Proof.
  induction n as [n IH] using (well_founded_induction (Z.lt_wf 0)).
  intros acc. unfold digits.
  rewrite (digits_of_step n acc), (digits_of_step n "").
  destruct (0 <? n) eqn:Hn; [|reflexivity].
  apply Z.ltb_lt in Hn.
  assert (Hlt : 0 <= n / 10 < n).
  { split; [apply Z.div_pos; lia | apply Z.div_lt; lia]. }
  rewrite (IH _ Hlt (String _ acc)), (IH _ Hlt (String _ "")).
  now rewrite str_app_assoc.
Qed.

Lemma digits_step (n : Z) :
  0 < n -> digits n = digits (n / 10) +:+ String (Py.digit_char (n mod 10)) "".
Proof.
  intros Hn. unfold digits at 1. rewrite digits_of_step.
  replace (0 <? n) with true by (symmetry; apply Z.ltb_lt; lia).
  apply digits_of_acc.
Qed.

Lemma digits_value_app (s1 s2 : string) :
  forall acc,
    Py.digits_value acc (s1 +:+ s2) =
    match Py.digits_value acc s1 with
    | Some acc' => Py.digits_value acc' s2
    | None => None
    end.
Proof.
  induction s1 as [|c s1 IH]; intros acc; simpl; [reflexivity |].
  destruct (Py.is_digit c); [apply IH | reflexivity].
Qed.

Lemma digits_spec (n : Z) :
  0 <= n ->
  Py.digits_value 0 (digits n) = Some n /\
  str_forall plain (digits n) = true /\
  (0 < n -> exists c d, digits n = String c d /\ Ascii.eqb c "+" = false
                        /\ Ascii.eqb c "-" = false).
Proof.
  induction n as [n IH] using (well_founded_induction (Z.lt_wf 0)).
  intros Hn. destruct (Z.eq_dec n 0) as [-> | Hne].
  { repeat split; try reflexivity. lia. }
  rewrite digits_step by lia.
  assert (Hlt : 0 <= n / 10 < n).
  { split; [apply Z.div_pos; lia | apply Z.div_lt; lia]. }
  destruct (IH _ Hlt (proj1 Hlt)) as (IHv & IHp & IHh).
  pose proof (digit_spec (n mod 10) (Z.mod_pos_bound n 10 eq_refl)) as Hd.
  unfold digit_ok in Hd. repeat rewrite andb_true_iff in Hd.
  destruct Hd as (((((Hdig & Hord) & Hus) & Hsp) & Hplus) & Hminus).
  apply Z.eqb_eq in Hord. apply negb_true_iff in Hplus, Hminus.
  repeat split.
  - rewrite digits_value_app, IHv. simpl. rewrite Hdig, Hord.
    f_equal. pose proof (Z.div_mod n 10). lia.
  - rewrite str_forall_app, IHp. simpl. unfold plain. now rewrite Hdig, Hus, Hsp.
  - intros _. destruct (Z.eq_dec (n / 10) 0) as [Hz | Hnz].
    + rewrite Hz. change (digits 0) with "". simpl. eauto.
    + destruct IHh as (c & d & -> & Hc); [lia |]. simpl. eauto.
Qed.

Lemma lstrip_plain (s : string) :
  str_forall no_space s = true -> Py.lstrip s = s.
Proof.
  destruct s as [|c s]; simpl; [reflexivity |].
  unfold no_space at 1. intros [Hc _]%andb_true_iff.
  apply negb_true_iff in Hc. now rewrite Hc.
Qed.

Lemma rstrip_plain (s : string) :
  str_forall no_space s = true -> Py.rstrip s = s.
Proof.
  induction s as [|c s IH]; simpl; [reflexivity |].
  unfold no_space at 1. intros [Hc Hs]%andb_true_iff.
  apply negb_true_iff in Hc. rewrite (IH Hs), Hc. now destruct s.
Qed.

Lemma plain_no_space (s : string) :
  str_forall plain s = true -> str_forall no_space s = true.
Proof.
  apply str_forall_impl. unfold plain. intros c H.
  now repeat (apply andb_true_iff in H as [H ?]).
Qed.

Lemma plain_no_underscore (s : string) :
  str_forall plain s = true -> str_forall no_underscore s = true.
Proof.
  apply str_forall_impl. unfold plain. intros c H.
  now repeat (apply andb_true_iff in H as [H ?]).
Qed.

(** [int(str(n)) == n] *)
Lemma int_of_str_of_int (n : Z) : Py.int_of_str (Py.str_of_int n) = Some n.
Proof.
  unfold Py.str_of_int.
  destruct (n =? 0) eqn:Hz; [apply Z.eqb_eq in Hz; now subst |].
  apply Z.eqb_neq in Hz.
  destruct (n <? 0) eqn:Hneg.
  - apply Z.ltb_lt in Hneg. fold (digits (- n)).
    destruct (digits_spec (- n)) as (Hv & Hp & Hh); [lia |].
    destruct Hh as (c & d & Hcd & _); [lia |].
    unfold Py.int_of_str, Py.strip.
    rewrite lstrip_plain, rstrip_plain;
      try (simpl; rewrite plain_no_space; auto).
    change (Ascii.eqb "-" "+") with false. change (Ascii.eqb "-" "-") with true.
    cbv iota. unfold Py.unsigned_of_str. rewrite Hcd, <- Hcd, Hv. simpl.
    f_equal. lia.
  - apply Z.ltb_ge in Hneg. fold (digits n).
    destruct (digits_spec n) as (Hv & Hp & Hh); [lia |].
    destruct Hh as (c & d & Hcd & Hplus & Hminus); [lia |].
    unfold Py.int_of_str, Py.strip.
    rewrite lstrip_plain, rstrip_plain; try (apply plain_no_space; auto).
    rewrite Hcd, Hplus, Hminus. unfold Py.unsigned_of_str. now rewrite <- Hcd.
Qed.

Lemma str_of_int_no_underscore (n : Z) :
  str_forall no_underscore (Py.str_of_int n) = true.
Proof.
  unfold Py.str_of_int.
  destruct (n =? 0) eqn:Hz; [reflexivity |]. apply Z.eqb_neq in Hz.
  destruct (n <? 0) eqn:Hneg.
  - apply Z.ltb_lt in Hneg. fold (digits (- n)). simpl.
    apply plain_no_underscore, digits_spec. lia.
  - apply Z.ltb_ge in Hneg. fold (digits n).
    apply plain_no_underscore, digits_spec. lia.
Qed.

(** ** [split] on a key *)

Lemma split_pieces_plain (s : string) :
  str_forall no_underscore s = true -> Py.split_pieces "_" s = (s, []).
Proof.
  induction s as [|c s IH]; simpl; [reflexivity |].
  unfold no_underscore at 1. intros [Hc Hs]%andb_true_iff.
  apply negb_true_iff in Hc. now rewrite (IH Hs), Hc.
Qed.

Lemma split_pieces_key (row column : string) :
  str_forall no_underscore row = true ->
  str_forall no_underscore column = true ->
  Py.split_pieces "_" (row +:+ String "_" column) = (row, [column]).
Proof.
  intros Hrow Hcol.
  induction row as [|c row IH]; simpl.
  - now rewrite (split_pieces_plain _ Hcol).
  - simpl in Hrow. apply andb_true_iff in Hrow as [Hc Hrow].
    rewrite (IH Hrow). unfold no_underscore in Hc. apply negb_true_iff in Hc.
    now rewrite Hc.
Qed.

Lemma split_key (row column : string) :
  str_forall no_underscore row = true ->
  str_forall no_underscore column = true ->
  Py.split "_" (row +:+ "_" +:+ column) = [row; column].
Proof.
  intros Hrow Hcol. unfold Py.split.
  change (row +:+ "_" +:+ column) with (row +:+ String "_" column).
  now rewrite split_pieces_key.
Qed.

Lemma upper_no_underscore (s : string) :
  str_forall is_upper s = true -> str_forall no_underscore s = true.
Proof.
  apply str_forall_impl. intros c Hc. unfold no_underscore.
  destruct (Ascii.eqb_spec c "_") as [-> | _]; [discriminate Hc | reflexivity].
Qed.

(** The key round trip, for every row and every column [>= 0]. *)
Lemma position_roundtrip (row column : Z) :
  0 <= column ->
  position_from_cell_id (cell_id_from_position (row, column)) = Ok (row, column).
Proof.
  intros Hc. destruct (column_roundtrip column Hc) as [Hnum Hup].
  unfold position_from_cell_id, row_number_from_cell_id, column_number_from_cell_id,
    cell_id_from_position, format_cell_id. simpl fst. simpl snd.
  rewrite split_key by auto using str_of_int_no_underscore, upper_no_underscore.
  simpl. now rewrite int_of_str_of_int, Hnum.
Qed.

(** ** The address codec *)

(** C1: for every row [r >= 0] and column number [c >= 1], decoding the
    encoded column gives back [c], and decoding the encoded cell key gives
    back the pair [(r, c)]. *)
Theorem C1_codec_roundtrip (r c : Z) :
  0 <= r -> 1 <= c ->
  number_from_column_id (column_id_from_number c) = c /\
  position_from_cell_id (cell_id_from_position (r, c)) = Ok (r, c).
Proof.
  intros Hr Hc. split.
  - apply column_roundtrip. lia.
  - apply position_roundtrip. lia.
Qed.

Lemma C1_codec_roundtrip_witness :
  0 <= 7 /\ 1 <= 53 /\
  number_from_column_id (column_id_from_number 53) = 53 /\
  position_from_cell_id (cell_id_from_position (7, 53)) = Ok (7, 53).
Proof.
  split; [lia |]. split; [lia |]. apply (C1_codec_roundtrip 7 53); lia.
Defined.

(** C10: the key round trip also holds at column 0: for every row [r >= 0]
    the key of [(r, 0)] has an empty column part, [str(r) + "_"], and decodes
    to exactly [(r, 0)], the empty letter string decoding to 0. *)
Theorem C10_column_zero_roundtrip (r : Z) :
  0 <= r ->
  cell_id_from_position (r, 0) = Py.str_of_int r +:+ "_" /\
  number_from_column_id "" = 0 /\
  position_from_cell_id (cell_id_from_position (r, 0)) = Ok (r, 0).
Proof.
  intros Hr. split; [| split].
  - unfold cell_id_from_position, format_cell_id. simpl fst. simpl snd.
    now rewrite column_id_from_number_nonpos by lia.
  - reflexivity.
  - apply position_roundtrip. lia.
Qed.

Lemma C10_column_zero_roundtrip_witness :
  0 <= 12 /\
  cell_id_from_position (12, 0) = Py.str_of_int 12 +:+ "_" /\
  number_from_column_id "" = 0 /\
  position_from_cell_id (cell_id_from_position (12, 0)) = Ok (12, 0).
Proof.
  split; [lia |]. apply (C10_column_zero_roundtrip 12). lia.
Defined.

(** The decoder is the left-to-right fold [acc = acc*26 + (index + 1)] over
    the capital letters of its input; every other character leaves the
    accumulator as it is. *)
Lemma number_loop_upper (num : Z) (c : ascii) (rest : string) :
  is_upper c = true ->
  number_loop num (String c rest) =
  number_loop (num * 26 + (Py.ord c - Py.ord "A" + 1)) rest.
Proof.
  intros Hc. rewrite number_loop_cons, Hc. f_equal.
  assert (Hup : Py.upper c = c).
  { revert Hc. destruct c as [[] [] [] [] [] [] [] []]; vm_compute;
      intros; (reflexivity || discriminate). }
  rewrite Hup. lia.
Qed.

Lemma number_loop_other (num : Z) (c : ascii) (rest : string) :
  is_upper c = false ->
  number_loop num (String c rest) = number_loop num rest.
Proof. intros Hc. now rewrite number_loop_cons, Hc. Qed.

(** A string without capital letters decodes to 0. *)
Lemma number_loop_no_upper (s : string) :
  forall num, str_forall (fun c => negb (is_upper c)) s = true ->
              number_loop num s = num.
Proof.
  induction s as [|c s IH]; intros num; simpl str_forall; [reflexivity |].
  intros [Hc Hs]%andb_true_iff. apply negb_true_iff in Hc.
  rewrite number_loop_other by exact Hc. now apply IH.
Qed.

(** C2 (the code departs from it): [number_from_column_id] is not
    case-insensitive.  The membership test is made on the character as it
    is, before [upper()] is applied, so a lower-case letter is skipped: "AB"
    decodes to 28 and its lower-cased form "ab" to 0. *)
Theorem C2_lowercase_letters_are_skipped :
  number_from_column_id "AB" = 28 /\
  Py.lower_str "AB" = "ab" /\
  number_from_column_id (Py.lower_str "AB") = 0.
Proof. repeat split. Qed.

(** ** format.py *)

Lemma spaces_len (n : Z) : Py.len (Py.spaces n) = Z.max n 0.
Proof.
  unfold Py.len, Py.spaces.
  assert (H : forall k, String.length
                (fold_right (fun c s => String c s) "" (replicate k " "%char)) = k).
  { induction k as [|k IH]; simpl; [reflexivity | now rewrite IH]. }
  rewrite H. lia.
Qed.

(** C9: [format_align("ab", 5, "right")] is ["   ab"];
    [format_align("ab", 5, "center")] has width 5, with one space on the left
    and two on the right; in general centring puts half of the padding
    (rounded down) on the left and the same plus the odd remainder on the
    right. *)
Theorem C9_format_align_right_and_center :
  format_align "ab" 5 "right" = "   ab" /\
  format_align "ab" 5 "center" = Py.spaces 1 +:+ "ab" +:+ Py.spaces 2 /\
  Py.len (format_align "ab" 5 "center") = 5 /\
  forall (s : string) (width : Z),
    let pad := Z.max (width - Py.len s) 0 in
    format_align s width "center" =
    Py.spaces (pad / 2) +:+ s +:+ Py.spaces (pad / 2) +:+ Py.spaces (pad mod 2).
Proof.
  repeat split.
  intros s width pad. unfold format_align.
  change (String.eqb "center" "left") with false.
  change (String.eqb "center" "right") with false.
  change (String.eqb "center" "center") with true. cbv iota.
  fold pad. rewrite !spaces_len.
  assert (0 <= pad) by (unfold pad; lia).
  assert (0 <= pad / 2) by (apply Z.div_pos; lia).
  pose proof (Z.div_mod pad 2 ltac:(lia)).
  pose proof (Z.mod_pos_bound pad 2 ltac:(lia)).
  rewrite (Z.max_l pad 0) by lia. rewrite (Z.max_l (pad / 2) 0) by lia.
  replace (Z.max (pad - pad / 2 * 2) 0) with (pad mod 2) by lia.
  reflexivity.
Qed.

(** ** Running the methods *)

Lemma alloc_nil (w : World) : alloc w [] = w.
Proof. destruct w as [cs ss]. unfold alloc. simpl. now rewrite app_nil_r. Qed.

Lemma alloc_alloc (w : World) (cs1 cs2 : list Cell) :
  alloc (alloc w cs1) cs2 = alloc w (cs1 ++ cs2).
Proof. unfold alloc. simpl. now rewrite <- app_assoc. Qed.

Lemma alloc_lookup_old (w : World) (cs : list Cell) (c : loc) (o : Cell) :
  cell_objs w !! c = Some o -> cell_objs (alloc w cs) !! c = Some o.
Proof. intros H. simpl. now apply lookup_app_l_Some. Qed.

Lemma alloc_lookup_new (w : World) (cs : list Cell) (i : nat) :
  cell_objs (alloc w cs) !! (length (cell_objs w) + i)%nat = cs !! i.
Proof.
  simpl. rewrite lookup_app_r by lia. f_equal. lia.
Qed.

Lemma bind_run {A B} (c : M A) (k : A -> M B) (w w' : World) (a : A) :
  c w = Returns a w' -> bind c k w = k a w'.
Proof. intros H. unfold bind. now rewrite H. Qed.

Lemma bind_raise {A B} (c : M A) (k : A -> M B) (w w' : World) (e : exn) :
  c w = Raises e w' -> bind c k w = Raises e w'.
Proof. intros H. unfold bind. now rewrite H. Qed.

Lemma sheet_cells_run (w : World) (self : sheet_ref) (d : dict) :
  sheet_objs w !! self = Some d -> sheet_cells self w = Returns d w.
Proof. intros H. unfold sheet_cells. now rewrite H. Qed.

Lemma cell_obj_run (w : World) (c : loc) (o : Cell) :
  cell_objs w !! c = Some o -> cell_obj c w = Returns o w.
Proof. intros H. unfold cell_obj. now rewrite H. Qed.

(** A lookup always returns: the stored cell, or else the placeholder it
    has just constructed; the sheet is not written. *)
Lemma getitem_run (w : World) (self : sheet_ref) (d : dict) (cell_id : string) :
  sheet_objs w !! self = Some d ->
  Spreadsheet_getitem self cell_id w =
  Returns (default (length (cell_objs w)) (dict_get d cell_id))
          (alloc w [placeholder self]).
Proof.
  intros Hd. unfold Spreadsheet_getitem.
  rewrite (bind_run _ _ _ _ _ (sheet_cells_run _ _ _ Hd)).
  unfold bind, Cell_init, ret. now destruct (dict_get d cell_id).
Qed.

Lemma get_cell_at_position_run (w : World) (self : sheet_ref) (d : dict) (x y : Z) :
  sheet_objs w !! self = Some d -> 0 <= x -> 0 <= y ->
  Spreadsheet_get_cell_at_position self (x, y) w =
  Returns (default (length (cell_objs w)) (dict_get d (cell_id_from_position (x, y))))
          (alloc w [placeholder self]).
Proof.
  intros Hd Hx Hy. unfold Spreadsheet_get_cell_at_position.
  replace (x <? 0) with false by (symmetry; apply Z.ltb_ge; lia).
  replace (y <? 0) with false by (symmetry; apply Z.ltb_ge; lia).
  now apply getitem_run.
Qed.

Lemma get_cell_at_position_negative (w : World) (self : sheet_ref) (x y : Z) :
  x < 0 \/ y < 0 ->
  exists message,
    Spreadsheet_get_cell_at_position self (x, y) w =
    Raises (Exception_out_of_bounds message) w.
Proof.
  intros Hneg. unfold Spreadsheet_get_cell_at_position.
  destruct (x <? 0) eqn:Hx; [eexists; reflexivity |].
  destruct (y <? 0) eqn:Hy; [eexists; reflexivity |].
  apply Z.ltb_ge in Hx, Hy. lia.
Qed.

Lemma get_cell_id_run (w : World) (self : sheet_ref) (d : dict) (cell : loc)
    (cell_id : string) :
  sheet_objs w !! self = Some d -> dict_key_of d cell = Some cell_id ->
  Spreadsheet_get_cell_id self cell w = Returns cell_id w.
Proof.
  intros Hd Hk. unfold Spreadsheet_get_cell_id.
  rewrite (bind_run _ _ _ _ _ (sheet_cells_run _ _ _ Hd)). now rewrite Hk.
Qed.

Lemma get_position_run (w : World) (self : loc) (o : Cell) (d : dict)
    (cell_id : string) (position : Z * Z) :
  cell_objs w !! self = Some o ->
  sheet_objs w !! spreadsheet o = Some d ->
  dict_key_of d self = Some cell_id ->
  position_from_cell_id cell_id = Ok position ->
  Cell_get_position self w = Returns position w.
Proof.
  intros Ho Hd Hk Hp. unfold Cell_get_position, Cell_get_cell_id.
  rewrite (bind_run _ _ w w cell_id).
  - now rewrite Hp.
  - rewrite (bind_run _ _ _ _ _ (cell_obj_run _ _ _ Ho)).
    now apply get_cell_id_run with d.
Qed.

(** [get_relative_neighbour] is the owning sheet's lookup at the shifted
    position. *)
Lemma get_relative_neighbour_run (w : World) (self : loc) (o : Cell) (d : dict)
    (cell_id : string) (row column : Z) (offset : Z * Z) :
  cell_objs w !! self = Some o ->
  sheet_objs w !! spreadsheet o = Some d ->
  dict_key_of d self = Some cell_id ->
  position_from_cell_id cell_id = Ok (row, column) ->
  Cell_get_relative_neighbour self offset w =
  Spreadsheet_get_cell_at_position (spreadsheet o)
    (row + fst offset, column + snd offset) w.
Proof.
  intros Ho Hd Hk Hp. unfold Cell_get_relative_neighbour.
  rewrite (bind_run _ _ _ _ _ (get_position_run _ _ _ _ _ _ Ho Hd Hk Hp)).
  now rewrite (bind_run _ _ _ _ _ (cell_obj_run _ _ _ Ho)).
Qed.

(** ** Lookups *)

(** C4: for every sheet and every key absent from its store, the lookup
    returns, without raising, a fresh empty cell (no raw value, back-reference
    to this sheet) and leaves the store as it was: the placeholder is not
    inserted, so the keys and the cells stored are the same before and
    after, and every object that existed is unchanged. *)
Theorem C4_read_miss_returns_placeholder (w : World) (self : sheet_ref) (d : dict)
    (cell_id : string) :
  sheet_objs w !! self = Some d ->
  dict_get d cell_id = None ->
  exists (cell : loc) (o : Cell) (w' : World),
    Spreadsheet_getitem self cell_id w = Returns cell w' /\
    cell_objs w !! cell = None /\
    cell_objs w' !! cell = Some o /\
    _value o = VNone /\ spreadsheet o = self /\
    sheet_objs w' = sheet_objs w /\
    sheet_objs w' !! self = Some d /\
    (forall c' o', cell_objs w !! c' = Some o' -> cell_objs w' !! c' = Some o').
Proof.
  intros Hd Hmiss.
  exists (length (cell_objs w)), (placeholder self), (alloc w [placeholder self]).
  split; [| split; [| split; [| split; [| split; [| split; [| split]]]]]].
  - rewrite (getitem_run w self d cell_id Hd), Hmiss. reflexivity.
  - apply lookup_ge_None. lia.
  - rewrite <- (Nat.add_0_r (length (cell_objs w))). now rewrite alloc_lookup_new.
  - reflexivity.
  - reflexivity.
  - reflexivity.
  - exact Hd.
  - intros c' o'. apply alloc_lookup_old.
Qed.

(** C6: for every cell present in its owning sheet, at the position
    [(row, column)] that its key decodes to, and every offset [(dr, dc)]:
    when [row + dr] and [column + dc] are both non-negative,
    [get_relative_neighbour] returns what the sheet's lookup returns for the
    key of [(row + dr, column + dc)] (the stored cell, or a placeholder when
    the key is absent); it raises, and then the out-of-bounds exception, if
    and only if one of the two is negative. *)
Theorem C6_relative_neighbour (w : World) (self : loc) (o : Cell) (d : dict)
    (cell_id : string) (row column dr dc : Z) :
  cell_objs w !! self = Some o ->
  sheet_objs w !! spreadsheet o = Some d ->
  dict_key_of d self = Some cell_id ->
  position_from_cell_id cell_id = Ok (row, column) ->
  (0 <= row + dr /\ 0 <= column + dc ->
   Cell_get_relative_neighbour self (dr, dc) w =
     Spreadsheet_getitem (spreadsheet o) (cell_id_from_position (row + dr, column + dc)) w
   /\ exists (cell : loc) (w' : World),
        Cell_get_relative_neighbour self (dr, dc) w = Returns cell w' /\
        match dict_get d (cell_id_from_position (row + dr, column + dc)) with
        | Some stored => cell = stored
        | None => cell_objs w !! cell = None /\
                  cell_objs w' !! cell = Some (placeholder (spreadsheet o))
        end) /\
  ((exists e w', Cell_get_relative_neighbour self (dr, dc) w = Raises e w') <->
   (row + dr < 0 \/ column + dc < 0)) /\
  (forall e w', Cell_get_relative_neighbour self (dr, dc) w = Raises e w' ->
                exists message, e = Exception_out_of_bounds message).
Proof.
  intros Ho Hd Hk Hp.
  pose proof (get_relative_neighbour_run w self o d cell_id row column (dr, dc)
                Ho Hd Hk Hp) as Hrun.
  simpl fst in Hrun. simpl snd in Hrun.
  assert (Hok : 0 <= row + dr /\ 0 <= column + dc ->
                Cell_get_relative_neighbour self (dr, dc) w =
                Returns (default (length (cell_objs w))
                           (dict_get d (cell_id_from_position (row + dr, column + dc))))
                        (alloc w [placeholder (spreadsheet o)])).
  { intros [Hx Hy]. rewrite Hrun. now apply get_cell_at_position_run. }
  split; [| split].
  - intros Hpos. split.
    + rewrite (Hok Hpos). symmetry. now apply getitem_run.
    + eexists _, _. split; [exact (Hok Hpos) |].
      destruct (dict_get d _) as [stored|]; simpl default; [reflexivity |].
      split; [apply lookup_ge_None; lia |].
      rewrite <- (Nat.add_0_r (length (cell_objs w))). now rewrite alloc_lookup_new.
  - split.
    + intros (e & w' & Hraise).
      destruct (Z_lt_dec (row + dr) 0) as [Hx | Hx]; [now left |].
      destruct (Z_lt_dec (column + dc) 0) as [Hy | Hy]; [now right |].
      rewrite Hok in Hraise by lia. discriminate.
    + intros Hneg.
      destruct (get_cell_at_position_negative w (spreadsheet o) _ _ Hneg) as [m Hm].
      exists (Exception_out_of_bounds m), w. now rewrite Hrun.
  - intros e w' Hraise.
    destruct (Z_lt_dec (row + dr) 0) as [Hx | Hx];
      [| destruct (Z_lt_dec (column + dc) 0) as [Hy | Hy]].
    + destruct (get_cell_at_position_negative w (spreadsheet o) (row + dr) (column + dc))
        as [m Hm]; [now left |].
      rewrite Hrun, Hm in Hraise. injection Hraise as <- _. now exists m.
    + destruct (get_cell_at_position_negative w (spreadsheet o) (row + dr) (column + dc))
        as [m Hm]; [now right |].
      rewrite Hrun, Hm in Hraise. injection Hraise as <- _. now exists m.
    + rewrite Hok in Hraise by lia. discriminate.
Qed.

(** ** Shape of an empty sheet *)

Lemma init_run (w : World) :
  Spreadsheet_init w =
  Returns (length (sheet_objs w)) (mkWorld (cell_objs w) (sheet_objs w ++ [[]])).
Proof. reflexivity. Qed.

Lemma init_sheet_is_empty (w : World) :
  sheet_objs (mkWorld (cell_objs w) (sheet_objs w ++ [[]])) !! length (sheet_objs w)
  = Some [].
Proof.
  simpl. rewrite lookup_app_r by lia. now rewrite Nat.sub_diag.
Qed.

Lemma get_num_rows_empty (w : World) (self : sheet_ref) :
  sheet_objs w !! self = Some [] ->
  Spreadsheet_get_num_rows self w = Raises ValueError_max_empty w.
Proof.
  intros Hd. unfold Spreadsheet_get_num_rows.
  now rewrite (bind_run _ _ _ _ _ (sheet_cells_run _ _ _ Hd)).
Qed.

Lemma get_num_columns_empty (w : World) (self : sheet_ref) :
  sheet_objs w !! self = Some [] ->
  Spreadsheet_get_num_columns self w = Raises ValueError_max_empty w.
Proof.
  intros Hd. unfold Spreadsheet_get_num_columns.
  now rewrite (bind_run _ _ _ _ _ (sheet_cells_run _ _ _ Hd)).
Qed.

(** C3, as the code has it: on a freshly constructed sheet, [get_num_rows]
    and [get_num_columns] do not return; the [max] over the empty list of
    keys raises the builtin [ValueError], which is not an exception that a
    [raise] statement of the program constructs. *)
Theorem C3_empty_sheet_shape_raises_builtin_error (w : World) :
  (let! s := Spreadsheet_init in Spreadsheet_get_num_rows s) w =
    Raises ValueError_max_empty (mkWorld (cell_objs w) (sheet_objs w ++ [[]])) /\
  (let! s := Spreadsheet_init in Spreadsheet_get_num_columns s) w =
    Raises ValueError_max_empty (mkWorld (cell_objs w) (sheet_objs w ++ [[]])) /\
  raised_by_program ValueError_max_empty = false.
Proof.
  split; [| split]; [| | reflexivity].
  - rewrite (bind_run _ _ _ _ _ (init_run w)).
    apply get_num_rows_empty, init_sheet_is_empty.
  - rewrite (bind_run _ _ _ _ _ (init_run w)).
    apply get_num_columns_empty, init_sheet_is_empty.
Qed.

(** C3 as stated fails: no exception of the program's own is raised by
    [get_num_rows] on a fresh sheet. *)
Lemma C3_no_explicit_error_counterexample :
  ~ (exists e w',
       (let! s := Spreadsheet_init in Spreadsheet_get_num_rows s) empty_world
         = Raises e w' /\
       raised_by_program e = true).
Proof.
  intros (e & w' & Hrun & Hexplicit).
  vm_compute in Hrun. injection Hrun as <- _. discriminate Hexplicit.
Qed.

(** ** Selections *)

Lemma for_fold_app {A S} (l1 l2 : list A) (body : A -> S -> M S) :
  forall s w,
    for_fold (l1 ++ l2) s body w =
    (let! s' := for_fold l1 s body in for_fold l2 s' body) w.
Proof.
  induction l1 as [|x l1 IH]; intros s w; simpl; [reflexivity |].
  unfold bind. destruct (body x s w) as [s' w' | e w']; [| reflexivity].
  rewrite IH. reflexivity.
Qed.

Lemma for_fold_ext {A S} (l : list A) (body1 body2 : A -> S -> M S) :
  (forall x s w, body1 x s w = body2 x s w) ->
  forall s w, for_fold l s body1 w = for_fold l s body2 w.
Proof.
  intros Hext. induction l as [|x l IH]; intros s w; simpl; [reflexivity |].
  unfold bind. rewrite Hext. destruct (body2 x s w); [apply IH | reflexivity].
Qed.

Lemma for_fold_map {A B S} (g : A -> B) (l : list A) (body : B -> S -> M S) :
  forall s w, for_fold (map g l) s body w = for_fold l s (fun x => body (g x)) w.
Proof.
  induction l as [|x l IH]; intros s w; simpl; [reflexivity |].
  unfold bind. destruct (body (g x) s w); [apply IH | reflexivity].
Qed.

Lemma for_fold_flat_map {A B S} (f : A -> list B) (l : list A) (body : B -> S -> M S) :
  forall s w,
    for_fold l s (fun x s => for_fold (f x) s body) w =
    for_fold (flat_map f l) s body w.
Proof.
  induction l as [|x l IH]; intros s w; simpl; [reflexivity |].
  rewrite for_fold_app. unfold bind.
  destruct (for_fold (f x) s body w); [apply IH | reflexivity].
Qed.

Lemma get_cells_flat (self : sheet_ref) (selection : Selection) (w : World) :
  Spreadsheet_get_cells self selection w =
  for_fold (selection_positions selection) ∅ (add_cell_at self) w.
Proof.
  unfold Spreadsheet_get_cells, selection_positions.
  rewrite <- for_fold_flat_map. apply for_fold_ext.
  intros [[start_row start_column] [stop_row stop_column]] cells w'.
  unfold bound_positions. rewrite <- for_fold_flat_map. apply for_fold_ext.
  intros row cells' w''. now rewrite for_fold_map.
Qed.

Lemma positions_loop (self : sheet_ref) (d : list (string * nat)) :
  forall (positions : list (Z * Z)) (w : World) (cells : gset nat),
    sheet_objs w !! self = Some d ->
    Forall non_negative positions ->
    for_fold positions cells (add_cell_at self) w =
    Returns (cells ∪ list_to_set (imap (found d (length (cell_objs w))) positions))
            (alloc w (replicate (length positions) (placeholder self))).
Proof.
  induction positions as [|[x y] positions IH]; intros w cells Hd Hpos.
  - simpl. now rewrite alloc_nil, union_empty_r_L.
  - apply Forall_cons in Hpos as [[Hx Hy] Hpos]. simpl in Hx, Hy.
    simpl for_fold. unfold add_cell_at at 1.
    rewrite (bind_run _ _ w (alloc w [placeholder self])
               (cells ∪ {[found d (length (cell_objs w)) 0 (x, y)]})).
    2: { rewrite (bind_run _ _ _ _ _ (get_cell_at_position_run w self d x y Hd Hx Hy)).
         unfold found. now rewrite Nat.add_0_r. }
    rewrite IH by assumption.
    rewrite alloc_alloc. f_equal.
    simpl imap. rewrite list_to_set_cons, (assoc_L (∪)). do 2 f_equal.
    apply imap_ext. intros i pos _. unfold found. simpl.
    rewrite length_app. simpl. f_equal. lia.
Qed.

(** The functional description of [get_cells] on non-negative positions. *)
Lemma get_cells_run (w : World) (self : sheet_ref) (d : list (string * nat))
    (selection : Selection) :
  sheet_objs w !! self = Some d ->
  Forall non_negative (selection_positions selection) ->
  Spreadsheet_get_cells self selection w =
  Returns (list_to_set (imap (found d (length (cell_objs w)))
                             (selection_positions selection)))
          (alloc w (replicate (length (selection_positions selection))
                              (placeholder self))).
Proof.
  intros Hd Hpos. rewrite get_cells_flat, (positions_loop self d) by assumption.
  now rewrite union_empty_l_L.
Qed.

(** A visited position whose key is absent contributes the placeholder
    constructed for that visit. *)
Lemma get_cells_placeholder (w : World) (self : sheet_ref) (d : list (string * nat))
    (selection : Selection) (i : nat) (position : Z * Z) :
  selection_positions selection !! i = Some position ->
  dict_get d (cell_id_from_position position) = None ->
  let cell := (length (cell_objs w) + i)%nat in
  cell ∈ (list_to_set (imap (found d (length (cell_objs w)))
                            (selection_positions selection)) : gset nat) /\
  cell_objs w !! cell = None /\
  cell_objs (alloc w (replicate (length (selection_positions selection))
                                (placeholder self))) !! cell
    = Some (placeholder self).
Proof.
  intros Hi Hmiss cell. split; [| split].
  - apply elem_of_list_to_set, elem_of_lookup_imap. exists i, position.
    split; [| exact Hi]. unfold found. now rewrite Hmiss.
  - apply lookup_ge_None. unfold cell. lia.
  - unfold cell. rewrite alloc_lookup_new. apply lookup_replicate_2.
    now apply lookup_lt_Some in Hi.
Qed.

Lemma in_bound_positions (b : T_bounds) (row column : Z) :
  In (row, column) (bound_positions b) <->
  fst (fst b) <= row < fst (snd b) /\ snd (fst b) <= column < snd (snd b).
Proof.
  destruct b as [[r0 c0] [r1 c1]]. unfold bound_positions. simpl fst. simpl snd.
  rewrite in_flat_map. split.
  - intros (r & Hr & Hin). apply in_map_iff in Hin as (c & [= <- <-] & Hc).
    apply in_range in Hr, Hc. lia.
  - intros [Hr Hc]. exists row. split; [now apply in_range |].
    apply in_map_iff. exists column. split; [reflexivity | now apply in_range].
Qed.

Lemma bound_positions_non_negative (b : T_bounds) :
  non_negative (fst b) -> Forall non_negative (bound_positions b).
Proof.
  intros [Hr Hc]. apply List.Forall_forall. intros [row column] Hin.
  apply in_bound_positions in Hin. unfold non_negative. simpl. lia.
Qed.

Lemma selection_of_one_bound (start stop : Z * Z) :
  selection_positions (Selection_init (Some start) (Some stop) None)
  = bound_positions (start, stop).
Proof. unfold selection_positions. simpl. apply app_nil_r. Qed.

Lemma selection_of_two_bounds (start1 stop1 start2 stop2 : Z * Z) :
  selection_positions
    (Selection_add (Selection_init (Some start1) (Some stop1) None)
                   (Selection_init (Some start2) (Some stop2) None))
  = (bound_positions (start1, stop1) ++ bound_positions (start2, stop2))%list.
Proof. unfold selection_positions. simpl. now rewrite app_nil_r. Qed.

(** C5: [get_cells] collects object identities.  On a sheet that stores four
    distinct cells at the four positions of the bound [((0,0),(2,2))] the
    result is the set of these four cells; a bound (with non-negative start)
    that covers a position whose key is absent gives, without raising, a set
    that contains a freshly constructed empty cell; and when two bounds of a
    selection cover the same absent position, the two lookups contribute two
    different placeholder objects to the set. *)
Theorem C5_get_cells_by_identity (w : World) (self : sheet_ref)
    (d : list (string * nat)) :
  sheet_objs w !! self = Some d ->
  (forall c00 c01 c10 c11 : nat,
      dict_get d "0_" = Some c00 -> dict_get d "0_A" = Some c01 ->
      dict_get d "1_" = Some c10 -> dict_get d "1_A" = Some c11 ->
      NoDup [c00; c01; c10; c11] ->
      exists (cells : gset nat) (w' : World),
        Spreadsheet_get_cells self (Selection_init (Some (0, 0)) (Some (2, 2)) None) w
          = Returns cells w' /\
        cells = list_to_set [c00; c01; c10; c11] /\
        size cells = 4%nat) /\
  (forall (start stop : Z * Z) (row column : Z),
      non_negative start ->
      fst start <= row < fst stop -> snd start <= column < snd stop ->
      dict_get d (cell_id_from_position (row, column)) = None ->
      exists (cells : gset nat) (w' : World) (cell : nat) (o : Cell),
        Spreadsheet_get_cells self (Selection_init (Some start) (Some stop) None) w
          = Returns cells w' /\
        cell ∈ cells /\ cell_objs w !! cell = None /\
        cell_objs w' !! cell = Some o /\ _value o = VNone /\ spreadsheet o = self) /\
  (forall (start1 stop1 start2 stop2 : Z * Z) (row column : Z),
      non_negative start1 -> non_negative start2 ->
      fst start1 <= row < fst stop1 -> snd start1 <= column < snd stop1 ->
      fst start2 <= row < fst stop2 -> snd start2 <= column < snd stop2 ->
      dict_get d (cell_id_from_position (row, column)) = None ->
      exists (cells : gset nat) (w' : World) (cell1 cell2 : nat) (o1 o2 : Cell),
        Spreadsheet_get_cells self
          (Selection_add (Selection_init (Some start1) (Some stop1) None)
                         (Selection_init (Some start2) (Some stop2) None)) w
          = Returns cells w' /\
        cell1 <> cell2 /\ cell1 ∈ cells /\ cell2 ∈ cells /\
        cell_objs w !! cell1 = None /\ cell_objs w !! cell2 = None /\
        cell_objs w' !! cell1 = Some o1 /\ _value o1 = VNone /\ spreadsheet o1 = self /\
        cell_objs w' !! cell2 = Some o2 /\ _value o2 = VNone /\ spreadsheet o2 = self).
Proof.
  intros Hd. split; [| split].
  - intros c00 c01 c10 c11 H00 H01 H10 H11 Hdistinct.
    eexists _, _. split; [| split].
    + apply (get_cells_run w self d); [exact Hd |].
      repeat constructor; simpl; lia.
    + change (selection_positions (Selection_init (Some (0, 0)) (Some (2, 2)) None))
        with [(0, 0); (0, 1); (1, 0); (1, 1)].
      cbn [imap]. unfold found, compose.
      change (cell_id_from_position (0, 0)) with "0_".
      change (cell_id_from_position (0, 1)) with "0_A".
      change (cell_id_from_position (1, 0)) with "1_".
      change (cell_id_from_position (1, 1)) with "1_A".
      now rewrite H00, H01, H10, H11.
    + change (selection_positions (Selection_init (Some (0, 0)) (Some (2, 2)) None))
        with [(0, 0); (0, 1); (1, 0); (1, 1)].
      cbn [imap]. unfold found, compose.
      change (cell_id_from_position (0, 0)) with "0_".
      change (cell_id_from_position (0, 1)) with "0_A".
      change (cell_id_from_position (1, 0)) with "1_".
      change (cell_id_from_position (1, 1)) with "1_A".
      rewrite H00, H01, H10, H11. simpl default.
      now rewrite size_list_to_set.
  - intros start stop row column Hstart Hrow Hcolumn Hmiss.
    assert (Hin : In (row, column) (bound_positions (start, stop)))
      by now apply in_bound_positions.
    apply list_elem_of_In, list_elem_of_lookup in Hin as [i Hi].
    rewrite <- selection_of_one_bound in Hi.
    destruct (get_cells_placeholder w self d _ i _ Hi Hmiss) as (Hcell & Hfresh & Hobj).
    eexists _, _, _, (placeholder self). split.
    + apply (get_cells_run w self d); [exact Hd |].
      rewrite selection_of_one_bound. now apply bound_positions_non_negative.
    + repeat split; eassumption.
  - intros start1 stop1 start2 stop2 row column Hs1 Hs2 Hr1 Hc1 Hr2 Hc2 Hmiss.
    assert (Hin1 : In (row, column) (bound_positions (start1, stop1)))
      by now apply in_bound_positions.
    assert (Hin2 : In (row, column) (bound_positions (start2, stop2)))
      by now apply in_bound_positions.
    apply list_elem_of_In, list_elem_of_lookup in Hin1 as [i Hi].
    apply list_elem_of_In, list_elem_of_lookup in Hin2 as [j Hj].
    pose proof (lookup_lt_Some _ _ _ Hi) as Hlt.
    set (n1 := length (bound_positions (start1, stop1))) in *.
    assert (Hi' : selection_positions
                    (Selection_add (Selection_init (Some start1) (Some stop1) None)
                                   (Selection_init (Some start2) (Some stop2) None))
                  !! i = Some (row, column)).
    { rewrite selection_of_two_bounds. now apply lookup_app_l_Some. }
    assert (Hj' : selection_positions
                    (Selection_add (Selection_init (Some start1) (Some stop1) None)
                                   (Selection_init (Some start2) (Some stop2) None))
                  !! (n1 + j)%nat = Some (row, column)).
    { rewrite selection_of_two_bounds, lookup_app_r by (unfold n1; lia).
      replace (n1 + j - length (bound_positions (start1, stop1)))%nat with j
        by (unfold n1; lia).
      exact Hj. }
    destruct (get_cells_placeholder w self d _ i _ Hi' Hmiss) as (Hcell1 & Hfresh1 & Hobj1).
    destruct (get_cells_placeholder w self d _ _ _ Hj' Hmiss) as (Hcell2 & Hfresh2 & Hobj2).
    eexists _, _, (length (cell_objs w) + i)%nat, (length (cell_objs w) + (n1 + j))%nat,
      (placeholder self), (placeholder self). split.
    + apply (get_cells_run w self d); [exact Hd |].
      rewrite selection_of_two_bounds. apply Forall_app. split.
      * now apply (bound_positions_non_negative (start1, stop1)).
      * now apply (bound_positions_non_negative (start2, stop2)).
    + split; [| repeat split; eassumption]. lia.
Qed.

(** ** Deferred values *)

Lemma upper_ord (c : ascii) :
  is_upper c = true -> 0 <= Py.ord (Py.upper c) - Py.ord "A" < 26.
Proof.
  destruct c as [[] [] [] [] [] [] [] []]; vm_compute; intros H;
    (discriminate H || (split; [discriminate | reflexivity])).
Qed.

Lemma number_loop_non_negative (s : string) :
  forall num, 0 <= num -> 0 <= number_loop num s.
Proof.
  induction s as [|c s IH]; intros num Hnum; [exact Hnum |].
  rewrite number_loop_cons. apply IH.
  destruct (is_upper c) eqn:Hc; [| exact Hnum].
  pose proof (upper_ord c Hc). lia.
Qed.

Lemma position_column_non_negative (cell_id : string) (row column : Z) :
  position_from_cell_id cell_id = Ok (row, column) -> 0 <= column.
Proof.
  unfold position_from_cell_id, column_number_from_cell_id.
  destruct (row_number_from_cell_id cell_id) as [r | e]; simpl; [| discriminate].
  destruct (Py.split "_" cell_id !! 1%nat) as [piece |]; simpl; [| discriminate].
  intros [= _ <-]. now apply number_loop_non_negative.
Qed.

Section DeferredFacts.

Variable callables : nat -> callable.

Lemma value_literal (depth : nat) (w : World) (c : nat) (o : Cell) :
  cell_objs w !! c = Some o -> is_literal (_value o) = true ->
  Cell_value callables depth c w = Returns (_value o) w.
Proof.
  intros Ho Hlit. destruct depth; simpl;
    rewrite (bind_run _ _ _ _ _ (cell_obj_run _ _ _ Ho));
    destruct (_value o); try reflexivity; discriminate.
Qed.

(** A read of a deferred value calls the computation, on the cell itself. *)
Lemma value_deferred (depth : nat) (w : World) (c : nat) (o : Cell) (f : nat) :
  cell_objs w !! c = Some o -> _value o = VCallable f ->
  Cell_value callables (S depth) c w = callables f (Cell_value callables depth) c w.
Proof.
  intros Ho Hf. simpl.
  rewrite (bind_run _ _ _ _ _ (cell_obj_run _ _ _ Ho)). now rewrite Hf.
Qed.

Lemma value_read_neighbour (depth : nat) (w : World) (c : nat) (o : Cell) (f : nat)
    (d : list (string * nat)) (cell_id : string) (row column : Z)
    (n : nat) (on : Cell) :
  callables f = read_neighbour (0, 1) ->
  cell_objs w !! c = Some o -> _value o = VCallable f ->
  sheet_objs w !! spreadsheet o = Some d ->
  dict_key_of d c = Some cell_id ->
  position_from_cell_id cell_id = Ok (row, column) ->
  0 <= row ->
  dict_get d (cell_id_from_position (row, column + 1)) = Some n ->
  cell_objs w !! n = Some on -> is_literal (_value on) = true ->
  Cell_value callables (S depth) c w =
  Returns (_value on) (alloc w [placeholder (spreadsheet o)]).
Proof.
  intros Hf Ho Hv Hd Hk Hp Hrow Hn Hon Hlit.
  pose proof (position_column_non_negative _ _ _ Hp) as Hcolumn.
  rewrite (value_deferred depth w c o f Ho Hv), Hf. unfold read_neighbour.
  rewrite (bind_run _ _ w (alloc w [placeholder (spreadsheet o)]) n).
  - apply value_literal; [| exact Hlit]. now apply alloc_lookup_old.
  - rewrite (get_relative_neighbour_run w c o d cell_id row column (0, 1) Ho Hd Hk Hp).
    simpl fst. simpl snd. rewrite Z.add_0_r.
    rewrite (get_cell_at_position_run w _ d) by (assumption || lia).
    now rewrite Hn.
Qed.

End DeferredFacts.

Lemma set_cell_value_run (w : World) (c : nat) (o : Cell) (v : cell_value) :
  cell_objs w !! c = Some o ->
  set_cell_value c v w =
  Returns tt
    (mkWorld (<[c := mkCell v (spreadsheet o) (format_fn o) (render_fn o) (alignment o)]>
                (cell_objs w))
             (sheet_objs w)).
Proof. intros Ho. unfold set_cell_value. now rewrite Ho. Qed.

(** C7: resolved values are not cached.  Each read of [Cell.value] on a cell
    that holds a deferred computation calls the computation on the cell
    itself; so for a deferred cell that reads its neighbour at offset
    [(0, 1)], reading it, assigning another literal to the neighbour's stored
    value, and reading it again gives two different results, the second one
    being the newly stored value. *)
Theorem C7_deferred_value_is_recomputed (callables : nat -> callable) (depth : nat)
    (w : World) (c : nat) (o : Cell) (f : nat) (d : list (string * nat))
    (cell_id : string) (row column : Z) (n : nat) (on : Cell) (v2 : cell_value) :
  callables f = read_neighbour (0, 1) ->
  cell_objs w !! c = Some o -> _value o = VCallable f ->
  sheet_objs w !! spreadsheet o = Some d ->
  dict_key_of d c = Some cell_id ->
  position_from_cell_id cell_id = Ok (row, column) ->
  0 <= row ->
  dict_get d (cell_id_from_position (row, column + 1)) = Some n ->
  cell_objs w !! n = Some on -> is_literal (_value on) = true ->
  is_literal v2 = true -> v2 <> _value on ->
  exists (v1 : cell_value) (w1 w2 w3 : World),
    Cell_value callables (S depth) c w = callables f (Cell_value callables depth) c w /\
    Cell_value callables (S depth) c w = Returns v1 w1 /\
    set_cell_value n v2 w1 = Returns tt w2 /\
    Cell_value callables (S depth) c w2 = callables f (Cell_value callables depth) c w2 /\
    Cell_value callables (S depth) c w2 = Returns v2 w3 /\
    v1 = _value on /\ v1 <> v2.
Proof.
  intros Hf Ho Hv Hd Hk Hp Hrow Hn Hon Hlit Hlit2 Hne.
  set (w1 := alloc w [placeholder (spreadsheet o)]).
  set (on' := mkCell v2 (spreadsheet on) (format_fn on) (render_fn on) (alignment on)).
  set (w2 := mkWorld (<[n := on']> (cell_objs w1)) (sheet_objs w1)).
  assert (Hcn : c <> n).
  { intros ->. rewrite Ho in Hon. injection Hon as <-. now rewrite Hv in Hlit. }
  assert (Hon1 : cell_objs w1 !! n = Some on) by now apply alloc_lookup_old.
  assert (Ho2 : cell_objs w2 !! c = Some o).
  { simpl. rewrite list_lookup_insert_ne by congruence.
    now apply lookup_app_l_Some. }
  assert (Hon2 : cell_objs w2 !! n = Some on').
  { simpl. apply list_lookup_insert_eq. apply lookup_lt_Some in Hon.
    rewrite length_app. lia. }
  exists (_value on), w1, w2, (alloc w2 [placeholder (spreadsheet o)]).
  split; [| split; [| split; [| split; [| split; [| split]]]]].
  - now apply value_deferred with o.
  - now apply value_read_neighbour with f d cell_id row column n.
  - now apply set_cell_value_run.
  - now apply value_deferred with o.
  - now apply (value_read_neighbour callables depth w2 c o f d cell_id row column n on').
  - reflexivity.
  - congruence.
Qed.

(** ** Filling a sheet *)

Lemma last_sheet_lookup (cs : list Cell) (ss : list (list (string * nat)))
    (d : list (string * nat)) :
  sheet_objs (mkWorld cs (ss ++ [d])) !! length ss = Some d.
Proof. simpl. rewrite lookup_app_r by lia. now rewrite Nat.sub_diag. Qed.

Lemma bind_assoc {A B C} (c : M A) (k1 : A -> M B) (k2 : B -> M C) (w : World) :
  bind (bind c k1) k2 w = bind c (fun a => bind (k1 a) k2) w.
Proof. unfold bind. now destruct (c w). Qed.

Lemma bind_ret {A B} (a : A) (k : A -> M B) (w : World) :
  bind (ret a) k w = k a w.
Proof. reflexivity. Qed.

(** The primitive steps on the sheet constructed last. *)
Lemma Cell_init_last (cs : list Cell) (ss : list (list (string * nat)))
    (v : cell_value) (self : nat) :
  Cell_init v self None None None (mkWorld cs ss)
  = Returns (length cs) (mkWorld (cs ++ [literal_cell self v]) ss).
Proof. reflexivity. Qed.

Lemma sheet_cells_last (cs : list Cell) (ss : list (list (string * nat)))
    (d : list (string * nat)) :
  sheet_cells (length ss) (mkWorld cs (ss ++ [d])) = Returns d (mkWorld cs (ss ++ [d])).
Proof. apply sheet_cells_run, last_sheet_lookup. Qed.

Lemma set_sheet_cells_last (cs : list Cell) (ss : list (list (string * nat)))
    (d d' : list (string * nat)) :
  set_sheet_cells (length ss) d' (mkWorld cs (ss ++ [d]))
  = Returns tt (mkWorld cs (ss ++ [d'])).
Proof.
  unfold set_sheet_cells. rewrite last_sheet_lookup. simpl. do 2 f_equal.
  rewrite insert_app_r_alt by lia. now rewrite Nat.sub_diag.
Qed.

Ltac run_step :=
  rewrite ?bind_assoc;
  first [ rewrite (bind_run _ _ _ _ _ (Cell_init_last _ _ _ _))
        | rewrite (bind_run _ _ _ _ _ (sheet_cells_last _ _ _))
        | rewrite (bind_run _ _ _ _ _ (set_sheet_cells_last _ _ _ _))
        | rewrite bind_ret ];
  cbv beta.

Lemma fill_grid_run (w : World) :
  (let! s := Spreadsheet_init in Spreadsheet_fill s grid_abcd ;; ret s) w
  = Returns (length (sheet_objs w)) (grid_world w).
Proof.
  rewrite (bind_run _ _ _ _ _ (init_run w)).
  unfold Spreadsheet_fill.
  change (Py.enumerate grid_abcd)
    with [(0, [AValue (VStr "a"); AValue (VStr "b")]);
          (1, [AValue (VStr "c"); AValue (VStr "d")])].
  cbn [for_each].
  change (zip (column_ids_from_number (Z.of_nat (length [AValue (VStr "a"); AValue (VStr "b")])))
              [AValue (VStr "a"); AValue (VStr "b")])
    with [("", AValue (VStr "a")); ("A", AValue (VStr "b"))].
  change (zip (column_ids_from_number (Z.of_nat (length [AValue (VStr "c"); AValue (VStr "d")])))
              [AValue (VStr "c"); AValue (VStr "d")])
    with [("", AValue (VStr "c")); ("A", AValue (VStr "d"))].
  cbn [for_each].
  repeat run_step.
  rewrite <- !app_assoc. cbn [app]. rewrite !length_app. reflexivity.
Qed.

(** ** Shape and extraction *)

Lemma comprehension_lift {A B} (f : A -> result B) (l : list A) (w : World) :
  comprehension l (fun x => lift (f x)) w = lift (result_all f l) w.
Proof.
  induction l as [|x l IH]; [reflexivity |].
  simpl. unfold bind at 1. destruct (f x) as [y | e]; simpl; [| reflexivity].
  unfold bind at 1. rewrite IH. now destruct (result_all f l).
Qed.

Section OnASheet.

Variables (w : World) (self : nat) (d : list (string * nat)).
Hypothesis Hd : sheet_objs w !! self = Some d.

Lemma getitem_alloc (cs : list Cell) (cell_id : string) :
  Spreadsheet_getitem self cell_id (alloc w cs) =
  Returns (default (length (cell_objs w) + length cs)%nat (dict_get d cell_id))
          (alloc w (cs ++ [placeholder self])).
Proof.
  rewrite (getitem_run (alloc w cs) self d cell_id Hd), alloc_alloc.
  simpl. now rewrite length_app.
Qed.

Lemma get_num_rows_alloc (cs : list Cell) :
  Spreadsheet_get_num_rows self (alloc w cs) =
  lift (axis_size row_number_from_cell_id d) (alloc w cs).
Proof.
  unfold Spreadsheet_get_num_rows, axis_size.
  rewrite (bind_run _ _ _ _ _ (sheet_cells_run (alloc w cs) self d Hd)).
  unfold bind at 1. rewrite comprehension_lift.
  destruct (result_all _ _) as [numbers | e]; simpl; [| reflexivity].
  unfold bind. now destruct (py_max numbers).
Qed.

Lemma get_num_columns_alloc (cs : list Cell) :
  Spreadsheet_get_num_columns self (alloc w cs) =
  lift (axis_size column_number_from_cell_id d) (alloc w cs).
Proof.
  unfold Spreadsheet_get_num_columns, axis_size.
  rewrite (bind_run _ _ _ _ _ (sheet_cells_run (alloc w cs) self d Hd)).
  unfold bind at 1. rewrite comprehension_lift.
  destruct (result_all _ _) as [numbers | e]; simpl; [| reflexivity].
  unfold bind. now destruct (py_max numbers).
Qed.

Lemma value_literal_alloc (callables : nat -> callable) (depth : nat)
    (cs : list Cell) (c : nat) (o : Cell) :
  cell_objs w !! c = Some o -> is_literal (_value o) = true ->
  Cell_value callables depth c (alloc w cs) = Returns (_value o) (alloc w cs).
Proof.
  intros Ho Hlit. apply value_literal; [| exact Hlit]. now apply alloc_lookup_old.
Qed.

End OnASheet.

Lemma grid_world_sheet (w : World) :
  sheet_objs (grid_world w) !! length (sheet_objs w)
  = Some (grid_dict (length (cell_objs w))).
Proof. apply last_sheet_lookup. Qed.

Lemma grid_world_cell (w : World) (i : nat) (v : cell_value) :
  [VStr "a"; VStr "b"; VStr "c"; VStr "d"] !! i = Some v ->
  cell_objs (grid_world w) !! (length (cell_objs w) + i)%nat
  = Some (literal_cell (length (sheet_objs w)) v).
Proof.
  intros Hi. unfold grid_world. cbn [cell_objs].
  rewrite lookup_app_r by lia.
  replace (length (cell_objs w) + i - length (cell_objs w))%nat with i by lia.
  rewrite list_lookup_fmap, Hi. reflexivity.
Qed.

Lemma grid_num_rows (w : World) (cs : list Cell) :
  Spreadsheet_get_num_rows (length (sheet_objs w)) (alloc (grid_world w) cs)
  = Returns 2 (alloc (grid_world w) cs).
Proof. now rewrite (get_num_rows_alloc _ _ _ (grid_world_sheet w)). Qed.

Lemma grid_num_columns (w : World) (cs : list Cell) :
  Spreadsheet_get_num_columns (length (sheet_objs w)) (alloc (grid_world w) cs)
  = Returns 2 (alloc (grid_world w) cs).
Proof. now rewrite (get_num_columns_alloc _ _ _ (grid_world_sheet w)). Qed.

Lemma grid_getitem (w : World) (cs : list Cell) (cell_id : string) :
  Spreadsheet_getitem (length (sheet_objs w)) cell_id (alloc (grid_world w) cs)
  = Returns (default (length (cell_objs (grid_world w)) + length cs)%nat
               (dict_get (grid_dict (length (cell_objs w))) cell_id))
            (alloc (grid_world w) (cs ++ [placeholder (length (sheet_objs w))])).
Proof. apply getitem_alloc, grid_world_sheet. Qed.

Lemma grid_value (callables : nat -> callable) (depth : nat) (w : World)
    (cs : list Cell) (i : nat) (v : cell_value) :
  [VStr "a"; VStr "b"; VStr "c"; VStr "d"] !! i = Some v ->
  Cell_value callables depth (length (cell_objs w) + i)%nat (alloc (grid_world w) cs)
  = Returns v (alloc (grid_world w) cs).
Proof.
  intros Hi.
  rewrite (value_literal_alloc _ callables depth cs _ _ (grid_world_cell w i v Hi)).
  - reflexivity.
  - simpl. repeat (destruct i as [|i]; [injection Hi as <-; reflexivity |]).
    discriminate.
Qed.

Ltac grid_step :=
  rewrite ?bind_assoc;
  first [ rewrite (bind_run _ _ _ _ _ (grid_num_rows _ _))
        | rewrite (bind_run _ _ _ _ _ (grid_num_columns _ _))
        | rewrite (bind_run _ _ _ _ _ (grid_getitem _ _ _))
        | rewrite bind_ret ];
  cbv beta.

Ltac grid_run :=
  repeat first [ grid_step
               | progress (change (Py.range 0 2) with [0; 1]; cbn [comprehension]) ].

Lemma grid_rows_run (w : World) :
  exists cs,
    Spreadsheet_get_rows (length (sheet_objs w)) (grid_world w) =
    Returns (let n := length (cell_objs w) in
             [[n; n + 1]; [n + 2; n + 3]]%nat)
            (alloc (grid_world w) cs).
Proof.
  eexists. rewrite <- (alloc_nil (grid_world w)) at 1.
  unfold Spreadsheet_get_rows. grid_run. reflexivity.
Qed.

Lemma grid_columns_run (w : World) :
  exists cs,
    Spreadsheet_get_columns (length (sheet_objs w)) (grid_world w) =
    Returns (let n := length (cell_objs w) in
             [[n; n + 2]; [n + 1; n + 3]]%nat)
            (alloc (grid_world w) cs).
Proof.
  eexists. rewrite <- (alloc_nil (grid_world w)) at 1.
  unfold Spreadsheet_get_columns. grid_run. reflexivity.
Qed.

Lemma grid_shape_run (w : World) :
  Spreadsheet_get_shape (length (sheet_objs w)) (grid_world w)
  = Returns (2, 2) (grid_world w).
Proof.
  rewrite <- (alloc_nil (grid_world w)).
  unfold Spreadsheet_get_shape. grid_run. reflexivity.
Qed.

Section GridValues.

Variables (callables : nat -> callable) (depth : nat) (w : World).
Variable cs : list Cell.

Let n := length (cell_objs w).

Lemma grid_value_a :
  Cell_value callables depth n (alloc (grid_world w) cs)
  = Returns (VStr "a") (alloc (grid_world w) cs).
Proof.
  unfold n. rewrite <- (Nat.add_0_r (length (cell_objs w))).
  now apply grid_value.
Qed.

Lemma grid_value_b :
  Cell_value callables depth (n + 1)%nat (alloc (grid_world w) cs)
  = Returns (VStr "b") (alloc (grid_world w) cs).
Proof. now apply grid_value. Qed.

Lemma grid_value_c :
  Cell_value callables depth (n + 2)%nat (alloc (grid_world w) cs)
  = Returns (VStr "c") (alloc (grid_world w) cs).
Proof. now apply grid_value. Qed.

Lemma grid_value_d :
  Cell_value callables depth (n + 3)%nat (alloc (grid_world w) cs)
  = Returns (VStr "d") (alloc (grid_world w) cs).
Proof. now apply grid_value. Qed.

End GridValues.

Ltac value_step :=
  rewrite ?bind_assoc;
  first [ rewrite (bind_run _ _ _ _ _ (grid_value_a _ _ _ _))
        | rewrite (bind_run _ _ _ _ _ (grid_value_b _ _ _ _))
        | rewrite (bind_run _ _ _ _ _ (grid_value_c _ _ _ _))
        | rewrite (bind_run _ _ _ _ _ (grid_value_d _ _ _ _))
        | rewrite bind_ret ];
  cbv beta.

(** C8: after filling a fresh sheet with the rows [[["a","b"],["c","d"]]],
    [get_shape] returns [(2, 2)], [get_rows] returns the four stored cells
    row by row, with resolved values "a","b" and "c","d", and the first
    element of [get_columns] holds the cells with resolved values "a" and
    "c". *)
Theorem C8_fill_shape_rows_columns (callables : nat -> callable) (depth : nat)
    (w : World) :
  exists (s : nat) (w1 : World),
    (let! s := Spreadsheet_init in Spreadsheet_fill s grid_abcd ;; ret s) w
      = Returns s w1 /\
    (exists w2, Spreadsheet_get_shape s w1 = Returns (2, 2) w2) /\
    (exists rows w2 w3,
        Spreadsheet_get_rows s w1 = Returns rows w2 /\
        comprehension rows (fun row => comprehension row (Cell_value callables depth)) w2
          = Returns [[VStr "a"; VStr "b"]; [VStr "c"; VStr "d"]] w3) /\
    (exists column0 others w2 w3,
        Spreadsheet_get_columns s w1 = Returns (column0 :: others) w2 /\
        comprehension column0 (Cell_value callables depth) w2
          = Returns [VStr "a"; VStr "c"] w3).
Proof.
  exists (length (sheet_objs w)), (grid_world w).
  split; [apply fill_grid_run |]. split; [| split].
  - eexists. apply grid_shape_run.
  - destruct (grid_rows_run w) as [cs Hrows].
    eexists _, _, _. split; [exact Hrows |].
    cbv zeta. cbn [comprehension]. repeat value_step. reflexivity.
  - destruct (grid_columns_run w) as [cs Hcolumns].
    eexists _, _, _, _. split; [exact Hcolumns |].
    cbn [comprehension]. repeat value_step. reflexivity.
Qed.

(** ** The theorems at concrete worlds *)

Lemma deferred_world_is_filled :
  (let! s := Spreadsheet_init in
   Spreadsheet_fill s [[AValue (VCallable 0); AValue (VInt 41)]]) empty_world
  = Returns tt deferred_world.
Proof. reflexivity. Qed.

Lemma C4_read_miss_returns_placeholder_witness :
  sheet_objs example_world !! 0%nat = Some (grid_dict 0) /\
  dict_get (grid_dict 0) "2_B" = None /\
  exists (cell : nat) (o : Cell) (w' : World),
    Spreadsheet_getitem 0 "2_B" example_world = Returns cell w' /\
    cell_objs example_world !! cell = None /\
    cell_objs w' !! cell = Some o /\
    _value o = VNone /\ spreadsheet o = 0%nat /\
    sheet_objs w' = sheet_objs example_world /\
    sheet_objs w' !! 0%nat = Some (grid_dict 0) /\
    (forall c' o', cell_objs example_world !! c' = Some o' ->
                   cell_objs w' !! c' = Some o').
Proof.
  split; [reflexivity |]. split; [reflexivity |].
  apply (C4_read_miss_returns_placeholder example_world 0%nat (grid_dict 0) "2_B");
    reflexivity.
Defined.

Lemma C5_get_cells_by_identity_witness :
  sheet_objs example_world !! 0%nat = Some (grid_dict 0) /\
  (exists (cells : gset nat) (w' : World),
      Spreadsheet_get_cells 0 (Selection_init (Some (0, 0)) (Some (2, 2)) None)
        example_world = Returns cells w' /\
      size cells = 4%nat) /\
  (exists (cells : gset nat) (w' : World) (cell : nat),
      Spreadsheet_get_cells 0 (Selection_init (Some (1, 1)) (Some (3, 3)) None)
        example_world = Returns cells w' /\
      cell ∈ cells /\ cell_objs example_world !! cell = None) /\
  (exists (cells : gset nat) (w' : World) (cell1 cell2 : nat),
      Spreadsheet_get_cells 0
        (Selection_add (Selection_init (Some (2, 2)) (Some (3, 3)) None)
                       (Selection_init (Some (2, 2)) (Some (3, 3)) None))
        example_world = Returns cells w' /\
      cell1 <> cell2 /\ cell1 ∈ cells /\ cell2 ∈ cells).
Proof.
  split; [reflexivity |].
  destruct (C5_get_cells_by_identity example_world 0%nat (grid_dict 0) eq_refl)
    as (Hfour & Habsent & Htwice).
  split; [| split].
  - destruct (Hfour 0%nat 1%nat 2%nat 3%nat eq_refl eq_refl eq_refl eq_refl)
      as (cells & w' & Hrun & _ & Hsize).
    + apply NoDup_ListNoDup. repeat constructor; simpl; lia.
    + exists cells, w'. split; assumption.
  - destruct (Habsent (1, 1) (3, 3) 2 2) as (cells & w' & cell & o & Hrun & Hin & Hfresh & _).
    + split; simpl; lia.
    + simpl; lia.
    + simpl; lia.
    + reflexivity.
    + exists cells, w', cell. repeat split; assumption.
  - destruct (Htwice (2, 2) (3, 3) (2, 2) (3, 3) 2 2)
      as (cells & w' & cell1 & cell2 & o1 & o2 & Hrun & Hne & Hin1 & Hin2 & _).
    1, 2: split; simpl; lia.
    1, 2, 3, 4: simpl; lia.
    + reflexivity.
    + exists cells, w', cell1, cell2. repeat split; assumption.
Defined.

Lemma C6_relative_neighbour_witness :
  cell_objs example_world !! 3%nat = Some (literal_cell 0 (VStr "d")) /\
  sheet_objs example_world !! 0%nat = Some (grid_dict 0) /\
  dict_key_of (grid_dict 0) 3 = Some "1_A" /\
  position_from_cell_id "1_A" = Ok (1, 1) /\
  (exists w', Cell_get_relative_neighbour 3 (-1, 0) example_world = Returns 1%nat w') /\
  (exists e w', Cell_get_relative_neighbour 3 (0, -2) example_world = Raises e w').
Proof.
  split; [reflexivity |]. split; [reflexivity |].
  split; [reflexivity |]. split; [reflexivity |].
  split.
  - destruct (C6_relative_neighbour example_world 3%nat (literal_cell 0 (VStr "d"))
                (grid_dict 0) "1_A" 1 1 (-1) 0 eq_refl eq_refl eq_refl eq_refl)
      as (Hreturns & _ & _).
    destruct Hreturns as (_ & cell & w' & Hrun & Hcell); [lia |].
    exists w'. vm_compute in Hcell. subst cell. exact Hrun.
  - destruct (C6_relative_neighbour example_world 3%nat (literal_cell 0 (VStr "d"))
                (grid_dict 0) "1_A" 1 1 0 (-2) eq_refl eq_refl eq_refl eq_refl)
      as (_ & Hraises & _).
    apply Hraises. lia.
Defined.

Lemma C7_deferred_value_is_recomputed_witness :
  cell_objs deferred_world !! 0%nat = Some (literal_cell 0 (VCallable 0)) /\
  sheet_objs deferred_world !! 0%nat = Some [("0_", 0%nat); ("0_A", 1%nat)] /\
  dict_key_of [("0_", 0%nat); ("0_A", 1%nat)] 0 = Some "0_" /\
  position_from_cell_id "0_" = Ok (0, 0) /\
  dict_get [("0_", 0%nat); ("0_A", 1%nat)] (cell_id_from_position (0, 0 + 1))
    = Some 1%nat /\
  cell_objs deferred_world !! 1%nat = Some (literal_cell 0 (VInt 41)) /\
  exists w1 w2 w3,
    Cell_value (fun _ => read_neighbour (0, 1)) 1 0 deferred_world
      = Returns (VInt 41) w1 /\
    set_cell_value 1 (VInt 7) w1 = Returns tt w2 /\
    Cell_value (fun _ => read_neighbour (0, 1)) 1 0 w2 = Returns (VInt 7) w3.
Proof.
  repeat (split; [reflexivity |]).
  destruct (C7_deferred_value_is_recomputed (fun _ => read_neighbour (0, 1)) 0
              deferred_world 0%nat (literal_cell 0 (VCallable 0)) 0%nat
              [("0_", 0%nat); ("0_A", 1%nat)] "0_" 0 0 1%nat
              (literal_cell 0 (VInt 41)) (VInt 7)
              eq_refl eq_refl eq_refl eq_refl eq_refl eq_refl)
    as (v1 & w1 & w2 & w3 & _ & Hfirst & Hset & _ & Hsecond & Hv1 & _).
  - lia.
  - reflexivity.
  - reflexivity.
  - reflexivity.
  - reflexivity.
  - discriminate.
  - exists w1, w2, w3. simpl in Hv1. rewrite Hv1 in Hfirst. now repeat split.
Defined.

(** * Further properties *)

(** ** The address codec, continued *)

Lemma string_snoc_ind (P : string -> Prop) :
  P "" ->
  (forall s c, P s -> P (s +:+ String c "")) ->
  forall s, P s.
Proof.
  intros Hnil Hsnoc s.
  rewrite <- (string_of_list_ascii_of_string s).
  induction (list_ascii_of_string s) as [|c l IH] using rev_ind; [exact Hnil |].
  replace (string_of_list_ascii (l ++ [c]))
    with (string_of_list_ascii l +:+ String c "").
  - now apply Hsnoc.
  - clear. induction l as [|a l IH]; simpl; [reflexivity | now rewrite IH].
Qed.

Lemma upper_letter_index (c : ascii) :
  is_upper c = true ->
  Py.upper c = c /\ 0 <= Py.ord c - Py.ord "A" < 26 /\
  Py.index Py.ascii_uppercase (Py.ord c - Py.ord "A") = Some c.
Proof.
  destruct c as [[] [] [] [] [] [] [] []]; vm_compute; intros H;
    (discriminate H || (repeat split; discriminate)).
Qed.

Lemma number_from_column_id_snoc (s : string) (c : ascii) :
  is_upper c = true ->
  number_from_column_id (s +:+ String c "") =
  number_from_column_id s * 26 + (Py.ord c - Py.ord "A") + 1.
Proof.
  intros Hc. unfold number_from_column_id.
  rewrite number_loop_app, number_loop_cons, Hc.
  destruct (upper_letter_index c Hc) as (-> & _). reflexivity.
Qed.

(** X1: encoding undoes decoding on capital letters: for every string [s]
    of letters A-Z, [column_id_from_number(number_from_column_id(s)) == s]. *)
Theorem X1_encode_decode_roundtrip (s : string) :
  str_forall is_upper s = true ->
  column_id_from_number (number_from_column_id s) = s.
Proof.
  induction s as [|s c IH] using string_snoc_ind; intros Hs; [reflexivity |].
  rewrite str_forall_app in Hs. apply andb_true_iff in Hs as [Hs Hc].
  simpl in Hc. rewrite andb_true_r in Hc.
  rewrite (number_from_column_id_snoc s c Hc).
  destruct (upper_letter_index c Hc) as (_ & Hrange & Hindex).
  pose proof (number_loop_non_negative s 0 ltac:(lia)) as Hnum.
  fold (number_from_column_id s) in Hnum.
  set (n := number_from_column_id s) in *.
  destruct (column_id_from_number_step (n * 26 + (Py.ord c - Py.ord "A") + 1))
    as (c' & Hc' & ->); [lia |].
  replace (n * 26 + (Py.ord c - Py.ord "A") + 1 - 1)
    with ((Py.ord c - Py.ord "A") + n * 26) in * by lia.
  rewrite Z.mod_add in Hc' by lia. rewrite Z.mod_small in Hc' by lia.
  rewrite Z.div_add by lia. rewrite Z.div_small by lia. rewrite Z.add_0_l.
  rewrite Hindex in Hc'. injection Hc' as <-.
  now rewrite (IH Hs).
Qed.

Lemma X1_encode_decode_roundtrip_witness :
  str_forall is_upper "ZZA" = true /\
  column_id_from_number (number_from_column_id "ZZA") = "ZZA".
Proof.
  split; [reflexivity |]. apply (X1_encode_decode_roundtrip "ZZA"). reflexivity.
Defined.

(** X2: [column_id_from_number] only produces capital letters, and its
    result is the empty string exactly for the numbers [<= 0]. *)
Theorem X2_column_id_shape (id : Z) :
  str_forall is_upper (column_id_from_number id) = true /\
  (column_id_from_number id = "" <-> id <= 0).
Proof.
  destruct (Z_le_dec id 0) as [Hle | Hgt].
  - rewrite (column_id_from_number_nonpos id Hle). repeat split; auto.
  - split; [apply column_roundtrip; lia |].
    split; [| lia]. intros Hempty.
    destruct (column_id_from_number_step id) as (c & _ & Hstep); [lia |].
    rewrite Hstep in Hempty.
    destruct (column_id_from_number ((id - 1) / 26)); discriminate Hempty.
Qed.

Lemma number_loop_filter (s : string) :
  forall num, number_loop num s = number_loop num (str_filter is_upper s).
Proof.
  induction s as [|c s IH]; intros num; [reflexivity |].
  simpl str_filter. destruct (is_upper c) eqn:Hc.
  - rewrite !number_loop_cons, Hc. apply IH.
  - rewrite number_loop_cons, Hc. apply IH.
Qed.

(** X3: the decoder only sees the capital letters: removing every other
    character (lower-case letters, digits, the separator) from its input does
    not change the result, and the result is never negative. *)
Theorem X3_decoder_skips_other_characters (s : string) :
  number_from_column_id s = number_from_column_id (str_filter is_upper s) /\
  0 <= number_from_column_id s.
Proof.
  split; [apply number_loop_filter |].
  apply number_loop_non_negative. lia.
Qed.

(** X4: two positions with columns [>= 0] that have the same key are the
    same position; every column [<= 0] gets the key of column 0. *)
Theorem X4_keys_of_positions :
  (forall r1 c1 r2 c2 : Z,
      0 <= c1 -> 0 <= c2 ->
      cell_id_from_position (r1, c1) = cell_id_from_position (r2, c2) ->
      (r1, c1) = (r2, c2)) /\
  (forall r c : Z,
      c <= 0 -> cell_id_from_position (r, c) = cell_id_from_position (r, 0)).
Proof.
  split.
  - intros r1 c1 r2 c2 H1 H2 Heq.
    pose proof (position_roundtrip r1 c1 H1) as Hp1.
    rewrite Heq, (position_roundtrip r2 c2 H2) in Hp1. congruence.
  - intros r c Hc. unfold cell_id_from_position. simpl.
    now rewrite (column_id_from_number_nonpos c Hc).
Qed.

(** X5: a key without the separator never decodes: [position_from_cell_id]
    raises [ValueError] when the key is not an integer literal, and
    [IndexError] (no second piece) when it is. *)
Theorem X5_key_without_separator (cell_id : string) :
  str_forall no_underscore cell_id = true ->
  position_from_cell_id cell_id =
  match Py.int_of_str cell_id with
  | Some _ => Error IndexError
  | None => Error (ValueError_int cell_id)
  end.
Proof.
  intros Hplain.
  unfold position_from_cell_id, row_number_from_cell_id, column_number_from_cell_id,
    Py.split.
  rewrite (split_pieces_plain cell_id Hplain). simpl.
  now destruct (Py.int_of_str cell_id).
Qed.

Lemma X5_key_without_separator_witness :
  str_forall no_underscore "12" = true /\
  position_from_cell_id "12" =
  match Py.int_of_str "12" with
  | Some _ => Error IndexError
  | None => Error (ValueError_int "12")
  end.
Proof.
  split; [reflexivity |]. apply (X5_key_without_separator "12"). reflexivity.
Defined.

(** ** The cell store as a mapping *)

Lemma dict_get_set_eq (d : list (string * nat)) (key : string) (v : nat) :
  dict_get (dict_set d key v) key = Some v.
Proof.
  induction d as [|[k v'] d IH]; simpl.
  - now rewrite String.eqb_refl.
  - destruct (String.eqb k key) eqn:Hk; simpl; rewrite Hk; [reflexivity | exact IH].
Qed.

Lemma dict_get_set_ne (d : list (string * nat)) (key key' : string) (v : nat) :
  key <> key' -> dict_get (dict_set d key v) key' = dict_get d key'.
Proof.
  intros Hne. induction d as [|[k v'] d IH]; simpl.
  - now apply String.eqb_neq in Hne as ->.
  - destruct (String.eqb k key) eqn:Hk; simpl.
    + apply String.eqb_eq in Hk as ->. now apply String.eqb_neq in Hne as ->.
    + now rewrite IH.
Qed.

Lemma dict_get_None_keys (d : list (string * nat)) (key : string) :
  dict_get d key = None <-> ~ In key (dict_keys d).
Proof.
  induction d as [|[k v] d IH]; simpl; [tauto |].
  destruct (String.eqb_spec k key) as [-> | Hne].
  - split; [discriminate | intros H; exfalso; apply H; now left].
  - rewrite IH. split; [intros H [Heq | Hin]; auto | intros H Hin; apply H; now right].
Qed.

Lemma dict_keys_set (d : list (string * nat)) (key : string) (v : nat) :
  dict_keys (dict_set d key v) =
  match dict_get d key with
  | Some _ => dict_keys d
  | None => (dict_keys d ++ [key])%list
  end.
Proof.
  induction d as [|[k v'] d IH]; simpl; [reflexivity |].
  destruct (String.eqb k key) eqn:Hk; simpl; [reflexivity |].
  rewrite IH. now destruct (dict_get d key).
Qed.

Lemma dict_get_del_ne (d : list (string * nat)) (key key' : string) :
  key <> key' -> dict_get (dict_del d key) key' = dict_get d key'.
Proof.
  intros Hne. induction d as [|[k v] d IH]; simpl; [reflexivity |].
  destruct (String.eqb k key) eqn:Hk; simpl.
  - apply String.eqb_eq in Hk as ->. now apply String.eqb_neq in Hne as ->.
  - now rewrite IH.
Qed.

Lemma dict_get_del_eq (d : list (string * nat)) (key : string) :
  List.NoDup (dict_keys d) -> dict_get (dict_del d key) key = None.
Proof.
  induction d as [|[k v] d IH]; simpl; intros Hnd; [reflexivity |].
  inversion Hnd as [|? ? Hnotin Hnd']; subst.
  destruct (String.eqb k key) eqn:Hk; simpl.
  - apply String.eqb_eq in Hk as ->. now apply dict_get_None_keys.
  - rewrite Hk. now apply IH.
Qed.

Lemma dict_del_length (d : list (string * nat)) (key : string) (v : nat) :
  dict_get d key = Some v -> S (length (dict_del d key)) = length d.
Proof.
  induction d as [|[k v'] d IH]; simpl; [discriminate |].
  destruct (String.eqb k key); simpl; [reflexivity |].
  intros H. now rewrite (IH H).
Qed.

Lemma sheet_after_insert (w : World) (self : nat) (d d' : list (string * nat)) :
  sheet_objs w !! self = Some d ->
  sheet_objs (mkWorld (cell_objs w) (<[self := d']> (sheet_objs w))) !! self = Some d'.
Proof.
  intros Hd. simpl. apply list_lookup_insert_eq. now apply lookup_lt_Some in Hd.
Qed.

Lemma setitem_run (w : World) (self : nat) (d : list (string * nat))
    (cell_id : string) (cell : nat) :
  sheet_objs w !! self = Some d ->
  Spreadsheet_setitem self cell_id cell w =
  Returns tt (mkWorld (cell_objs w) (<[self := dict_set d cell_id cell]> (sheet_objs w))).
Proof.
  intros Hd. unfold Spreadsheet_setitem.
  rewrite (bind_run _ _ _ _ _ (sheet_cells_run _ _ _ Hd)).
  unfold set_sheet_cells. now rewrite Hd.
Qed.

(** X6: assignment and lookup.  After [sheet[key] = cell], looking [key] up
    returns [cell]; looking any other key up returns what it returned before
    when that key was stored; the cell objects and the other sheets are not
    touched. *)
Theorem X6_setitem_then_getitem (w : World) (self : nat) (d : list (string * nat))
    (cell_id : string) (cell : nat) :
  sheet_objs w !! self = Some d ->
  exists w1 : World,
    Spreadsheet_setitem self cell_id cell w = Returns tt w1 /\
    (exists w2, Spreadsheet_getitem self cell_id w1 = Returns cell w2) /\
    (forall other stored,
        other <> cell_id -> dict_get d other = Some stored ->
        exists w2 w3, Spreadsheet_getitem self other w = Returns stored w2 /\
                      Spreadsheet_getitem self other w1 = Returns stored w3) /\
    (forall other,
        other <> cell_id -> dict_get d other = None ->
        exists p w2, Spreadsheet_getitem self other w1 = Returns p w2 /\
                     cell_objs w1 !! p = None /\
                     cell_objs w2 !! p = Some (placeholder self)) /\
    cell_objs w1 = cell_objs w /\
    (forall other_sheet, other_sheet <> self ->
                         sheet_objs w1 !! other_sheet = sheet_objs w !! other_sheet).
Proof.
  intros Hd.
  set (w1 := mkWorld (cell_objs w) (<[self := dict_set d cell_id cell]> (sheet_objs w))).
  assert (Hd1 : sheet_objs w1 !! self = Some (dict_set d cell_id cell))
    by now apply sheet_after_insert with d.
  exists w1. split; [now apply setitem_run |].
  split; [| split; [| split; [| split]]].
  - eexists. rewrite (getitem_run w1 self _ cell_id Hd1), dict_get_set_eq. reflexivity.
  - intros other stored Hne Hstored. eexists _, _. split.
    + rewrite (getitem_run w self d other Hd), Hstored. reflexivity.
    + rewrite (getitem_run w1 self _ other Hd1), dict_get_set_ne, Hstored by congruence.
      reflexivity.
  - intros other Hne Hmiss.
    exists (length (cell_objs w1)), (alloc w1 [placeholder self]). split; [| split].
    + rewrite (getitem_run w1 self _ other Hd1), dict_get_set_ne, Hmiss by congruence.
      reflexivity.
    + apply lookup_ge_None. simpl. lia.
    + rewrite <- (Nat.add_0_r (length (cell_objs w1))). now rewrite alloc_lookup_new.
  - reflexivity.
  - intros other_sheet Hne. simpl. now apply list_lookup_insert_ne.
Qed.

Lemma X6_setitem_then_getitem_witness :
  sheet_objs example_world !! 0%nat = Some (grid_dict 0) /\
  exists w1 w2,
    Spreadsheet_setitem 0 "7_C" 2 example_world = Returns tt w1 /\
    Spreadsheet_getitem 0 "7_C" w1 = Returns 2%nat w2.
Proof.
  split; [reflexivity |].
  destruct (X6_setitem_then_getitem example_world 0%nat (grid_dict 0) "7_C" 2%nat eq_refl)
    as (w1 & Hset & (w2 & Hget) & _).
  now exists w1, w2.
Defined.

(** X7: deletion (the keys of the store being distinct, as those of a
    [dict] are).  [del sheet[key]] raises [KeyError] and changes nothing
    when the key is absent; when it is stored, the key is absent afterwards
    (a lookup gives a placeholder), one entry less is stored, every other key
    keeps its cell, and no cell object is touched. *)
Theorem X7_delitem (w : World) (self : nat) (d : list (string * nat))
    (cell_id : string) :
  sheet_objs w !! self = Some d ->
  List.NoDup (dict_keys d) ->
  match dict_get d cell_id with
  | None => Spreadsheet_delitem self cell_id w = Raises (KeyError cell_id) w
  | Some _ =>
      exists (w1 : World) (d1 : list (string * nat)),
        Spreadsheet_delitem self cell_id w = Returns tt w1 /\
        sheet_objs w1 !! self = Some d1 /\
        dict_get d1 cell_id = None /\
        (forall other, other <> cell_id -> dict_get d1 other = dict_get d other) /\
        (exists n, Spreadsheet_len self w = Returns (n + 1) w /\
                   Spreadsheet_len self w1 = Returns n w1) /\
        cell_objs w1 = cell_objs w
  end.
Proof.
  intros Hd Hkeys. destruct (dict_get d cell_id) as [stored|] eqn:Hget.
  - set (w1 := mkWorld (cell_objs w) (<[self := dict_del d cell_id]> (sheet_objs w))).
    assert (Hd1 : sheet_objs w1 !! self = Some (dict_del d cell_id))
      by now apply sheet_after_insert with d.
    exists w1, (dict_del d cell_id). split; [| split; [| split; [| split; [| split]]]].
    + unfold Spreadsheet_delitem.
      rewrite (bind_run _ _ _ _ _ (sheet_cells_run _ _ _ Hd)), Hget.
      unfold set_sheet_cells. now rewrite Hd.
    + exact Hd1.
    + now apply dict_get_del_eq.
    + intros other Hne. apply dict_get_del_ne. congruence.
    + exists (Z.of_nat (length (dict_del d cell_id))). split.
      * unfold Spreadsheet_len.
        rewrite (bind_run _ _ _ _ _ (sheet_cells_run _ _ _ Hd)).
        unfold ret. f_equal. rewrite <- (dict_del_length d cell_id stored Hget). lia.
      * unfold Spreadsheet_len.
        now rewrite (bind_run _ _ _ _ _ (sheet_cells_run _ _ _ Hd1)).
    + reflexivity.
  - unfold Spreadsheet_delitem.
    now rewrite (bind_run _ _ _ _ _ (sheet_cells_run _ _ _ Hd)), Hget.
Qed.

Lemma X7_delitem_witness :
  sheet_objs example_world !! 0%nat = Some (grid_dict 0) /\
  List.NoDup (dict_keys (grid_dict 0)) /\
  (exists w1, Spreadsheet_delitem 0 "0_A" example_world = Returns tt w1) /\
  Spreadsheet_delitem 0 "9_Z" example_world = Raises (KeyError "9_Z") example_world.
Proof.
  assert (Hkeys : List.NoDup (dict_keys (grid_dict 0))).
  { repeat constructor; simpl; intros H; repeat destruct H as [H | H]; discriminate || auto. }
  split; [reflexivity |]. split; [exact Hkeys |]. split.
  - pose proof (X7_delitem example_world 0%nat (grid_dict 0) "0_A" eq_refl Hkeys) as H.
    change (dict_get (grid_dict 0) "0_A") with (Some 1%nat) in H.
    destruct H as (w1 & d1 & Hdel & _). now exists w1.
  - exact (X7_delitem example_world 0%nat (grid_dict 0) "9_Z" eq_refl Hkeys).
Defined.

(** X8: insertion order and size.  Assigning to a key that is not stored
    appends it to the iteration order and makes the sheet one longer;
    assigning to a stored key leaves the order and the length unchanged. *)
Theorem X8_setitem_iter_len (w : World) (self : nat) (d : list (string * nat))
    (cell_id : string) (cell : nat) :
  sheet_objs w !! self = Some d ->
  exists (w1 : World) (keys : list string),
    Spreadsheet_setitem self cell_id cell w = Returns tt w1 /\
    Spreadsheet_iter self w = Returns keys w /\
    match dict_get d cell_id with
    | None =>
        Spreadsheet_iter self w1 = Returns (keys ++ [cell_id])%list w1 /\
        Spreadsheet_len self w1 = Returns (Z.of_nat (length keys) + 1) w1
    | Some _ =>
        Spreadsheet_iter self w1 = Returns keys w1 /\
        Spreadsheet_len self w1 = Returns (Z.of_nat (length keys)) w1
    end /\
    Spreadsheet_len self w = Returns (Z.of_nat (length keys)) w.
Proof.
  intros Hd.
  set (w1 := mkWorld (cell_objs w) (<[self := dict_set d cell_id cell]> (sheet_objs w))).
  assert (Hd1 : sheet_objs w1 !! self = Some (dict_set d cell_id cell))
    by now apply sheet_after_insert with d.
  exists w1, (dict_keys d). split; [now apply setitem_run |].
  assert (Hlen : forall d', length d' = length (dict_keys d'))
    by (intros d'; unfold dict_keys; now rewrite length_map).
  split; [| split].
  - unfold Spreadsheet_iter. now rewrite (bind_run _ _ _ _ _ (sheet_cells_run _ _ _ Hd)).
  - unfold Spreadsheet_iter, Spreadsheet_len.
    rewrite !(bind_run _ _ _ _ _ (sheet_cells_run _ _ _ Hd1)).
    unfold ret. rewrite (Hlen (dict_set d cell_id cell)), dict_keys_set.
    destruct (dict_get d cell_id); split; try reflexivity.
    f_equal. rewrite length_app. simpl. lia.
  - unfold Spreadsheet_len. rewrite (bind_run _ _ _ _ _ (sheet_cells_run _ _ _ Hd)).
    unfold ret. now rewrite Hlen.
Qed.

Lemma X8_setitem_iter_len_witness :
  sheet_objs example_world !! 0%nat = Some (grid_dict 0) /\
  exists w1,
    Spreadsheet_setitem 0 "7_C" 2 example_world = Returns tt w1 /\
    Spreadsheet_iter 0 w1 = Returns ["0_"; "0_A"; "1_"; "1_A"; "7_C"] w1 /\
    Spreadsheet_len 0 w1 = Returns 5 w1.
Proof.
  split; [reflexivity |].
  destruct (X8_setitem_iter_len example_world 0%nat (grid_dict 0) "7_C" 2%nat eq_refl)
    as (w1 & keys & Hset & Hiter & Hafter & _).
  change (dict_get (grid_dict 0) "7_C") with (@None nat) in Hafter.
  injection Hiter as <-. destruct Hafter as [Hiter1 Hlen1].
  exists w1. repeat split; assumption.
Defined.

(** ** A cell's own address *)









Lemma dict_key_of_set (d : list (string * nat)) (key : string) (cell : nat) :
  Forall (fun entry => snd entry <> cell) d ->
  dict_key_of (dict_set d key cell) cell = Some key.
Proof.
  induction d as [|[k v] d IH]; simpl; intros Hd.
  - now rewrite Nat.eqb_refl.
  - apply Forall_cons in Hd as [Hv Hd]. simpl in Hv.
    destruct (String.eqb_spec k key) as [-> | Hne]; simpl.
    + now rewrite Nat.eqb_refl.
    + destruct (Nat.eqb_spec v cell) as [-> | _]; [now elim Hv | now apply IH].
Qed.

(** X11: storing a cell gives it its address.  When a cell of this sheet that
    is not stored yet is assigned to the key of a position with column
    [>= 0], [get_cell_id] returns that key and [get_position] that position;
    if the row is [>= 0] as well, [get_cell_at_position] finds the cell. *)
Theorem X11_setitem_then_get_position (w : World) (self : nat)
    (d : list (string * nat)) (cell : nat) (o : Cell) (row column : Z) :
  sheet_objs w !! self = Some d ->
  cell_objs w !! cell = Some o -> spreadsheet o = self ->
  Forall (fun entry => snd entry <> cell) d ->
  0 <= column ->
  exists w1 : World,
    Spreadsheet_setitem self (cell_id_from_position (row, column)) cell w
      = Returns tt w1 /\
    Cell_get_cell_id cell w1 = Returns (cell_id_from_position (row, column)) w1 /\
    Cell_get_position cell w1 = Returns (row, column) w1 /\
    (0 <= row ->
     exists w2, Spreadsheet_get_cell_at_position self (row, column) w1 = Returns cell w2).
Proof.
  intros Hd Ho Hself Hfresh Hcolumn.
  set (key := cell_id_from_position (row, column)).
  set (w1 := mkWorld (cell_objs w) (<[self := dict_set d key cell]> (sheet_objs w))).
  assert (Hd1 : sheet_objs w1 !! spreadsheet o = Some (dict_set d key cell))
    by (rewrite Hself; now apply sheet_after_insert with d).
  assert (Hscan : dict_key_of (dict_set d key cell) cell = Some key)
    by now apply dict_key_of_set.
  exists w1. split; [now apply setitem_run |]. split; [| split].
  - unfold Cell_get_cell_id.
    rewrite (bind_run _ _ w1 w1 o) by now apply cell_obj_run.
    now apply get_cell_id_run with (dict_set d key cell).
  - apply (get_position_run w1 cell o (dict_set d key cell) key); auto.
    now apply position_roundtrip.
  - intros Hrow. eexists.
    rewrite Hself in Hd1.
    rewrite (get_cell_at_position_run w1 self _ row column Hd1 Hrow Hcolumn).
    fold key. now rewrite dict_get_set_eq.
Qed.

Lemma X11_setitem_then_get_position_witness :
  sheet_objs unstored_world !! 0%nat = Some (grid_dict 0) /\
  cell_objs unstored_world !! 4%nat = Some (literal_cell 0 (VInt 5)) /\
  Forall (fun entry => snd entry <> 4%nat) (grid_dict 0) /\
  0 <= 2 /\
  exists w1 : World,
    Spreadsheet_setitem 0 (cell_id_from_position (3, 2)) 4 unstored_world
      = Returns tt w1 /\
    Cell_get_position 4 w1 = Returns (3, 2) w1.
Proof.
  assert (Hfresh : Forall (fun entry => snd entry <> 4%nat) (grid_dict 0))
    by (repeat constructor; simpl; lia).
  split; [reflexivity |]. split; [reflexivity |]. split; [exact Hfresh |].
  split; [lia |].
  destruct (X11_setitem_then_get_position unstored_world 0%nat (grid_dict 0) 4%nat
              (literal_cell 0 (VInt 5)) 3 2 eq_refl eq_refl eq_refl Hfresh)
    as (w1 & Hset & _ & Hpos & _); [lia |].
  now exists w1.
Defined.

(** ** Resolving selections *)

Lemma in_selection_positions (selection : Selection) (position : Z * Z) :
  In position (selection_positions selection) <-> covers selection position.
Proof.
  destruct position as [row column]. unfold selection_positions, covers.
  rewrite in_flat_map. split; intros (b & Hb & Hin); exists b; (split; [exact Hb |]).
  - now apply in_bound_positions in Hin.
  - now apply in_bound_positions.
Qed.

Lemma non_negative_dec (position : Z * Z) :
  {non_negative position} + {~ non_negative position}.
Proof.
  unfold non_negative.
  destruct (Z_le_dec 0 (fst position)); destruct (Z_le_dec 0 (snd position)); tauto.
Qed.

Lemma first_negative (positions : list (Z * Z)) :
  Forall non_negative positions \/
  exists before p after,
    positions = (before ++ p :: after)%list /\
    Forall non_negative before /\ ~ non_negative p.
Proof.
  induction positions as [|p positions IH]; [left; constructor |].
  destruct (non_negative_dec p) as [Hp | Hp].
  - destruct IH as [IH | (before & q & after & -> & Hbefore & Hq)].
    + left. now constructor.
    + right. exists (p :: before), q, after. repeat split; auto.
  - right. exists [], p, positions. repeat split; auto.
Qed.

Lemma positions_loop_raises (self : nat) (d : list (string * nat))
    (before after : list (Z * Z)) (p : Z * Z) (w : World) (cells : gset nat) :
  sheet_objs w !! self = Some d ->
  Forall non_negative before -> ~ non_negative p ->
  exists message w',
    for_fold (before ++ p :: after) cells (add_cell_at self) w
    = Raises (Exception_out_of_bounds message) w'.
Proof.
  intros Hd Hbefore Hp. rewrite for_fold_app.
  rewrite (bind_run _ _ _ _ _ (positions_loop self d before w cells Hd Hbefore)).
  destruct p as [x y]. simpl for_fold. unfold add_cell_at at 1.
  destruct (get_cell_at_position_negative
              (alloc w (replicate (length before) (placeholder self))) self x y)
    as [message Hraise].
  { unfold non_negative in Hp. simpl in Hp. lia. }
  exists message. eexists. unfold bind at 1. unfold bind at 1. now rewrite Hraise.
Qed.

Lemma elem_of_found (d : list (string * nat)) (n : nat) (positions : list (Z * Z))
    (cell : nat) :
  cell ∈ (list_to_set (imap (found d n) positions) : gset nat) <->
  exists i position, positions !! i = Some position /\ cell = found d n i position.
Proof.
  rewrite elem_of_list_to_set, elem_of_lookup_imap.
  split; intros (i & position & H1 & H2); exists i, position; auto.
Qed.

(** X12: [get_cells] returns exactly when every position covered by a bound
    of the selection has a non-negative row and column, and otherwise raises
    the out-of-bounds exception.  When it returns, it has not written the
    sheets nor changed an existing cell; the result contains every cell stored
    at a covered position, and nothing but such cells and placeholders
    constructed during the call. *)
Theorem X12_get_cells_resolution (w : World) (self : nat) (d : list (string * nat))
    (selection : Selection) :
  sheet_objs w !! self = Some d ->
  ((forall position, covers selection position -> non_negative position) <->
   (exists cells w', Spreadsheet_get_cells self selection w = Returns cells w')) /\
  (forall e w', Spreadsheet_get_cells self selection w = Raises e w' ->
                exists message, e = Exception_out_of_bounds message) /\
  (forall cells w',
      Spreadsheet_get_cells self selection w = Returns cells w' ->
      sheet_objs w' = sheet_objs w /\
      (forall c o, cell_objs w !! c = Some o -> cell_objs w' !! c = Some o) /\
      (forall position c,
          covers selection position ->
          dict_get d (cell_id_from_position position) = Some c -> c ∈ cells) /\
      (forall c, c ∈ cells ->
                 (exists position,
                     covers selection position /\
                     dict_get d (cell_id_from_position position) = Some c) \/
                 (cell_objs w !! c = None /\
                  cell_objs w' !! c = Some (placeholder self)))).
Proof.
  intros Hd.
  destruct (first_negative (selection_positions selection))
    as [Hall | (before & p & after & Hsplit & Hbefore & Hp)].
  - pose proof (get_cells_run w self d selection Hd Hall) as Hrun.
    split; [| split].
    + split; [eauto |]. intros _ position Hcov.
      rewrite List.Forall_forall in Hall. now apply Hall, in_selection_positions.
    + intros e w' Hraise. rewrite Hrun in Hraise. discriminate.
    + intros cells w' Hret. rewrite Hrun in Hret. injection Hret as <- <-.
      split; [reflexivity |]. split; [intros c o; apply alloc_lookup_old |]. split.
      * intros position c Hcov Hget.
        apply in_selection_positions, list_elem_of_In, list_elem_of_lookup in Hcov
          as [i Hi].
        apply elem_of_found. exists i, position. split; [exact Hi |].
        unfold found. now rewrite Hget.
      * intros c Hc. apply elem_of_found in Hc as (i & position & Hi & ->).
        unfold found.
        destruct (dict_get d (cell_id_from_position position)) as [stored|] eqn:Hget.
        -- left. exists position. split; [| exact Hget].
           apply in_selection_positions, list_elem_of_In, list_elem_of_lookup. eauto.
        -- right. simpl default.
           destruct (get_cells_placeholder w self d selection i position Hi Hget)
             as (_ & Hfresh & Hobj).
           now split.
  - assert (Hraise : exists message w',
               Spreadsheet_get_cells self selection w
               = Raises (Exception_out_of_bounds message) w').
    { rewrite get_cells_flat, Hsplit. now apply positions_loop_raises with d. }
    destruct Hraise as (message & w' & Hraise).
    split; [| split].
    + split.
      * intros Hall. elim Hp. apply Hall, in_selection_positions.
        rewrite Hsplit. apply in_elt.
      * intros (cells & w'' & Hret). rewrite Hraise in Hret. discriminate.
    + intros e w'' Hraise'. rewrite Hraise in Hraise'. injection Hraise' as <- _.
      now exists message.
    + intros cells w'' Hret. rewrite Hraise in Hret. discriminate.
Qed.

Lemma X12_get_cells_resolution_witness :
  sheet_objs example_world !! 0%nat = Some (grid_dict 0) /\
  (exists cells w',
      Spreadsheet_get_cells 0 (Selection_init (Some (0, 1)) (Some (1, 3)) None)
        example_world = Returns cells w' /\
      1%nat ∈ cells) /\
  (exists message w',
      Spreadsheet_get_cells 0 (Selection_init (Some (-1, 0)) (Some (1, 1)) None)
        example_world = Raises (Exception_out_of_bounds message) w').
Proof.
  split; [reflexivity |]. split.
  - destruct (X12_get_cells_resolution example_world 0%nat (grid_dict 0)
                (Selection_init (Some (0, 1)) (Some (1, 3)) None) eq_refl)
      as (Hreturns & _ & Hcontent).
    destruct (proj1 Hreturns) as (cells & w' & Hrun).
    + intros [row column] (b & [<- | []] & Hrow & Hcolumn).
      unfold non_negative. simpl in *. lia.
    + exists cells, w'. split; [exact Hrun |].
      destruct (Hcontent cells w' Hrun) as (_ & _ & Hstored & _).
      apply (Hstored (0, 1)); [| reflexivity].
      exists ((0, 1), (1, 3)). simpl. split; [now left | lia].
  - destruct (X12_get_cells_resolution example_world 0%nat (grid_dict 0)
                (Selection_init (Some (-1, 0)) (Some (1, 1)) None) eq_refl)
      as (_ & Hraises & _).
    destruct (Spreadsheet_get_cells 0 (Selection_init (Some (-1, 0)) (Some (1, 1)) None)
                example_world) as [cells w' | e w'] eqn:Hrun.
    + vm_compute in Hrun. discriminate Hrun.
    + destruct (Hraises e w' eq_refl) as [message ->]. now exists message, w'.
Defined.

Lemma selection_add_bounds (a b : Selection) :
  bounds (Selection_add a b) = (bounds a ++ bounds b)%list.
Proof.
  unfold Selection_add, Selection_init. simpl.
  now destruct (bounds a ++ bounds b)%list.
Qed.

Lemma selection_add_positions (a b : Selection) :
  selection_positions (Selection_add a b)
  = (selection_positions a ++ selection_positions b)%list.
Proof.
  unfold selection_positions. rewrite selection_add_bounds. apply flat_map_app.
Qed.

Lemma stored_in_found (d : list (string * nat)) (n : nat) (positions : list (Z * Z))
    (cell : nat) :
  (cell < n)%nat ->
  (cell ∈ (list_to_set (imap (found d n) positions) : gset nat) <->
   exists position, In position positions /\
                    dict_get d (cell_id_from_position position) = Some cell).
Proof.
  intros Hold. rewrite elem_of_found. split.
  - intros (i & position & Hi & Hcell). exists position. split.
    + apply list_elem_of_In, list_elem_of_lookup. eauto.
    + unfold found in Hcell.
      destruct (dict_get d (cell_id_from_position position)) as [stored|];
        simpl in Hcell; [now subst | lia].
  - intros (position & Hin & Hget).
    apply list_elem_of_In, list_elem_of_lookup in Hin as [i Hi].
    exists i, position. split; [exact Hi |]. unfold found. now rewrite Hget.
Qed.

(** X13: union of selections.  [a + b] has the bounds of [a] followed by
    those of [b]; when neither covers a negative position, resolving [a + b]
    finds, among the cells that existed before the call, exactly those that
    resolving [a] or resolving [b] finds. *)
Theorem X13_selection_union (w : World) (self : nat) (d : list (string * nat))
    (a b : Selection) :
  sheet_objs w !! self = Some d ->
  (forall position, covers a position -> non_negative position) ->
  (forall position, covers b position -> non_negative position) ->
  bounds (Selection_add a b) = (bounds a ++ bounds b)%list /\
  exists (cells_a cells_b cells_ab : gset nat) (wa wb wab : World),
    Spreadsheet_get_cells self a w = Returns cells_a wa /\
    Spreadsheet_get_cells self b w = Returns cells_b wb /\
    Spreadsheet_get_cells self (Selection_add a b) w = Returns cells_ab wab /\
    forall cell, (cell < length (cell_objs w))%nat ->
                 (cell ∈ cells_ab <-> cell ∈ cells_a \/ cell ∈ cells_b).
Proof.
  intros Hd Ha Hb. split; [apply selection_add_bounds |].
  assert (Hall_a : Forall non_negative (selection_positions a)).
  { apply List.Forall_forall. intros p Hp. now apply Ha, in_selection_positions. }
  assert (Hall_b : Forall non_negative (selection_positions b)).
  { apply List.Forall_forall. intros p Hp. now apply Hb, in_selection_positions. }
  assert (Hall_ab : Forall non_negative (selection_positions (Selection_add a b))).
  { rewrite selection_add_positions. apply Forall_app. now split. }
  eexists _, _, _, _, _, _.
  split; [now apply (get_cells_run w self d a) |].
  split; [now apply (get_cells_run w self d b) |].
  split; [now apply (get_cells_run w self d (Selection_add a b)) |].
  intros cell Hold. rewrite !stored_in_found by exact Hold.
  rewrite selection_add_positions. split.
  - intros (position & Hin & Hget). apply in_app_or in Hin as [Hin | Hin]; eauto.
  - intros [(position & Hin & Hget) | (position & Hin & Hget)];
      exists position; (split; [apply in_or_app; auto | exact Hget]).
Qed.

Lemma X13_selection_union_witness :
  sheet_objs example_world !! 0%nat = Some (grid_dict 0) /\
  exists (cells : gset nat) (w' : World),
    Spreadsheet_get_cells 0
      (Selection_add (Selection_init (Some (0, 0)) (Some (1, 1)) None)
                     (Selection_init (Some (1, 1)) (Some (2, 2)) None))
      example_world = Returns cells w' /\
    0%nat ∈ cells.
Proof.
  split; [reflexivity |].
  destruct (X13_selection_union example_world 0%nat (grid_dict 0)
              (Selection_init (Some (0, 0)) (Some (1, 1)) None)
              (Selection_init (Some (1, 1)) (Some (2, 2)) None) eq_refl)
    as (_ & ca & cb & cab & wa & wb & wab & Ha & Hb & Hab & Hunion).
  - intros [row column] (b & [<- | []] & Hrow & Hcolumn).
    unfold non_negative. simpl in *. lia.
  - intros [row column] (b & [<- | []] & Hrow & Hcolumn).
    unfold non_negative. simpl in *. lia.
  - exists cab, wab. split; [exact Hab |].
    apply Hunion; [simpl; lia |]. left.
    vm_compute in Ha. injection Ha as <- _. set_solver.
Defined.

Lemma range_empty (start stop : Z) : stop <= start -> Py.range start stop = [].
Proof.
  intros H. unfold Py.range. now replace (Z.to_nat (stop - start)) with 0%nat by lia.
Qed.

Lemma bound_positions_empty (b : T_bounds) :
  fst (snd b) <= fst (fst b) \/ snd (snd b) <= snd (fst b) ->
  bound_positions b = [].
Proof.
  destruct b as [[r0 c0] [r1 c1]]. simpl. intros [Hrows | Hcolumns].
  - now rewrite (range_empty r0 r1 Hrows).
  - rewrite (range_empty c0 c1 Hcolumns). simpl.
    induction (Py.range r0 r1) as [|r rows IH]; [reflexivity | exact IH].
Qed.

(** X14: a selection whose bounds are all empty ranges (the stop row is not
    after the start row, or the stop column not after the start column)
    resolves to the empty set: nothing is looked up, nothing is constructed
    and nothing is raised, whatever the sign of the coordinates.  A
    [Selection] built from a start alone, or from a stop alone, has no bounds
    at all. *)
Theorem X14_empty_selection (w : World) (self : nat) :
  (forall selection,
      Forall (fun b => fst (snd b) <= fst (fst b) \/ snd (snd b) <= snd (fst b))
             (bounds selection) ->
      Spreadsheet_get_cells self selection w = Returns ∅ w) /\
  (forall position,
      bounds (Selection_init (Some position) None None) = [] /\
      bounds (Selection_init None (Some position) None) = []).
Proof.
  split; [| intros position; split; reflexivity].
  intros selection Hempty. rewrite get_cells_flat.
  replace (selection_positions selection) with (@nil (Z * Z)); [reflexivity |].
  unfold selection_positions. symmetry.
  induction (bounds selection) as [|b bs IH]; [reflexivity |].
  apply Forall_cons in Hempty as [Hb Hbs]. simpl.
  now rewrite (bound_positions_empty b Hb), (IH Hbs).
Qed.

(** X15: [sum_row] selects nothing.  Its selection starts and stops in the
    cell's own row, so the range of rows is empty: for a cell stored in its
    sheet under a key that decodes, the computation returns 0 without looking
    any cell up, and leaves the world as it was. *)
Theorem X15_sum_row_selects_nothing (value : nat -> M cell_value) (w : World)
    (cell : nat) (o : Cell) (d : list (string * nat)) (cell_id : string)
    (row column : Z) :
  cell_objs w !! cell = Some o ->
  sheet_objs w !! spreadsheet o = Some d ->
  dict_key_of d cell = Some cell_id ->
  position_from_cell_id cell_id = Ok (row, column) ->
  selection_positions (Selection_init (Some (row, 1)) (Some (row, column)) None) = [] /\
  sum_row value cell w = Returns (VInt 0) w.
Proof.
  intros Ho Hd Hk Hp.
  assert (Hnone : selection_positions
                    (Selection_init (Some (row, 1)) (Some (row, column)) None) = []).
  { rewrite selection_of_one_bound. apply bound_positions_empty. simpl. lia. }
  split; [exact Hnone |].
  unfold sum_row.
  rewrite (bind_run _ _ _ _ _ (get_position_run _ _ _ _ _ _ Ho Hd Hk Hp)).
  rewrite (bind_run _ _ _ _ _ (cell_obj_run _ _ _ Ho)).
  simpl fst. simpl snd.
  rewrite (bind_run _ _ w w (∅ : gset nat)); [reflexivity |].
  now rewrite get_cells_flat, Hnone.
Qed.

Lemma X15_sum_row_selects_nothing_witness :
  cell_objs example_world !! 3%nat = Some (literal_cell 0 (VStr "d")) /\
  sheet_objs example_world !! 0%nat = Some (grid_dict 0) /\
  dict_key_of (grid_dict 0) 3 = Some "1_A" /\
  position_from_cell_id "1_A" = Ok (1, 1) /\
  sum_row (fun _ => ret VNone) 3%nat example_world = Returns (VInt 0) example_world.
Proof.
  repeat (split; [reflexivity |]).
  apply (X15_sum_row_selects_nothing (fun _ => ret VNone) example_world 3%nat
           (literal_cell 0 (VStr "d")) (grid_dict 0) "1_A" 1 1); reflexivity.
Defined.

(** ** Filling, in general *)

Lemma for_each_app {A} (l1 l2 : list A) (body : A -> M unit) (w : World) :
  for_each (l1 ++ l2) body w = (for_each l1 body ;; for_each l2 body) w.
Proof.
  revert w. induction l1 as [|x l1 IH]; intros w; simpl; [reflexivity |].
  unfold bind. destruct (body x w) as [[] w' | e w']; [| reflexivity].
  rewrite IH. reflexivity.
Qed.

Lemma bind_congr {A B} (c c' : M A) (k k' : A -> M B) (w : World) :
  c w = c' w -> (forall a w', k a w' = k' a w') -> bind c k w = bind c' k' w.
Proof.
  intros Hc Hk. unfold bind. rewrite Hc. destruct (c' w); [apply Hk | reflexivity].
Qed.

Lemma column_ids_seq (n : nat) :
  column_ids_from_number (Z.of_nat n)
  = map (fun c => column_id_from_number (Z.of_nat c)) (seq 0 n).
Proof.
  unfold column_ids_from_number, Py.range.
  replace (Z.to_nat (Z.of_nat n - 0)) with n by lia.
  rewrite map_map. apply map_ext. intros c. f_equal.
Qed.

Lemma fill_row_flat (self : nat) (r : nat) (row : list spreadsheet_value) :
  forall (c : nat) (w : World),
    for_each (zip (map (fun c => column_id_from_number (Z.of_nat c)) (seq c (length row)))
                  row)
      (fun '(column_id, value) =>
         let cell_id := format_cell_id (Z.of_nat r) column_id in
         let! cell :=
           match value with
           | ACell cell => ret cell
           | AValue value => Cell_init value self None None None
           end in
         let! d := sheet_cells self in
         set_sheet_cells self (dict_set d cell_id cell)) w
    = for_each (row_entries r c row) (store self) w.
Proof.
  induction row as [|x row IH]; intros c w; [reflexivity |].
  cbn [length seq map zip zip_with for_each row_entries].
  apply bind_congr; [reflexivity |]. intros _ w'. apply IH.
Qed.

Lemma fill_flat (self : nat) (data : list (list spreadsheet_value)) (w : World) :
  Spreadsheet_fill self data w = for_each (grid_entries 0 data) (store self) w.
Proof.
  unfold Spreadsheet_fill, Py.enumerate.
  change (fun (i : nat) (x : list spreadsheet_value) => (Z.of_nat i, x))
    with (fun (i : nat) (x : list spreadsheet_value) => (Z.of_nat (0 + i), x)).
  generalize 0%nat as r. revert w.
  induction data as [|row data IH]; intros w r; [reflexivity |].
  cbn [imap grid_entries for_each]. rewrite for_each_app.
  apply bind_congr.
  - rewrite Nat.add_0_r, column_ids_seq. apply fill_row_flat.
  - intros _ w'. rewrite <- IH. f_equal. apply imap_ext. intros i x _.
    simpl. do 2 f_equal. lia.
Qed.

Lemma store_run (w : World) (self : nat) (d : list (string * nat))
    (entry : string * spreadsheet_value) :
  sheet_objs w !! self = Some d ->
  store self entry w =
  match snd entry with
  | ACell cell =>
      Returns tt (mkWorld (cell_objs w)
                          (<[self := dict_set d (fst entry) cell]> (sheet_objs w)))
  | AValue value =>
      Returns tt (mkWorld (cell_objs w ++ [literal_cell self value])
                          (<[self := dict_set d (fst entry) (length (cell_objs w))]>
                             (sheet_objs w)))
  end.
Proof.
  intros Hd. unfold store. destruct (snd entry) as [cell | value].
  - rewrite bind_ret. rewrite (bind_run _ _ _ _ _ (sheet_cells_run _ _ _ Hd)).
    unfold set_sheet_cells. now rewrite Hd.
  - destruct w as [cs ss]. simpl in *.
    rewrite (bind_run _ _ _ _ _ (Cell_init_last cs ss value self)).
    rewrite (bind_run _ _ _ _ d) by (apply sheet_cells_run; exact Hd).
    unfold set_sheet_cells. simpl. now rewrite Hd.
Qed.

(** The loop of assignments: what is stored afterwards. *)
Lemma store_loop (self : nat) (entries : list (string * spreadsheet_value)) :
  forall (w : World) (d : list (string * nat)),
    sheet_objs w !! self = Some d ->
    exists (w' : World) (d' : list (string * nat)) (cs : list Cell),
      for_each entries (store self) w = Returns tt w' /\
      sheet_objs w' = <[self := d']> (sheet_objs w) /\
      cell_objs w' = (cell_objs w ++ cs)%list /\
      (forall key, ~ In key (map fst entries) -> dict_get d' key = dict_get d key) /\
      (List.NoDup (map fst entries) ->
       forall key x, In (key, x) entries ->
         match x with
         | ACell cell => dict_get d' key = Some cell
         | AValue value =>
             exists cell, dict_get d' key = Some cell /\
                          (length (cell_objs w) <= cell)%nat /\
                          cell_objs w' !! cell = Some (literal_cell self value)
         end).
Proof.
  induction entries as [|[key0 x0] entries IH]; intros w d Hd.
  - exists w, d, []. simpl. split; [reflexivity |]. split.
    + symmetry. now apply list_insert_id.
    + split; [now rewrite app_nil_r |]. split; [reflexivity | intros _ ? ? []].
  - pose proof (store_run w self d (key0, x0) Hd) as Hstep. simpl in Hstep.
    set (cell0 := match x0 with ACell cell => cell | AValue _ => length (cell_objs w) end).
    set (new0 := match x0 with ACell _ => [] | AValue value => [literal_cell self value] end).
    set (w1 := mkWorld (cell_objs w ++ new0)
                       (<[self := dict_set d key0 cell0]> (sheet_objs w))).
    assert (Hstep1 : store self (key0, x0) w = Returns tt w1).
    { rewrite Hstep. unfold w1, cell0, new0. destruct x0; [| reflexivity].
      now rewrite app_nil_r. }
    assert (Hd1 : sheet_objs w1 !! self = Some (dict_set d key0 cell0)).
    { simpl. apply list_lookup_insert_eq. now apply lookup_lt_Some in Hd. }
    destruct (IH w1 _ Hd1) as (w' & d' & cs & Hrun & Hsheets & Hcells & Hother & Hstored).
    exists w', d', (new0 ++ cs)%list.
    split; [| split; [| split; [| split]]].
    + simpl for_each. now rewrite (bind_run _ _ _ _ _ Hstep1).
    + rewrite Hsheets. simpl. apply list_insert_insert_eq.
    + rewrite Hcells. simpl. now rewrite <- app_assoc.
    + intros key Hnotin. simpl in Hnotin.
      rewrite Hother by tauto. apply dict_get_set_ne. tauto.
    + intros Hnodup key x [Heq | Hin].
      * injection Heq as <- <-. inversion Hnodup as [|? ? Hnotin Hnodup']; subst.
        rewrite (Hother key0 Hnotin), dict_get_set_eq.
        unfold cell0. destruct x0 as [cell | value]; [reflexivity |].
        exists (length (cell_objs w)). split; [reflexivity |]. split; [lia |].
        rewrite Hcells. simpl. rewrite <- app_assoc.
        rewrite lookup_app_r by lia. now rewrite Nat.sub_diag.
      * inversion Hnodup as [|? ? Hnotin Hnodup']; subst.
        specialize (Hstored Hnodup' key x Hin).
        destruct x as [cell | value]; [exact Hstored |].
        destruct Hstored as (cell & Hget & Hge & Hobj).
        exists cell. split; [exact Hget |]. split; [| exact Hobj].
        simpl in Hge. rewrite length_app in Hge. lia.
Qed.

Lemma key_of_naturals_inj (r1 c1 r2 c2 : nat) :
  cell_id_from_position (Z.of_nat r1, Z.of_nat c1)
  = cell_id_from_position (Z.of_nat r2, Z.of_nat c2) ->
  r1 = r2 /\ c1 = c2.
Proof.
  intros Heq.
  pose proof (position_roundtrip (Z.of_nat r1) (Z.of_nat c1) ltac:(lia)) as H1.
  rewrite Heq, position_roundtrip in H1 by lia. injection H1. lia.
Qed.

Lemma in_row_entries (r : nat) (row : list spreadsheet_value) :
  forall (c0 : nat) (key : string) (x : spreadsheet_value),
    In (key, x) (row_entries r c0 row) <->
    exists c, row !! c = Some x /\
              key = cell_id_from_position (Z.of_nat r, Z.of_nat (c0 + c)).
Proof.
  induction row as [|y row IH]; intros c0 key x; simpl.
  - split; [intros [] | intros (c & Hc & _); discriminate].
  - rewrite IH. split.
    + intros [[= <- <-] | (c & Hc & ->)].
      * exists 0%nat. split; [reflexivity |]. now rewrite Nat.add_0_r.
      * exists (S c). split; [exact Hc |]. do 3 f_equal. lia.
    + intros ([|c] & Hc & ->).
      * left. injection Hc as <-. now rewrite Nat.add_0_r.
      * right. exists c. split; [exact Hc |]. do 3 f_equal. lia.
Qed.

Lemma in_grid_entries (data : list (list spreadsheet_value)) :
  forall (r0 : nat) (key : string) (x : spreadsheet_value),
    In (key, x) (grid_entries r0 data) <->
    exists r c row, data !! r = Some row /\ row !! c = Some x /\
                    key = cell_id_from_position (Z.of_nat (r0 + r), Z.of_nat c).
Proof.
  induction data as [|row0 data IH]; intros r0 key x; simpl.
  - split; [intros [] | intros (r & c & row & Hr & _); discriminate].
  - rewrite in_app_iff, in_row_entries, IH. split.
    + intros [(c & Hc & ->) | (r & c & row & Hr & Hc & ->)].
      * exists 0%nat, c, row0. repeat split; auto. now rewrite Nat.add_0_r.
      * exists (S r), c, row. repeat split; auto. do 3 f_equal. lia.
    + intros ([|r] & c & row & Hr & Hc & ->).
      * left. injection Hr as <-. exists c. split; [exact Hc |].
        now rewrite Nat.add_0_r.
      * right. exists r, c, row. repeat split; auto. do 3 f_equal. lia.
Qed.

Lemma in_keys_entries (entries : list (string * spreadsheet_value)) (key : string) :
  In key (map fst entries) <-> exists x, In (key, x) entries.
Proof.
  rewrite in_map_iff. split.
  - intros ([k x] & <- & Hin). now exists x.
  - intros (x & Hin). now exists (key, x).
Qed.

Lemma row_entries_keys_nodup (r : nat) (row : list spreadsheet_value) :
  forall c0, List.NoDup (map fst (row_entries r c0 row)).
Proof.
  induction row as [|x row IH]; intros c0; simpl; constructor; [| apply IH].
  intros Hin. apply in_keys_entries in Hin as (y & Hin).
  apply in_row_entries in Hin as (c & _ & Heq).
  apply key_of_naturals_inj in Heq. lia.
Qed.

Lemma grid_entries_keys_nodup (data : list (list spreadsheet_value)) :
  forall r0, List.NoDup (map fst (grid_entries r0 data)).
Proof.
  induction data as [|row data IH]; intros r0; simpl; [constructor |].
  rewrite map_app. apply NoDup_ListNoDup, NoDup_app. split; [| split].
  - apply NoDup_ListNoDup, row_entries_keys_nodup.
  - intros key Hin1 Hin2.
    apply list_elem_of_In, in_keys_entries in Hin1 as (x1 & Hin1).
    apply list_elem_of_In, in_keys_entries in Hin2 as (x2 & Hin2).
    apply in_row_entries in Hin1 as (c1 & _ & ->).
    apply in_grid_entries in Hin2 as (r & c2 & row' & _ & _ & Heq).
    apply key_of_naturals_inj in Heq. lia.
  - apply NoDup_ListNoDup, IH.
Qed.

(** X16: [fill], then look up.  On any sheet, [fill] returns, and afterwards
    the element at row [r], column offset [c] of the data is what is stored
    at position [(r, c)]: the given object itself for a [Cell], and for a
    plain value a cell constructed by the call, owned by this sheet, holding
    the value with the default formatting.  Keys of other positions keep what
    they had, existing cell objects and the other sheets are untouched. *)
Theorem X16_fill_then_lookup (w : World) (self : nat) (d : list (string * nat))
    (data : list (list spreadsheet_value)) :
  sheet_objs w !! self = Some d ->
  exists (w' : World) (d' : list (string * nat)),
    Spreadsheet_fill self data w = Returns tt w' /\
    sheet_objs w' !! self = Some d' /\
    (forall (r c : nat) row x,
        data !! r = Some row -> row !! c = Some x ->
        exists cell w'',
          dict_get d' (cell_id_from_position (Z.of_nat r, Z.of_nat c)) = Some cell /\
          Spreadsheet_get_cell_at_position self (Z.of_nat r, Z.of_nat c) w'
            = Returns cell w'' /\
          match x with
          | ACell given => cell = given
          | AValue value =>
              cell_objs w !! cell = None /\
              cell_objs w' !! cell = Some (literal_cell self value)
          end) /\
    (forall key,
        (forall (r c : nat) row x,
            data !! r = Some row -> row !! c = Some x ->
            key <> cell_id_from_position (Z.of_nat r, Z.of_nat c)) ->
        dict_get d' key = dict_get d key) /\
    (forall c o, cell_objs w !! c = Some o -> cell_objs w' !! c = Some o) /\
    (forall other, other <> self -> sheet_objs w' !! other = sheet_objs w !! other).
Proof.
  intros Hd.
  destruct (store_loop self (grid_entries 0 data) w d Hd)
    as (w' & d' & cs & Hrun & Hsheets & Hcells & Hother & Hstored).
  assert (Hd' : sheet_objs w' !! self = Some d').
  { rewrite Hsheets. apply list_lookup_insert_eq. now apply lookup_lt_Some in Hd. }
  exists w', d'. split; [now rewrite fill_flat |]. split; [exact Hd' |].
  split; [| split; [| split]].
  - intros r c row x Hr Hc.
    assert (Hin : In (cell_id_from_position (Z.of_nat r, Z.of_nat c), x)
                     (grid_entries 0 data)).
    { apply in_grid_entries. now exists r, c, row. }
    specialize (Hstored (grid_entries_keys_nodup data 0) _ _ Hin).
    assert (Hfound : forall cell,
               dict_get d' (cell_id_from_position (Z.of_nat r, Z.of_nat c)) = Some cell ->
               exists w'',
                 Spreadsheet_get_cell_at_position self (Z.of_nat r, Z.of_nat c) w'
                 = Returns cell w'').
    { intros cell Hget. eexists.
      rewrite (get_cell_at_position_run w' self d' _ _ Hd') by lia.
      now rewrite Hget. }
    destruct x as [given | value].
    + destruct (Hfound given Hstored) as [w'' Hlook]. now exists given, w''.
    + destruct Hstored as (cell & Hget & Hge & Hobj).
      destruct (Hfound cell Hget) as [w'' Hlook].
      exists cell, w''. repeat split; auto. now apply lookup_ge_None.
  - intros key Hkey. apply Hother. intros Hin.
    apply in_keys_entries in Hin as (x & Hin).
    apply in_grid_entries in Hin as (r & c & row & Hr & Hc & Heq).
    now apply (Hkey r c row x).
  - intros c o Hc. rewrite Hcells. now apply lookup_app_l_Some.
  - intros other Hne. rewrite Hsheets. now apply list_lookup_insert_ne.
Qed.

Lemma X16_fill_then_lookup_witness :
  sheet_objs (mkWorld [] [[]]) !! 0%nat = Some [] /\
  exists (w' w'' : World) (cell : nat),
    Spreadsheet_fill 0 grid_abcd (mkWorld [] [[]]) = Returns tt w' /\
    Spreadsheet_get_cell_at_position 0 (1, 0) w' = Returns cell w'' /\
    cell_objs w' !! cell = Some (literal_cell 0 (VStr "c")).
Proof.
  split; [reflexivity |].
  destruct (X16_fill_then_lookup (mkWorld [] [[]]) 0%nat [] grid_abcd eq_refl)
    as (w' & d' & Hfill & _ & Hstored & _).
  destruct (Hstored 1%nat 0%nat [AValue (VStr "c"); AValue (VStr "d")] (AValue (VStr "c"))
              eq_refl eq_refl) as (cell & w'' & _ & Hlook & _ & Hobj).
  now exists w', w'', cell.
Defined.

(** ** The shape, in general *)

Lemma result_all_ok {A B} (f : A -> result B) (l : list A) (ys : list B) :
  List.Forall2 (fun x y => f x = Ok y) l ys -> result_all f l = Ok ys.
Proof.
  induction 1 as [|x y l ys Hxy _ IH]; simpl; [reflexivity |].
  now rewrite Hxy, IH.
Qed.

Lemma result_all_error {A B} (f : A -> result B) (before after : list A) (x : A)
    (ys : list B) (e : exn) :
  List.Forall2 (fun x y => f x = Ok y) before ys -> f x = Error e ->
  result_all f (before ++ x :: after) = Error e.
Proof.
  intros Hbefore Hx. induction Hbefore as [|x' y l ys' Hxy _ IH]; simpl.
  - now rewrite Hx.
  - now rewrite Hxy, IH.
Qed.

Lemma fold_max_spec (l : list Z) :
  forall x, let m := fold_left Z.max l x in
            x <= m /\ (forall y, In y l -> y <= m) /\ In m (x :: l).
Proof.
  induction l as [|z l IH]; intros x; simpl.
  - repeat split; [lia | intros y [] | now left].
  - destruct (IH (Z.max x z)) as (Hge & Hall & Hin).
    remember (fold_left Z.max l (Z.max x z)) as m. repeat split.
    + lia.
    + intros y [<- | Hy]; [lia | now apply Hall].
    + destruct Hin as [Heq | Hin]; [| right; right; exact Hin].
      destruct (Z.max_spec x z) as [[_ Hm] | [_ Hm]];
        [right; left | left]; congruence.
Qed.

Lemma py_max_spec (l : list Z) :
  l <> [] ->
  exists m, py_max l = Ok m /\ (forall y, In y l -> y <= m) /\ In m l.
Proof.
  destruct l as [|x l]; [congruence |]. intros _.
  destruct (fold_max_spec l x) as (Hge & Hall & Hin).
  exists (fold_left Z.max l x). split; [reflexivity |]. split; [| exact Hin].
  intros y [<- | Hy]; [exact Hge | now apply Hall].
Qed.

(** The size along one axis when every key decodes. *)
Lemma axis_size_spec (f : string -> result Z) (d : list (string * nat)) :
  d <> [] ->
  (forall key, In key (dict_keys d) -> exists n, f key = Ok n) ->
  exists size,
    axis_size f d = Ok size /\
    (forall key n, In key (dict_keys d) -> f key = Ok n -> n < size) /\
    (exists key n, In key (dict_keys d) /\ f key = Ok n /\ n + 1 = size).
Proof.
  intros Hne Hdecodes.
  assert (Hall : exists ns, List.Forall2 (fun x y => f x = Ok y) (dict_keys d) ns).
  { induction (dict_keys d) as [|key keys IH]; [exists []; constructor |].
    destruct (Hdecodes key) as [n Hn]; [now left |].
    destruct IH as [ns Hns]; [intros k Hk; apply Hdecodes; now right |].
    exists (n :: ns). now constructor. }
  destruct Hall as [ns Hns].
  assert (Hns_ne : ns <> []).
  { intros ->. inversion Hns as [Hkeys |]. destruct d; [congruence | discriminate]. }
  destruct (py_max_spec ns Hns_ne) as (m & Hmax & Hle & Hin).
  exists (m + 1). unfold axis_size. rewrite (result_all_ok f _ ns Hns). simpl.
  rewrite Hmax. simpl. split; [reflexivity |]. split.
  - intros key n Hkey Hn.
    assert (In n ns).
    { clear - Hns Hkey Hn. induction Hns as [|x y l ys Hxy _ IH]; [contradiction |].
      destruct Hkey as [<- | Hkey]; [left; congruence | right; auto]. }
    specialize (Hle n H). lia.
  - assert (exists key, In key (dict_keys d) /\ f key = Ok m) as (key & Hkey & Hm).
    { clear - Hns Hin. induction Hns as [|x y l ys Hxy _ IH]; [contradiction |].
      destruct Hin as [<- | Hin].
      - exists x. split; [now left | exact Hxy].
      - destruct (IH Hin) as (key & Hkey & Hm). exists key. split; [now right | exact Hm]. }
    now exists key, m.
Qed.

Lemma position_ok_iff (key : string) (row column : Z) :
  position_from_cell_id key = Ok (row, column) <->
  row_number_from_cell_id key = Ok row /\ column_number_from_cell_id key = Ok column.
Proof.
  unfold position_from_cell_id.
  destruct (row_number_from_cell_id key) as [r | e]; simpl.
  - destruct (column_number_from_cell_id key) as [c | e]; simpl.
    + split; [intros [= -> ->]; auto | intros [[= ->] [= ->]]; reflexivity].
    + split; [discriminate | intros [_ H]; discriminate].
  - split; [discriminate | intros [H _]; discriminate].
Qed.

(** X17: the shape of a sheet whose keys all decode.  On a non-empty sheet,
    [get_shape] returns one more than the largest row and one more than the
    largest column number among the keys, and leaves the world as it was: no
    key has a row or column at or beyond the shape, and both bounds are
    attained. *)
Theorem X17_shape_is_max_plus_one (w : World) (self : nat) (d : list (string * nat)) :
  sheet_objs w !! self = Some d ->
  d <> [] ->
  (forall key, In key (dict_keys d) ->
               exists row column, position_from_cell_id key = Ok (row, column)) ->
  exists rows columns : Z,
    Spreadsheet_get_num_rows self w = Returns rows w /\
    Spreadsheet_get_num_columns self w = Returns columns w /\
    Spreadsheet_get_shape self w = Returns (rows, columns) w /\
    (forall key row column,
        In key (dict_keys d) -> position_from_cell_id key = Ok (row, column) ->
        row < rows /\ column < columns) /\
    (exists key row column,
        In key (dict_keys d) /\ position_from_cell_id key = Ok (row, column) /\
        row + 1 = rows) /\
    (exists key row column,
        In key (dict_keys d) /\ position_from_cell_id key = Ok (row, column) /\
        column + 1 = columns).
Proof.
  intros Hd Hne Hdecodes.
  assert (Hrows_ok : forall key, In key (dict_keys d) ->
                                 exists n, row_number_from_cell_id key = Ok n).
  { intros key Hkey. destruct (Hdecodes key Hkey) as (r & c & Hp).
    apply position_ok_iff in Hp as [Hr _]. eauto. }
  assert (Hcolumns_ok : forall key, In key (dict_keys d) ->
                                    exists n, column_number_from_cell_id key = Ok n).
  { intros key Hkey. destruct (Hdecodes key Hkey) as (r & c & Hp).
    apply position_ok_iff in Hp as [_ Hc]. eauto. }
  destruct (axis_size_spec _ d Hne Hrows_ok) as (rows & Hrows & Hrows_lt & Hrows_max).
  destruct (axis_size_spec _ d Hne Hcolumns_ok)
    as (columns & Hcolumns & Hcolumns_lt & Hcolumns_max).
  assert (Hrun_rows : Spreadsheet_get_num_rows self w = Returns rows w).
  { rewrite <- (alloc_nil w). rewrite (get_num_rows_alloc w self d Hd []).
    now rewrite Hrows. }
  assert (Hrun_columns : Spreadsheet_get_num_columns self w = Returns columns w).
  { rewrite <- (alloc_nil w). rewrite (get_num_columns_alloc w self d Hd []).
    now rewrite Hcolumns. }
  exists rows, columns. split; [exact Hrun_rows |]. split; [exact Hrun_columns |].
  split; [| split; [| split]].
  - unfold Spreadsheet_get_shape.
    rewrite (bind_run _ _ _ _ _ Hrun_rows). now rewrite (bind_run _ _ _ _ _ Hrun_columns).
  - intros key row column Hkey Hp. apply position_ok_iff in Hp as [Hr Hc].
    split; [now apply (Hrows_lt key) | now apply (Hcolumns_lt key)].
  - destruct Hrows_max as (key & row & Hkey & Hr & Hmax).
    destruct (Hcolumns_ok key Hkey) as [column Hc].
    exists key, row, column. split; [exact Hkey |]. split; [| exact Hmax].
    now apply position_ok_iff.
  - destruct Hcolumns_max as (key & column & Hkey & Hc & Hmax).
    destruct (Hrows_ok key Hkey) as [row Hr].
    exists key, row, column. split; [exact Hkey |]. split; [| exact Hmax].
    now apply position_ok_iff.
Qed.

Lemma X17_shape_is_max_plus_one_witness :
  sheet_objs example_world !! 0%nat = Some (grid_dict 0) /\
  grid_dict 0 <> [] /\
  (forall key, In key (dict_keys (grid_dict 0)) ->
               exists row column, position_from_cell_id key = Ok (row, column)) /\
  exists rows columns : Z,
    Spreadsheet_get_shape 0 example_world = Returns (rows, columns) example_world.
Proof.
  assert (Hdecodes : forall key, In key (dict_keys (grid_dict 0)) ->
                       exists row column, position_from_cell_id key = Ok (row, column)).
  { intros key Hkey. simpl in Hkey.
    repeat destruct Hkey as [<- | Hkey]; try contradiction; eexists _, _; reflexivity. }
  split; [reflexivity |]. split; [discriminate |]. split; [exact Hdecodes |].
  destruct (X17_shape_is_max_plus_one example_world 0%nat (grid_dict 0) eq_refl)
    as (rows & columns & _ & _ & Hshape & _); [discriminate | exact Hdecodes |].
  now exists rows, columns.
Defined.

Lemma forall2_decoded (f : string -> result Z) (keys : list string) :
  (forall key, In key keys -> exists n, f key = Ok n) ->
  exists ns, List.Forall2 (fun x y => f x = Ok y) keys ns.
Proof.
  intros Hdecodes. induction keys as [|key keys IH]; [exists []; constructor |].
  destruct (Hdecodes key) as [n Hn]; [now left |].
  destruct IH as [ns Hns]; [intros k Hk; apply Hdecodes; now right |].
  exists (n :: ns). now constructor.
Qed.

(** X18: assignment does not validate keys, and one malformed key breaks the
    shape.  On a sheet whose keys all decode, after [sheet[key] = cell] with a
    key that has no separator, [get_shape] raises: [ValueError] from
    [get_num_rows] when the key is not an integer literal, and otherwise
    [IndexError] from [get_num_columns]. *)
Theorem X18_malformed_key_breaks_shape (w : World) (self : nat)
    (d : list (string * nat)) (key : string) (cell : nat) :
  sheet_objs w !! self = Some d ->
  (forall k, In k (dict_keys d) ->
             exists row column, position_from_cell_id k = Ok (row, column)) ->
  str_forall no_underscore key = true ->
  exists w1 : World,
    Spreadsheet_setitem self key cell w = Returns tt w1 /\
    Spreadsheet_get_num_columns self w1 = Raises IndexError w1 /\
    Spreadsheet_get_shape self w1 =
    Raises (match Py.int_of_str key with
            | Some _ => IndexError
            | None => ValueError_int key
            end) w1.
Proof.
  intros Hd Hdecodes Hplain.
  set (w1 := mkWorld (cell_objs w) (<[self := dict_set d key cell]> (sheet_objs w))).
  assert (Hd1 : sheet_objs w1 !! self = Some (dict_set d key cell))
    by now apply sheet_after_insert with d.
  assert (Hsplit : Py.split "_" key = [key]).
  { unfold Py.split. now rewrite (split_pieces_plain key Hplain). }
  assert (Hcolumn : column_number_from_cell_id key = Error IndexError).
  { unfold column_number_from_cell_id. now rewrite Hsplit. }
  assert (Hrow : row_number_from_cell_id key =
                 match Py.int_of_str key with
                 | Some n => Ok n
                 | None => Error (ValueError_int key)
                 end).
  { unfold row_number_from_cell_id. now rewrite Hsplit. }
  assert (Hnew : dict_get d key = None).
  { apply dict_get_None_keys. intros Hin.
    destruct (Hdecodes key Hin) as (r & c & Hp).
    apply position_ok_iff in Hp as [_ Hc]. rewrite Hcolumn in Hc. discriminate. }
  assert (Hkeys : dict_keys (dict_set d key cell) = (dict_keys d ++ [key])%list)
    by now rewrite dict_keys_set, Hnew.
  destruct (forall2_decoded row_number_from_cell_id (dict_keys d)) as [rs Hrs].
  { intros k Hk. destruct (Hdecodes k Hk) as (r & c & Hp).
    apply position_ok_iff in Hp as [Hr _]. eauto. }
  destruct (forall2_decoded column_number_from_cell_id (dict_keys d)) as [cs Hcs].
  { intros k Hk. destruct (Hdecodes k Hk) as (r & c & Hp).
    apply position_ok_iff in Hp as [_ Hc]. eauto. }
  assert (Hrun_columns : Spreadsheet_get_num_columns self w1 = Raises IndexError w1).
  { rewrite <- (alloc_nil w1). rewrite (get_num_columns_alloc w1 self _ Hd1 []).
    unfold axis_size. rewrite Hkeys.
    now rewrite (result_all_error _ _ [] key cs IndexError Hcs Hcolumn). }
  exists w1. split; [now apply setitem_run |]. split; [exact Hrun_columns |].
  unfold Spreadsheet_get_shape.
  destruct (Py.int_of_str key) as [n|] eqn:Hint.
  - assert (Hrun_rows : exists rows, Spreadsheet_get_num_rows self w1 = Returns rows w1).
    { rewrite <- (alloc_nil w1). rewrite (get_num_rows_alloc w1 self _ Hd1 []).
      unfold axis_size. rewrite Hkeys.
      rewrite (result_all_ok _ _ (rs ++ [n])).
      - simpl. destruct (rs ++ [n])%list eqn:Hnil; [now destruct rs |]. simpl. eauto.
      - apply Forall2_app; [exact Hrs |]. constructor; [exact Hrow | constructor]. }
    destruct Hrun_rows as [rows Hrun_rows].
    rewrite (bind_run _ _ _ _ _ Hrun_rows). now rewrite (bind_raise _ _ _ _ _ Hrun_columns).
  - rewrite (bind_raise _ _ w1 w1 (ValueError_int key)); [reflexivity |].
    rewrite <- (alloc_nil w1). rewrite (get_num_rows_alloc w1 self _ Hd1 []).
    unfold axis_size. rewrite Hkeys.
    now rewrite (result_all_error _ _ [] key rs (ValueError_int key) Hrs Hrow).
Qed.

Lemma X18_malformed_key_breaks_shape_witness :
  sheet_objs example_world !! 0%nat = Some (grid_dict 0) /\
  (forall k, In k (dict_keys (grid_dict 0)) ->
             exists row column, position_from_cell_id k = Ok (row, column)) /\
  str_forall no_underscore "total" = true /\
  exists w1 : World,
    Spreadsheet_setitem 0 "total" 2 example_world = Returns tt w1 /\
    Spreadsheet_get_shape 0 w1 = Raises (ValueError_int "total") w1.
Proof.
  assert (Hdecodes : forall key, In key (dict_keys (grid_dict 0)) ->
                       exists row column, position_from_cell_id key = Ok (row, column)).
  { intros key Hkey. simpl in Hkey.
    repeat destruct Hkey as [<- | Hkey]; try contradiction; eexists _, _; reflexivity. }
  split; [reflexivity |]. split; [exact Hdecodes |]. split; [reflexivity |].
  destruct (X18_malformed_key_breaks_shape example_world 0%nat (grid_dict 0) "total" 2%nat
              eq_refl Hdecodes eq_refl) as (w1 & Hset & _ & Hshape).
  now exists w1.
Defined.

(** ** Rows and columns, in general *)

Lemma range_lookup (start stop i : Z) :
  start <= i < stop -> Py.range start stop !! Z.to_nat (i - start) = Some i.
Proof.
  intros Hi. unfold Py.range. rewrite list_lookup_fmap.
  rewrite lookup_seq_lt by lia. simpl. f_equal. lia.
Qed.

Lemma range_length (start stop : Z) :
  length (Py.range start stop) = Z.to_nat (stop - start).
Proof. unfold Py.range. now rewrite length_map, length_seq. Qed.

Section DenseGrid.

Variables (w : World) (self : nat) (d : list (string * nat)).
Hypothesis Hd : sheet_objs w !! self = Some d.

(** One inner comprehension: a lookup per element. *)
Lemma lookups_run (g : Z -> string) (l : list Z) :
  forall cs,
    exists row,
      comprehension l (fun b => Spreadsheet_getitem self (g b)) (alloc w cs)
      = Returns row (alloc w (cs ++ replicate (length l) (placeholder self))) /\
      Forall2 (fun b cell =>
                 resolved d (length (cell_objs w) + length cs) (length l) (g b) cell)
              l row.
Proof.
  induction l as [|b l IH]; intros cs.
  - exists []. simpl. rewrite app_nil_r. split; [reflexivity | constructor].
  - destruct (IH (cs ++ [placeholder self])%list) as (row & Hrun & Hrow).
    exists (default (length (cell_objs w) + length cs)%nat (dict_get d (g b)) :: row).
    split.
    + cbn [comprehension].
      rewrite (bind_run _ _ _ _ _ (getitem_alloc w self d Hd cs (g b))).
      rewrite (bind_run _ _ _ _ _ Hrun). unfold ret. f_equal.
      now rewrite <- app_assoc.
    + constructor.
      * unfold resolved. destruct (dict_get d (g b)); simpl; [reflexivity | lia].
      * eapply Forall2_impl; [exact Hrow |]. intros b' cell. unfold resolved.
        rewrite length_app. simpl.
        destruct (dict_get d (g b')); [auto | lia].
Qed.

(** The nested comprehension of [get_rows] and [get_columns]: [count] is the
    method that sizes the inner loop, and returns [n] in every world that
    only has more cells. *)
Lemma grid_run (count : nat -> M Z) (n : Z) (key : Z -> Z -> string) :
  (forall cs, count self (alloc w cs) = Returns n (alloc w cs)) ->
  forall (outer : list Z) (cs : list Cell),
    let total := (length outer * Z.to_nat n)%nat in
    exists lines,
      comprehension outer
        (fun a => let! size := count self in
                  comprehension (Py.range 0 size)
                    (fun b => Spreadsheet_getitem self (key a b)))
        (alloc w cs)
      = Returns lines (alloc w (cs ++ replicate total (placeholder self))) /\
      Forall2 (fun a line =>
                 Forall2 (fun b cell =>
                            resolved d (length (cell_objs w) + length cs) total
                                     (key a b) cell)
                         (Py.range 0 n) line)
              outer lines.
Proof.
  intros Hcount. induction outer as [|a outer IH]; intros cs total.
  - exists []. simpl. rewrite app_nil_r. split; [reflexivity | constructor].
  - destruct (lookups_run (key a) (Py.range 0 n) cs) as (line & Hline_run & Hline).
    rewrite range_length, Z.sub_0_r in Hline_run, Hline.
    destruct (IH (cs ++ replicate (Z.to_nat n) (placeholder self))%list)
      as (lines & Hrun & Hlines).
    exists (line :: lines). split.
    + cbn [comprehension]. rewrite bind_assoc.
      rewrite (bind_run _ _ _ _ _ (Hcount cs)).
      rewrite (bind_run _ _ _ _ _ Hline_run).
      rewrite (bind_run _ _ _ _ _ Hrun). unfold ret. f_equal.
      rewrite <- app_assoc, <- replicate_add. reflexivity.
    + constructor.
      * eapply Forall2_impl; [exact Hline |]. intros b cell. unfold resolved, total.
        destruct (dict_get d (key a b)); [auto | simpl; lia].
      * eapply Forall2_impl; [exact Hlines |]. intros a' line'. simpl.
        intros Hline'. eapply Forall2_impl; [exact Hline' |]. intros b cell.
        unfold resolved, total. rewrite length_app, length_replicate.
        destruct (dict_get d (key a' b)); [auto | simpl; lia].
Qed.

End DenseGrid.

Lemma resolved_placeholder (w : World) (self : nat) (d : list (string * nat))
    (total : nat) (key : string) (cell : nat) :
  resolved d (length (cell_objs w) + 0) total key cell ->
  match dict_get d key with
  | Some stored => cell = stored
  | None =>
      cell_objs w !! cell = None /\
      cell_objs (alloc w ([] ++ replicate total (placeholder self))) !! cell
        = Some (placeholder self)
  end.
Proof.
  unfold resolved. destruct (dict_get d key); [auto |]. intros Hcell. split.
  - apply lookup_ge_None. lia.
  - simpl. rewrite lookup_app_r by lia. apply lookup_replicate_2. lia.
Qed.

(** X19: [get_rows] and [get_columns] materialise the dense grid of the
    shape.  On a sheet whose shape is [(rows, columns)], [get_rows] returns
    [rows] lists and [get_columns] returns [columns] lists; for every position
    inside the shape, element [x] of row [y] and element [y] of column [x] are
    the cell stored at [(y, x)], or, where nothing is stored, placeholders
    constructed by the call.  Neither call writes the sheets. *)
Theorem X19_rows_and_columns (w : World) (self : nat) (d : list (string * nat))
    (rows columns : Z) :
  sheet_objs w !! self = Some d ->
  Spreadsheet_get_shape self w = Returns (rows, columns) w ->
  exists (by_row by_column : list (list nat)) (w1 w2 : World),
    Spreadsheet_get_rows self w = Returns by_row w1 /\
    Spreadsheet_get_columns self w = Returns by_column w2 /\
    length by_row = Z.to_nat rows /\ length by_column = Z.to_nat columns /\
    sheet_objs w1 = sheet_objs w /\ sheet_objs w2 = sheet_objs w /\
    forall y x : Z,
      0 <= y < rows -> 0 <= x < columns ->
      exists line1 cell1 line2 cell2,
        by_row !! Z.to_nat y = Some line1 /\ line1 !! Z.to_nat x = Some cell1 /\
        by_column !! Z.to_nat x = Some line2 /\ line2 !! Z.to_nat y = Some cell2 /\
        match dict_get d (cell_id_from_position (y, x)) with
        | Some stored => cell1 = stored /\ cell2 = stored
        | None =>
            cell_objs w !! cell1 = None /\ cell_objs w !! cell2 = None /\
            cell_objs w1 !! cell1 = Some (placeholder self) /\
            cell_objs w2 !! cell2 = Some (placeholder self)
        end.
Proof.
  intros Hd Hshape.
  assert (Hsizes : axis_size row_number_from_cell_id d = Ok rows /\
                   axis_size column_number_from_cell_id d = Ok columns).
  { unfold Spreadsheet_get_shape in Hshape. unfold bind at 1 in Hshape.
    rewrite <- (alloc_nil w) in Hshape at 1.
    rewrite (get_num_rows_alloc w self d Hd []) in Hshape.
    destruct (axis_size row_number_from_cell_id d) as [r | e]; [| discriminate].
    simpl in Hshape. unfold bind at 1 in Hshape.
    rewrite (get_num_columns_alloc w self d Hd []) in Hshape.
    destruct (axis_size column_number_from_cell_id d) as [c | e]; [| discriminate].
    simpl in Hshape. injection Hshape as -> ->. now split. }
  destruct Hsizes as [Hrows Hcolumns].
  assert (Hcount_rows : forall cs,
             Spreadsheet_get_num_rows self (alloc w cs) = Returns rows (alloc w cs)).
  { intros cs. now rewrite (get_num_rows_alloc w self d Hd cs), Hrows. }
  assert (Hcount_columns : forall cs,
             Spreadsheet_get_num_columns self (alloc w cs) = Returns columns (alloc w cs)).
  { intros cs. now rewrite (get_num_columns_alloc w self d Hd cs), Hcolumns. }
  destruct (grid_run w self d Hd Spreadsheet_get_num_columns columns
              (fun y x => format_cell_id y (column_id_from_number x))
              Hcount_columns (Py.range 0 rows) [])
    as (by_row & Hrun_rows & Hby_row).
  destruct (grid_run w self d Hd Spreadsheet_get_num_rows rows
              (fun x y => format_cell_id y (column_id_from_number x))
              Hcount_rows (Py.range 0 columns) [])
    as (by_column & Hrun_columns & Hby_column).
  exists by_row, by_column. eexists _, _.
  split; [| split; [| split; [| split; [| split; [| split]]]]].
  - unfold Spreadsheet_get_rows. rewrite <- (alloc_nil w) at 1.
    rewrite (bind_run _ _ _ _ _ (Hcount_rows [])). exact Hrun_rows.
  - unfold Spreadsheet_get_columns. rewrite <- (alloc_nil w) at 1.
    rewrite (bind_run _ _ _ _ _ (Hcount_columns [])). exact Hrun_columns.
  - apply Forall2_length in Hby_row. rewrite <- Hby_row, range_length. lia.
  - apply Forall2_length in Hby_column. rewrite <- Hby_column, range_length. lia.
  - reflexivity.
  - reflexivity.
  - intros y x Hy Hx.
    pose proof (range_lookup 0 rows y Hy) as Hly. rewrite Z.sub_0_r in Hly.
    pose proof (range_lookup 0 columns x Hx) as Hlx. rewrite Z.sub_0_r in Hlx.
    destruct (Forall2_lookup_l _ _ _ _ _ Hby_row Hly) as (line1 & Hline1 & Hcells1).
    destruct (Forall2_lookup_l _ _ _ _ _ Hcells1 Hlx) as (cell1 & Hcell1 & Hres1).
    destruct (Forall2_lookup_l _ _ _ _ _ Hby_column Hlx) as (line2 & Hline2 & Hcells2).
    destruct (Forall2_lookup_l _ _ _ _ _ Hcells2 Hly) as (cell2 & Hcell2 & Hres2).
    exists line1, cell1, line2, cell2. repeat (split; [assumption |]).
    apply (resolved_placeholder w self) in Hres1, Hres2.
    change (format_cell_id y (column_id_from_number x))
      with (cell_id_from_position (y, x)) in Hres1, Hres2.
    destruct (dict_get d (cell_id_from_position (y, x))); [now split | tauto].
Qed.

Lemma X19_rows_and_columns_witness :
  sheet_objs example_world !! 0%nat = Some (grid_dict 0) /\
  Spreadsheet_get_shape 0 example_world = Returns (2, 2) example_world /\
  exists (by_row by_column : list (list nat)) (w1 w2 : World),
    Spreadsheet_get_rows 0 example_world = Returns by_row w1 /\
    Spreadsheet_get_columns 0 example_world = Returns by_column w2 /\
    length by_row = 2%nat /\ length by_column = 2%nat.
Proof.
  split; [reflexivity |]. split; [reflexivity |].
  destruct (X19_rows_and_columns example_world 0%nat (grid_dict 0) 2 2 eq_refl eq_refl)
    as (by_row & by_column & w1 & w2 & Hrows & Hcolumns & Hlen1 & Hlen2 & _).
  now exists by_row, by_column, w1, w2.
Defined.

(** ** Alignment and time codes *)

Lemma len_app (s1 s2 : string) : Py.len (s1 +:+ s2) = Py.len s1 + Py.len s2.
Proof.
  unfold Py.len. induction s1 as [|c s1 IH]; simpl; [reflexivity | lia].
Qed.

(** X20: [format_align] never truncates.  For the three alignments the
    result is as long as the larger of the width and the length of the text;
    when the text is at least as long as the width it is returned as it is;
    under any other alignment name the text is returned as it is. *)
Theorem X20_format_align_length :
  (forall (s : string) (width : Z),
      Py.len (format_align s width "left") = Z.max width (Py.len s) /\
      Py.len (format_align s width "right") = Z.max width (Py.len s) /\
      Py.len (format_align s width "center") = Z.max width (Py.len s)) /\
  (forall (s : string) (width : Z) (alignment : string),
      width <= Py.len s -> format_align s width alignment = s) /\
  (forall (s : string) (width : Z) (alignment : string),
      alignment <> "left" -> alignment <> "right" -> alignment <> "center" ->
      format_align s width alignment = s).
Proof.
  split; [| split].
  - intros s width. unfold format_align.
    change (String.eqb "left" "left") with true.
    change (String.eqb "right" "left") with false.
    change (String.eqb "right" "right") with true.
    change (String.eqb "center" "left") with false.
    change (String.eqb "center" "right") with false.
    change (String.eqb "center" "center") with true. cbv iota.
    rewrite !len_app, !spaces_len.
    remember (Z.max (width - Py.len s) 0) as pad eqn:Hpad.
    assert (0 <= pad) by lia.
    assert (0 <= pad / 2) by (apply Z.div_pos; lia).
    assert (pad / 2 * 2 <= pad) by (pose proof (Z.mul_div_le pad 2); lia).
    rewrite (Z.max_l pad 0), (Z.max_l (pad / 2) 0) by lia.
    rewrite (Z.max_l (pad - pad / 2 * 2) 0) by lia.
    repeat split; lia.
  - intros s width alignment Hwide. unfold format_align.
    replace (Z.max (width - Py.len s) 0) with 0 by lia.
    change (Py.spaces 0) with "". change (Py.len "") with 0.
    change (Py.spaces (0 / 2)) with "". change (Py.len "" * 2) with 0.
    change (Py.spaces (Z.max (0 - 0) 0)) with "".
    change ("" +:+ s) with s. rewrite !str_app_nil_r.
    now repeat destruct (String.eqb alignment _).
  - intros s width alignment Hleft Hright Hcenter. unfold format_align.
    apply String.eqb_neq in Hleft, Hright, Hcenter.
    now rewrite Hleft, Hright, Hcenter.
Qed.

Lemma pad2_two_digits : forallb (fun n => Py.len (pad2 n) =? 2) (Py.range 0 100) = true.
Proof. vm_compute. reflexivity. Qed.

Lemma pad2_len (n : Z) : 0 <= n < 100 -> Py.len (pad2 n) = 2.
Proof.
  intros Hn. pose proof pad2_two_digits as H. rewrite forallb_forall in H.
  apply Z.eqb_eq, H, in_range. exact Hn.
Qed.

(** X21: the time code of a duration.  For every number of seconds, the
    hours shown are [seconds // 3600], the minutes [(seconds % 3600) // 60]
    and the seconds [seconds % 60]; any precision other than "minutes" and
    "hours" gives the full form.  For a duration from 0 to under 100 hours
    the three forms have the fixed widths 5, 2 and 8. *)
Theorem X21_timecode (seconds : Z) :
  format_seconds_timecode seconds "minutes"
    = pad2 (seconds / 3600) +:+ ":" +:+ pad2 (seconds mod 3600 / 60) /\
  format_seconds_timecode seconds "hours" = pad2 (seconds / 3600) /\
  (forall precision,
      precision <> "minutes" -> precision <> "hours" ->
      format_seconds_timecode seconds precision
      = pad2 (seconds / 3600) +:+ ":" +:+ pad2 (seconds mod 3600 / 60)
          +:+ ":" +:+ pad2 (seconds mod 60)) /\
  (0 <= seconds < 360000 ->
   Py.len (format_seconds_timecode seconds "minutes") = 5 /\
   Py.len (format_seconds_timecode seconds "hours") = 2 /\
   Py.len (format_seconds_timecode seconds "seconds") = 8).
Proof.
  assert (Hh : seconds / 60 / 60 = seconds / 3600)
    by (rewrite Z.div_div by lia; reflexivity).
  assert (Hm : (seconds / 60) mod 60 = seconds mod 3600 / 60).
  { pose proof (Z.div_mod seconds 3600 ltac:(lia)).
    pose proof (Z.mod_pos_bound seconds 3600 ltac:(lia)).
    pose proof (Z.div_mod (seconds mod 3600) 60 ltac:(lia)).
    pose proof (Z.mod_pos_bound (seconds mod 3600) 60 ltac:(lia)).
    assert (0 <= seconds mod 3600 / 60 < 60)
      by (split; [apply Z.div_pos; lia | apply Z.div_lt_upper_bound; lia]).
    symmetry. apply (Z.mod_unique_pos _ _ (seconds / 3600)); [lia |].
    symmetry. apply (Z.div_unique_pos _ _ _ ((seconds mod 3600) mod 60)); lia. }
  assert (Hfull : forall precision,
             precision <> "minutes" -> precision <> "hours" ->
             format_seconds_timecode seconds precision
             = pad2 (seconds / 3600) +:+ ":" +:+ pad2 (seconds mod 3600 / 60)
                 +:+ ":" +:+ pad2 (seconds mod 60)).
  { intros precision H1 H2. unfold format_seconds_timecode.
    apply String.eqb_neq in H1, H2. now rewrite H1, H2, Hh, Hm. }
  assert (Hminutes : format_seconds_timecode seconds "minutes"
                     = pad2 (seconds / 3600) +:+ ":" +:+ pad2 (seconds mod 3600 / 60)).
  { unfold format_seconds_timecode.
    change (String.eqb "minutes" "minutes") with true. cbv iota. now rewrite Hh, Hm. }
  assert (Hhours : format_seconds_timecode seconds "hours" = pad2 (seconds / 3600)).
  { unfold format_seconds_timecode.
    change (String.eqb "hours" "minutes") with false.
    change (String.eqb "hours" "hours") with true. cbv iota. now rewrite Hh. }
  split; [exact Hminutes |]. split; [exact Hhours |]. split; [exact Hfull |].
  intros Hrange.
  assert (0 <= seconds / 3600 < 100)
    by (split; [apply Z.div_pos; lia | apply Z.div_lt_upper_bound; lia]).
  pose proof (Z.mod_pos_bound seconds 3600 ltac:(lia)).
  assert (0 <= seconds mod 3600 / 60 < 100)
    by (split; [apply Z.div_pos; lia | apply Z.div_lt_upper_bound; lia]).
  pose proof (Z.mod_pos_bound seconds 60 ltac:(lia)).
  rewrite Hminutes, Hhours, (Hfull "seconds") by discriminate.
  rewrite !len_app, !pad2_len by lia. repeat split.
Qed.

Lemma X21_timecode_witness :
  0 <= 3725 < 360000 /\
  format_seconds_timecode 3725 "seconds" = "01:02:05" /\
  Py.len (format_seconds_timecode 3725 "minutes") = 5.
Proof.
  split; [lia |]. split; [reflexivity |].
  destruct (X21_timecode 3725) as (_ & _ & _ & Hlen).
  destruct Hlen as (Hminutes & _); [lia | exact Hminutes].
Defined.

(** ** Deferred values and neighbours, continued *)

Section SelfReference.

Variables (callables : nat -> callable) (w : World) (cell : nat) (o : Cell) (f : nat).
Variables (d : list (string * nat)) (row column : Z).

Hypothesis Hf : callables f = read_neighbour (0, 0).
Hypothesis Ho : cell_objs w !! cell = Some o.
Hypothesis Hv : _value o = VCallable f.
Hypothesis Hd : sheet_objs w !! spreadsheet o = Some d.
Hypothesis Hk : dict_key_of d cell = Some (cell_id_from_position (row, column)).
Hypothesis Hget : dict_get d (cell_id_from_position (row, column)) = Some cell.
Hypothesis Hrow : 0 <= row.
Hypothesis Hcolumn : 0 <= column.

Lemma self_reference_run (depth : nat) :
  forall cs,
    Cell_value callables depth cell (alloc w cs) =
    Raises RecursionError
           (alloc w (cs ++ replicate depth (placeholder (spreadsheet o)))).
Proof.
  induction depth as [|depth IH]; intros cs.
  - simpl. rewrite (bind_run _ _ _ _ o) by (apply cell_obj_run; now apply alloc_lookup_old).
    rewrite Hv. now rewrite app_nil_r.
  - rewrite (value_deferred callables depth (alloc w cs) cell o f)
      by (try apply alloc_lookup_old; assumption).
    rewrite Hf. unfold read_neighbour.
    rewrite (bind_run _ _ _ (alloc w (cs ++ [placeholder (spreadsheet o)])) cell).
    + rewrite IH. now rewrite <- app_assoc.
    + rewrite (get_relative_neighbour_run (alloc w cs) cell o d _ row column (0, 0)
                 (alloc_lookup_old w cs cell o Ho) Hd Hk
                 (position_roundtrip row column Hcolumn)).
      simpl fst. simpl snd. rewrite !Z.add_0_r.
      rewrite (get_cell_at_position_run (alloc w cs) _ d _ _ Hd Hrow Hcolumn).
      rewrite Hget, alloc_alloc. reflexivity.
Qed.

End SelfReference.

(** X22: there is no cycle guard.  A deferred cell whose computation reads
    the value of the cell at offset [(0, 0)], that is its own value, never
    resolves: whatever the recursion limit, reading its value ends in
    [RecursionError], after one placeholder was constructed per nested
    call. *)
Theorem X22_self_reference_never_resolves (callables : nat -> callable) (w : World)
    (cell : nat) (o : Cell) (f : nat) (d : list (string * nat)) (row column : Z)
    (depth : nat) :
  callables f = read_neighbour (0, 0) ->
  cell_objs w !! cell = Some o -> _value o = VCallable f ->
  sheet_objs w !! spreadsheet o = Some d ->
  dict_key_of d cell = Some (cell_id_from_position (row, column)) ->
  dict_get d (cell_id_from_position (row, column)) = Some cell ->
  0 <= row -> 0 <= column ->
  Cell_value callables depth cell w =
  Raises RecursionError (alloc w (replicate depth (placeholder (spreadsheet o)))).
Proof.
  intros Hf Ho Hv Hd Hk Hget Hrow Hcolumn.
  rewrite <- (alloc_nil w) at 1.
  now rewrite (self_reference_run callables w cell o f d row column
                 Hf Ho Hv Hd Hk Hget Hrow Hcolumn depth []).
Qed.

Lemma X22_self_reference_never_resolves_witness :
  cell_objs deferred_world !! 0%nat = Some (literal_cell 0 (VCallable 0)) /\
  sheet_objs deferred_world !! 0%nat = Some [("0_", 0%nat); ("0_A", 1%nat)] /\
  dict_key_of [("0_", 0%nat); ("0_A", 1%nat)] 0 = Some (cell_id_from_position (0, 0)) /\
  dict_get [("0_", 0%nat); ("0_A", 1%nat)] (cell_id_from_position (0, 0)) = Some 0%nat /\
  exists w', Cell_value (fun _ => read_neighbour (0, 0)) 1000 0 deferred_world
             = Raises RecursionError w'.
Proof.
  repeat (split; [reflexivity |]).
  eexists.
  apply (X22_self_reference_never_resolves (fun _ => read_neighbour (0, 0))
           deferred_world 0%nat (literal_cell 0 (VCallable 0)) 0%nat
           [("0_", 0%nat); ("0_A", 1%nat)] 0 0 1000);
    try reflexivity; lia.
Defined.

(** X23: neighbours there and back.  If a cell and the cell stored at offset
    [(dr, dc)] from it are both addressed by the keys of their positions,
    going to the neighbour and from there by [(-dr, -dc)] returns the first
    cell. *)
Theorem X23_neighbour_there_and_back (w : World) (cell neighbour : nat) (o on : Cell)
    (d : list (string * nat)) (row column dr dc : Z) :
  cell_objs w !! cell = Some o -> cell_objs w !! neighbour = Some on ->
  spreadsheet on = spreadsheet o ->
  sheet_objs w !! spreadsheet o = Some d ->
  0 <= row -> 0 <= column -> 0 <= row + dr -> 0 <= column + dc ->
  dict_key_of d cell = Some (cell_id_from_position (row, column)) ->
  dict_get d (cell_id_from_position (row, column)) = Some cell ->
  dict_key_of d neighbour = Some (cell_id_from_position (row + dr, column + dc)) ->
  dict_get d (cell_id_from_position (row + dr, column + dc)) = Some neighbour ->
  exists w1 w2,
    Cell_get_relative_neighbour cell (dr, dc) w = Returns neighbour w1 /\
    Cell_get_relative_neighbour neighbour (- dr, - dc) w1 = Returns cell w2.
Proof.
  intros Ho Hon Hsame Hd Hrow Hcolumn Hrow' Hcolumn' Hk Hget Hk' Hget'.
  exists (alloc w [placeholder (spreadsheet o)]),
         (alloc (alloc w [placeholder (spreadsheet o)]) [placeholder (spreadsheet o)]).
  split.
  - rewrite (get_relative_neighbour_run w cell o d _ row column (dr, dc) Ho Hd Hk)
      by now apply position_roundtrip.
    simpl fst. simpl snd.
    rewrite (get_cell_at_position_run w _ d) by assumption. now rewrite Hget'.
  - set (w1 := alloc w [placeholder (spreadsheet o)]).
    assert (Hon1 : cell_objs w1 !! neighbour = Some on) by now apply alloc_lookup_old.
    assert (Hd1 : sheet_objs w1 !! spreadsheet on = Some d) by now rewrite Hsame.
    rewrite (get_relative_neighbour_run w1 neighbour on d _ (row + dr) (column + dc)
               (- dr, - dc) Hon1 Hd1 Hk') by now apply position_roundtrip.
    simpl fst. simpl snd.
    replace (row + dr + - dr) with row by lia.
    replace (column + dc + - dc) with column by lia.
    rewrite Hsame in *.
    rewrite (get_cell_at_position_run w1 _ d _ _ Hd Hrow Hcolumn). now rewrite Hget.
Qed.

Lemma X23_neighbour_there_and_back_witness :
  cell_objs example_world !! 0%nat = Some (literal_cell 0 (VStr "a")) /\
  cell_objs example_world !! 3%nat = Some (literal_cell 0 (VStr "d")) /\
  sheet_objs example_world !! 0%nat = Some (grid_dict 0) /\
  exists w1 w2,
    Cell_get_relative_neighbour 0 (1, 1) example_world = Returns 3%nat w1 /\
    Cell_get_relative_neighbour 3 (- (1), - (1)) w1 = Returns 0%nat w2.
Proof.
  repeat (split; [reflexivity |]).
  apply (X23_neighbour_there_and_back example_world 0%nat 3%nat
           (literal_cell 0 (VStr "a")) (literal_cell 0 (VStr "d")) (grid_dict 0) 0 0 1 1);
    try reflexivity; lia.
Defined.


